(** * Invoice and PO processing: a shallow embedding of [invoice_processor.py]

    The development follows the source file top-down: the library
    functions the program calls ([re.search], [str.lower], [float],
    [round], [datetime.strptime] / [strftime]), then the workbook with its
    two sheets, then the methods of [InvoiceProcessor], and finally the
    properties of the specification.

    Text is a string of 8-bit characters, read as the code points
    U+0000..U+00FF.  Python [float] values are IEEE binary64 numbers, here
    the primitive floats of Rocq. *)

From Stdlib Require Import ZArith NArith Floats Ascii String List Bool Lia.
From stdpp Require Import gmap strings list.

Set Warnings "-inexact-float,-abstract-large-number".
Local Open Scope string_scope.

(** ** Characters *)

Module Chr.

Definition code (c : ascii) : N := N_of_ascii c.

Definition in_range (lo hi : N) (c : ascii) : bool :=
  ((lo <=? code c) && (code c <=? hi))%N.

Definition is_code (n : N) (c : ascii) : bool := (code c =? n)%N.

(** [\d] and [str.isdigit] below U+0100. *)
Definition is_digit (c : ascii) : bool := in_range 48 57 c.

(** [\s] and [str.isspace] below U+0100: TAB..CR, FS..US, space, NEL, NBSP. *)
Definition is_space (c : ascii) : bool :=
  in_range 9 13 c || in_range 28 32 c || is_code 133 c || is_code 160 c.

(** [\w] below U+0100: alphanumerics and the underscore. *)
Definition is_word (c : ascii) : bool :=
  is_digit c || in_range 65 90 c || in_range 97 122 c || is_code 95 c
  || is_code 170 c || in_range 178 179 c || is_code 181 c
  || in_range 185 186 c || in_range 188 190 c
  || in_range 192 214 c || in_range 216 246 c || in_range 248 255 c.

(** [str.lower] on one character: A..Z and the Latin-1 capitals. *)
Definition to_lower (c : ascii) : ascii :=
  if in_range 65 90 c || (in_range 192 222 c && negb (is_code 215 c))
  then ascii_of_N (code c + 32) else c.

(** Simple upper-case mapping, for the characters whose image stays below
    U+0100. *)
Definition to_upper (c : ascii) : ascii :=
  if in_range 97 122 c || (in_range 224 254 c && negb (is_code 247 c))
  then ascii_of_N (code c - 32) else c.

Definition eqb (a b : ascii) : bool := (code a =? code b)%N.

Definition newline : ascii := ascii_of_N 10.

End Chr.

(** ** Strings *)

Module Str.

Fixpoint lower (s : string) : string :=
  match s with
  | EmptyString => EmptyString
  | String c s' => String (Chr.to_lower c) (lower s')
  end.

Fixpoint is_prefix (p s : string) : bool :=
  match p, s with
  | EmptyString, _ => true
  | String a p', String b s' => Chr.eqb a b && is_prefix p' s'
  | String _ _, EmptyString => false
  end.

(** [sub in s] *)
Fixpoint contains (sub s : string) : bool :=
  is_prefix sub s ||
  match s with
  | EmptyString => false
  | String _ s' => contains sub s'
  end.

Fixpoint lstrip (s : string) : string :=
  match s with
  | String c s' => if Chr.is_space c then lstrip s' else s
  | EmptyString => EmptyString
  end.

(** Drops trailing white space: a character is kept when something that is
    not white space follows it or when it is not white space itself. *)
Fixpoint rstrip (s : string) : string :=
  match s with
  | EmptyString => EmptyString
  | String c s' =>
      match rstrip s' with
      | EmptyString => if Chr.is_space c then EmptyString else String c EmptyString
      | r => String c r
      end
  end.

(** [s.strip()] *)
Definition strip (s : string) : string := rstrip (lstrip s).

(** [s.replace(c, '')] for a one-character [c]. *)
Fixpoint remove_char (c : ascii) (s : string) : string :=
  match s with
  | EmptyString => EmptyString
  | String a s' => if Chr.eqb a c then remove_char c s' else String a (remove_char c s')
  end.

(** [s[i:j]] for [0 <= i <= j]. *)
Definition slice (i j : nat) (s : string) : string := substring i (j - i) s.

End Str.

(** ** Regular expressions: the fragment of [re] the program uses

    Every repetition in the program's patterns is over a single character
    (a literal, a class or the dot); groups are never repeated.  The
    matcher is the backtracking matcher of [re]: alternatives are tried
    left to right, a greedy repetition takes as many characters as it can
    and gives them back one at a time, a lazy one starts from the fewest. *)

Module Re.

Inductive citem :=
| CChar (c : ascii)
| CRange (lo hi : ascii)
| CDigit | CNotDigit
| CSpace | CNotSpace
| CWord | CNotWord.

Inductive atom :=
| ALit (c : ascii)
| ADot
| AClass (neg : bool) (items : list citem).

Inductive regex :=
| REps
| RAtom (a : atom)
| RSeq (r1 r2 : regex)
| RAlt (r1 r2 : regex)
| RRep (a : atom) (lo : nat) (hi : option nat) (greedy : bool)
| RGroup (n : nat) (r : regex)
| RBol
| REol.

Record flags := { ignorecase : bool; multiline : bool; dotall : bool }.

Definition NOFLAGS := {| ignorecase := false; multiline := false; dotall := false |}.
Definition IGNORECASE := {| ignorecase := true; multiline := false; dotall := false |}.
Definition IGNORECASE_MULTILINE := {| ignorecase := true; multiline := true; dotall := false |}.
Definition IGNORECASE_DOTALL := {| ignorecase := true; multiline := false; dotall := true |}.

(** *** Matching one character *)

Definition citem_match (c : ascii) (i : citem) : bool :=
  match i with
  | CChar a => Chr.eqb c a
  | CRange lo hi => Chr.in_range (Chr.code lo) (Chr.code hi) c
  | CDigit => Chr.is_digit c
  | CNotDigit => negb (Chr.is_digit c)
  | CSpace => Chr.is_space c
  | CNotSpace => negb (Chr.is_space c)
  | CWord => Chr.is_word c
  | CNotWord => negb (Chr.is_word c)
  end.

Definition in_items (items : list citem) (c : ascii) : bool :=
  existsb (citem_match c) items.

(** Under IGNORECASE a character is in a set when its lower-case or its
    upper-case form is. *)
Definition in_class (fl : flags) (items : list citem) (c : ascii) : bool :=
  if ignorecase fl
  then in_items items c || in_items items (Chr.to_lower c) || in_items items (Chr.to_upper c)
  else in_items items c.

Definition atom_match (fl : flags) (a : atom) (c : ascii) : bool :=
  match a with
  | ALit x => if ignorecase fl then Chr.eqb (Chr.to_lower c) (Chr.to_lower x) else Chr.eqb c x
  | ADot => dotall fl || negb (Chr.eqb c Chr.newline)
  | AClass neg items => xorb neg (in_class fl items c)
  end.

(** *** The matcher *)

(** A position in the subject: how many characters were consumed, the
    character before the position, the rest of the subject, and the spans
    of the groups closed so far. *)
Record mstate := MState {
  pos : nat;
  prev : option ascii;
  rest : string;
  caps : list (nat * (nat * nat))
}.

Definition advance (c : ascii) (s' : string) (st : mstate) : mstate :=
  MState (S (pos st)) (Some c) s' (caps st).

Definition close_group (n : nat) (start : nat) (st : mstate) : mstate :=
  MState (pos st) (prev st) (rest st) ((n, (start, pos st)) :: caps st).

Definition at_bol (fl : flags) (st : mstate) : bool :=
  match prev st with
  | None => true
  | Some c => multiline fl && Chr.eqb c Chr.newline
  end.

Definition at_eol (fl : flags) (st : mstate) : bool :=
  match rest st with
  | EmptyString => true
  | String c EmptyString => Chr.eqb c Chr.newline
  | String c _ => multiline fl && Chr.eqb c Chr.newline
  end.

Definition may_repeat (hi : option nat) : bool :=
  match hi with Some 0 => false | _ => true end.

Definition dec_hi (hi : option nat) : option nat :=
  match hi with Some n => Some (Nat.pred n) | None => None end.

Definition or_else {A} (x : option A) (y : option A) : option A :=
  match x with Some _ => x | None => y end.

Section Matcher.
Context (fl : flags).

(** Repetition of one atom between [lo] and [hi] times, by recursion on
    the rest of the subject. *)
Fixpoint rep (a : atom) (greedy : bool) (lo : nat) (hi : option nat)
    (n : nat) (pv : option ascii) (s : string) (cs : list (nat * (nat * nat)))
    (k : mstate -> option mstate) {struct s} : option mstate :=
  let here := match lo with 0 => k (MState n pv s cs) | S _ => None end in
  match s with
  | String c s' =>
      if may_repeat hi && atom_match fl a c then
        let more := rep a greedy (Nat.pred lo) (dec_hi hi) (S n) (Some c) s' cs k in
        if greedy
        then or_else more here
        else match lo with
             | 0 => or_else here more
             | S _ => more
             end
      else here
  | EmptyString => here
  end.

Fixpoint rmatch (r : regex) (st : mstate) (k : mstate -> option mstate)
    {struct r} : option mstate :=
  match r with
  | REps => k st
  | RAtom a =>
      match rest st with
      | String c s' => if atom_match fl a c then k (advance c s' st) else None
      | EmptyString => None
      end
  | RSeq r1 r2 => rmatch r1 st (fun st' => rmatch r2 st' k)
  | RAlt r1 r2 => or_else (rmatch r1 st k) (rmatch r2 st k)
  | RRep a lo hi greedy => rep a greedy lo hi (pos st) (prev st) (rest st) (caps st) k
  | RGroup n r1 => rmatch r1 st (fun st' => k (close_group n (pos st) st'))
  | RBol => if at_bol fl st then k st else None
  | REol => if at_eol fl st then k st else None
  end.

(** [pattern.match]: a match that starts at the beginning of the subject. *)
Definition match_at (r : regex) (n : nat) (pv : option ascii) (s : string)
    : option mstate :=
  rmatch r (MState n pv s []) Some.

(** [pattern.search]: the first start position with a match. *)
Fixpoint search_from (r : regex) (n : nat) (pv : option ascii) (s : string)
    {struct s} : option (nat * mstate) :=
  match match_at r n pv s with
  | Some st => Some (n, st)
  | None =>
      match s with
      | String c s' => search_from r (S n) (Some c) s'
      | EmptyString => None
      end
  end.

End Matcher.

(** A match object: the subject and the spans of its groups. *)
Record match_obj := Match { subject : string; spans : list (nat * (nat * nat)) }.

Fixpoint span_of (n : nat) (cs : list (nat * (nat * nat))) : option (nat * nat) :=
  match cs with
  | [] => None
  | (m, sp) :: cs' => if Nat.eqb m n then Some sp else span_of n cs'
  end.

(** [m.group(n)]; a group that took no part in the match gives [None]. *)
Definition group (m : match_obj) (n : nat) : option string :=
  match span_of n (spans m) with
  | Some (i, j) => Some (Str.slice i j (subject m))
  | None => None
  end.

End Re.

(** ** Pattern syntax

    The patterns are kept as the strings of the source and parsed here.
    The parser covers the syntax those patterns use: literals, escapes,
    classes, the dot, groups (capturing, [(?:...)] and [(?P<name>...)]),
    alternation, [^] and [$], and the quantifiers [*], [+], [?], [{m}],
    [{m,}], [{m,n}] with an optional lazy suffix, on single characters. *)

Module ReParse.
Import Re.

Local Open Scope char_scope.

Definition digit_val (c : ascii) : nat := N.to_nat (Chr.code c - 48).

Fixpoint number (acc : option nat) (s : string) : option nat * string :=
  match s with
  | String c s' =>
      if Chr.is_digit c
      then number (Some (10 * default 0 acc + digit_val c)) s'
      else (acc, s)
  | EmptyString => (acc, s)
  end.

Definition class_escape (c : ascii) : option citem :=
  match c with
  | "d" => Some CDigit | "D" => Some CNotDigit
  | "s" => Some CSpace | "S" => Some CNotSpace
  | "w" => Some CWord | "W" => Some CNotWord
  | _ => None
  end.

Definition is_ascii_alnum (c : ascii) : bool :=
  Chr.is_digit c || Chr.in_range 65 90 c || Chr.in_range 97 122 c.

Definition char_escape (c : ascii) : option ascii :=
  match c with
  | "n" => Some Chr.newline
  | "t" => Some (ascii_of_N 9)
  | "r" => Some (ascii_of_N 13)
  | "f" => Some (ascii_of_N 12)
  | "v" => Some (ascii_of_N 11)
  | _ => if is_ascii_alnum c then None else Some c
  end.

(** The items of a class, after the opening bracket and the optional [^]. *)
Fixpoint parse_class (fuel : nat) (s : string) (acc : list citem)
    : option (list citem * string) :=
  match fuel with
  | 0 => None
  | S f =>
      let item (c : ascii) (s' : string) :=
        match s' with
        | String "-" (String h s'') =>
            if Chr.eqb h "]" then parse_class f s' (CChar c :: acc)
            else if Chr.eqb h "\" then
              match s'' with
              | String e s3 =>
                  match char_escape e with
                  | Some hi => parse_class f s3 (CRange c hi :: acc)
                  | None => None
                  end
              | EmptyString => None
              end
            else parse_class f s'' (CRange c h :: acc)
        | _ => parse_class f s' (CChar c :: acc)
        end in
      match s with
      | EmptyString => None
      | String "]" s' => match acc with [] => None | _ => Some (rev acc, s') end
      | String "\" (String e s') =>
          match class_escape e with
          | Some it => parse_class f s' (it :: acc)
          | None =>
              match char_escape e with
              | Some c => item c s'
              | None => None
              end
          end
      | String "\" EmptyString => None
      | String c s' => item c s'
      end
  end.

(** A quantifier, when one follows: its bounds and whether it is greedy. *)
Definition parse_quant (s : string) : option (option (nat * option nat * bool) * string) :=
  let bounds : option (option (nat * option nat) * string) :=
    match s with
    | String "*" s' => Some (Some (0, None), s')
    | String "+" s' => Some (Some (1, None), s')
    | String "?" s' => Some (Some (0, Some 1), s')
    | String "{" s' =>
        match number None s' with
        | (lo, String "}" s'') =>
            match lo with
            | Some n => Some (Some (n, Some n), s'')
            | None => None
            end
        | (lo, String "," s'') =>
            match number None s'' with
            | (hi, String "}" s3) => Some (Some (default 0 lo, hi), s3)
            | _ => None
            end
        | _ => None
        end
    | _ => Some (None, s)
    end in
  match bounds with
  | None => None
  | Some (None, s') => Some (None, s')
  | Some (Some (lo, hi), s') =>
      match s' with
      | String "?" s'' => Some (Some (lo, hi, false), s'')
      | String "+" _ => None
      | _ => Some (Some (lo, hi, true), s')
      end
  end.

Definition quantified (a : atom) (s : string) : option (regex * string) :=
  match parse_quant s with
  | None => None
  | Some (None, s') => Some (RAtom a, s')
  | Some (Some (lo, hi, greedy), s') => Some (RRep a lo hi greedy, s')
  end.

(** Something that is not a single character takes no quantifier here. *)
Definition unquantified (r : regex) (s : string) : option (regex * string) :=
  match parse_quant s with
  | Some (None, s') => Some (r, s')
  | _ => None
  end.

Fixpoint skip_name (s : string) : option string :=
  match s with
  | String ">" s' => Some s'
  | String _ s' => skip_name s'
  | EmptyString => None
  end.

(** [parse_alt] reads alternatives up to a closing parenthesis or the end
    of the pattern; [gi] is the number of the next capturing group. *)
Fixpoint parse_alt (fuel : nat) (s : string) (gi : nat) {struct fuel}
    : option (regex * string * nat) :=
  match fuel with
  | 0 => None
  | S f =>
      let fix parse_seq (n : nat) (s : string) (gi : nat) {struct n}
          : option (regex * string * nat) :=
        match n with
        | 0 => None
        | S n' =>
            let continue (x : option (regex * string)) (gi : nat) :=
              match x with
              | None => None
              | Some (r, s') =>
                  match parse_seq n' s' gi with
                  | Some (REps, s'', gi') => Some (r, s'', gi')
                  | Some (r', s'', gi') => Some (RSeq r r', s'', gi')
                  | None => None
                  end
              end in
            match s with
            | EmptyString => Some (REps, s, gi)
            | String "|" _ => Some (REps, s, gi)
            | String ")" _ => Some (REps, s, gi)
            | String "(" s' =>
                let body (capture : bool) (s1 : string) :=
                  let gi1 := if capture then S gi else gi in
                  match parse_alt f s1 gi1 with
                  | Some (r, String ")" s2, gi2) =>
                      continue (unquantified (if capture then RGroup gi r else r) s2) gi2
                  | _ => None
                  end in
                match s' with
                | String "?" (String ":" s1) => body false s1
                | String "?" (String "P" (String "<" s1)) =>
                    match skip_name s1 with
                    | Some s2 => body true s2
                    | None => None
                    end
                | String "?" _ => None
                | _ => body true s'
                end
            | String "[" s' =>
                let '(neg, s1) :=
                  match s' with
                  | String "^" s1 => (true, s1)
                  | _ => (false, s')
                  end in
                match parse_class (String.length s1) s1 [] with
                | Some (items, s2) => continue (quantified (AClass neg items) s2) gi
                | None => None
                end
            | String "." s' => continue (quantified ADot s') gi
            | String "^" s' => continue (unquantified RBol s') gi
            | String "$" s' => continue (unquantified REol s') gi
            | String "\" (String e s') =>
                match class_escape e with
                | Some it => continue (quantified (AClass false [it]) s') gi
                | None =>
                    match char_escape e with
                    | Some c => continue (quantified (ALit c) s') gi
                    | None => None
                    end
                end
            | String "\" EmptyString => None
            | String "*" _ | String "+" _ | String "?" _ | String "{" _ => None
            | String c s' => continue (quantified (ALit c) s') gi
            end
        end in
      match parse_seq (S (String.length s)) s gi with
      | Some (r, String "|" s', gi') =>
          match parse_alt f s' gi' with
          | Some (r', s'', gi'') => Some (RAlt r r', s'', gi'')
          | None => None
          end
      | x => x
      end
  end.

(** [re.compile]: [None] for a pattern outside the fragment. *)
Definition compile (p : string) : option regex :=
  match parse_alt (S (String.length p)) p 1 with
  | Some (r, EmptyString, _) => Some r
  | _ => None
  end.

End ReParse.

(** [re.search(pattern, string, flags)] and [re.match]. *)
Definition re_search (pattern : string) (text : string) (fl : Re.flags)
    : option Re.match_obj :=
  match ReParse.compile pattern with
  | Some r =>
      match Re.search_from fl r 0 None text with
      | Some (start, st) => Some (Re.Match text ((0, (start, Re.pos st)) :: Re.caps st))
      | None => None
      end
  | None => None
  end.

(** ** Python values

    The scalars the program stores in its dictionaries and sheet cells. *)

Inductive value :=
| VNone
| VInt (n : Z)
| VFloat (x : float)
| VStr (s : string).

(** ** Numbers: [int], [float], [round] *)

Module Num.

Local Open Scope Z_scope.

(** The exact value of a finite float as a fraction [num / den]. *)
Definition exact (x : float) : option (Z * Z) :=
  match Prim2SF x with
  | S754_zero _ => Some (0, 1)
  | S754_finite s m e =>
      let v := if s then Z.neg m else Z.pos m in
      Some (if 0 <=? e then (v * 2 ^ e, 1) else (v, 2 ^ (- e)))
  | _ => None
  end.

(** The float nearest to [±num / den], ties to even (what [strtod] and the
    conversion of an [int] compute). *)
Definition nearest (neg : bool) (num den : positive) : float :=
  SF2Prim (SFdiv prec emax (S754_finite neg num 0) (S754_finite false den 0)).

Definition nearestZ (neg : bool) (num den : Z) : float :=
  match num, den with
  | Z.pos n, Z.pos d => nearest neg n d
  | _, _ => if neg then PrimFloat.neg_zero else PrimFloat.zero
  end.

Definition is_inf (x : float) : bool :=
  match Prim2SF x with S754_infinity _ => true | _ => false end.

(** [float(n)] for an [int]: OverflowError when out of range. *)
Definition float_of_int (n : Z) : option float :=
  let x := nearestZ (n <? 0) (Z.abs n) 1 in
  if is_inf x then None else Some x.

(** [num / den] rounded to an integer, ties to even ([0 <= num], [0 < den]). *)
Definition round_half_even (num den : Z) : Z :=
  let q := num / den in
  match 2 * (num mod den) ?= den with
  | Lt => q
  | Gt => q + 1
  | Eq => if Z.even q then q else q + 1
  end.

(** [round(x, 2)]: the decimal with two places nearest to the exact value of
    [x] (ties to even), converted back to the nearest float.  Infinities and
    NaN round to themselves, and a zero result keeps the sign of [x]. *)
Definition round2 (x : float) : float :=
  match Prim2SF x with
  | S754_finite s m e =>
      let n := if 0 <=? e then Z.pos m * 2 ^ e * 100
               else round_half_even (Z.pos m * 100) (2 ^ (- e)) in
      nearestZ s n 100
  | _ => x
  end.

(** *** Numerals *)

Definition digit (c : ascii) : Z := Z.of_N (Chr.code c) - 48.

(** A [digitpart]: digits, single underscores allowed between two digits.
    Returns the digits read and the rest. *)
Fixpoint digitpart (s : string) (acc : list Z) : list Z * string :=
  match s with
  | String c s' =>
      if Chr.is_digit c then digitpart s' (digit c :: acc)
      else
        match acc, s' with
        | _ :: _, String d _ =>
            if Chr.eqb c "_" && Chr.is_digit d then digitpart s' acc else (rev acc, s)
        | _, _ => (rev acc, s)
        end
  | EmptyString => (rev acc, s)
  end.

Definition of_digits (ds : list Z) : Z := fold_left (fun a d => 10 * a + d) ds 0.

Definition sign (s : string) : bool * string :=
  match s with
  | String "-" s' => (true, s')
  | String "+" s' => (false, s')
  | _ => (false, s)
  end.

(** [int(s)] for a decimal numeral; [None] is ValueError. *)
Definition int_of_string (s : string) : option Z :=
  let (neg, s1) := sign (Str.strip s) in
  match digitpart s1 [] with
  | ((_ :: _) as ds, EmptyString) => Some (if neg then - of_digits ds else of_digits ds)
  | _ => None
  end.

(** [float(s)]; [None] is ValueError.  The grammar is
    [sign? (digitpart? "." digitpart | digitpart "."?) (("e"|"E") sign? digitpart)?],
    or [inf], [infinity], [nan] in any case, with white space around. *)
Definition float_of_string (s : string) : option float :=
  let (neg, s1) := sign (Str.strip s) in
  let low := Str.lower s1 in
  if String.eqb low "inf" || String.eqb low "infinity"
  then Some (if neg then PrimFloat.neg_infinity else PrimFloat.infinity)
  else if String.eqb low "nan" then Some PrimFloat.nan
  else
    let (ip, s2) := digitpart s1 [] in
    let '(fp, s3, ok) :=
      match s2 with
      | String "." s2' =>
          let (fp, s3) := digitpart s2' [] in
          (fp, s3, negb (Nat.eqb (length ip + length fp) 0))
      | _ => ([], s2, negb (Nat.eqb (length ip) 0))
      end in
    let mant := of_digits (ip ++ fp) in
    let finish (ex : Z) :=
      let e10 := ex - Z.of_nat (length fp) in
      Some (if 0 <=? e10 then nearestZ neg (mant * 10 ^ e10) 1
            else nearestZ neg mant (10 ^ (- e10))) in
    if negb ok then None
    else
      match s3 with
      | EmptyString => finish 0
      | String c s4 =>
          if Chr.eqb c "e" || Chr.eqb c "E" then
            let (eneg, s5) := sign s4 in
            match digitpart s5 [] with
            | ((_ :: _) as es, EmptyString) =>
                finish (if eneg then - of_digits es else of_digits es)
            | _ => None
            end
          else None
      end.

End Num.

(** ** Operators on values *)

Module Py.

Local Open Scope Z_scope.

(** Truth value: [None], zero and the empty string are false. *)
Definition truthy (v : value) : bool :=
  match v with
  | VNone => false
  | VInt n => negb (n =? 0)
  | VFloat x => negb (PrimFloat.eqb x PrimFloat.zero)
  | VStr s => negb (String.eqb s "")
  end.

(** [a or b] *)
Definition or (a b : value) : value := if truthy a then a else b.

Definition int_eq_float (n : Z) (x : float) : bool :=
  match Num.exact x with
  | Some (num, den) => num =? n * den
  | None => false
  end.

(** [a == b] *)
Definition eq (a b : value) : bool :=
  match a, b with
  | VNone, VNone => true
  | VInt m, VInt n => m =? n
  | VFloat x, VFloat y => PrimFloat.eqb x y
  | VInt n, VFloat x | VFloat x, VInt n => int_eq_float n x
  | VStr s, VStr t => String.eqb s t
  | _, _ => false
  end.

Definition to_float (v : value) : option float :=
  match v with
  | VFloat x => Some x
  | VInt n => Num.float_of_int n
  | _ => None
  end.

(** [a * x] for a float [x]; [None] is an exception (TypeError for a
    string or [None], OverflowError for an [int] out of range). *)
Definition mul_float (a : value) (x : float) : option float :=
  match to_float a with
  | Some y => Some (PrimFloat.mul y x)
  | None => None
  end.

(** [a + b]; [None] is an exception. *)
Definition add (a b : value) : option value :=
  match a, b with
  | VInt m, VInt n => Some (VInt (m + n))
  | VStr s, VStr t => Some (VStr (s +:+ t))
  | VFloat x, _ | _, VFloat x =>
      match to_float a, to_float b with
      | Some y, Some z => Some (VFloat (PrimFloat.add y z))
      | _, _ => None
      end
  | _, _ => None
  end.

End Py.

(** ** Dates: [datetime.strptime] and [strftime]

    [strptime] turns the format into a regular expression, one group per
    directive, matches it at the start of the string without regard to
    case, rejects a match that leaves characters over, and builds the date,
    which fails when the day does not exist.  The directives are the ones
    the program uses: [%d], [%b], [%m], [%y], [%Y]; month names are those of
    the C locale. *)

Module DateTime.

Local Open Scope Z_scope.

Record date := Date { year : Z; month : Z; day : Z }.

Inductive directive := Dd | Db | Dm | Dy | DY | DLit (c : ascii).

(** A format made of the five directives and of separators that are
    neither white space nor a percent sign; [None] for any other format. *)
Fixpoint parse_format (fmt : string) : option (list directive) :=
  match fmt with
  | EmptyString => Some []
  | String "%" (String c fmt') =>
      let d := match c with
               | "d"%char => Some Dd | "b"%char => Some Db | "m"%char => Some Dm
               | "y"%char => Some Dy | "Y"%char => Some DY
               | _ => None
               end in
      match d, parse_format fmt' with
      | Some d, Some ds => Some (d :: ds)
      | _, _ => None
      end
  | String c fmt' =>
      if Chr.is_space c || Chr.eqb c "%" then None
      else option_map (cons (DLit c)) (parse_format fmt')
  end.

Definition compiled (p : string) : Re.regex :=
  match ReParse.compile p with Some r => r | None => Re.REps end.

Definition re_d : Re.regex :=
  Eval vm_compute in compiled "3[0-1]|[1-2]\d|0[1-9]|[1-9]| [1-9]".
Definition re_b : Re.regex :=
  Eval vm_compute in compiled "jan|feb|mar|apr|may|jun|jul|aug|sep|oct|nov|dec".
Definition re_m : Re.regex :=
  Eval vm_compute in compiled "1[0-2]|0[1-9]|[1-9]".
Definition re_y : Re.regex := Eval vm_compute in compiled "\d\d".
Definition re_Y : Re.regex := Eval vm_compute in compiled "\d\d\d\d".

Definition directive_re (d : directive) : Re.regex :=
  match d with
  | Dd => re_d | Db => re_b | Dm => re_m | Dy => re_y | DY => re_Y
  | DLit c => Re.RAtom (Re.ALit c)
  end.

Definition is_field (d : directive) : bool :=
  match d with DLit _ => false | _ => true end.

(** The expression of a format; the directives are groups 1, 2, ... in
    their order. *)
Fixpoint format_regex (ds : list directive) (g : nat) : Re.regex :=
  match ds with
  | [] => Re.REps
  | d :: ds' =>
      if is_field d
      then Re.RSeq (Re.RGroup g (directive_re d)) (format_regex ds' (S g))
      else Re.RSeq (directive_re d) (format_regex ds' g)
  end.

Definition month_abbr : list string :=
  ["Jan"; "Feb"; "Mar"; "Apr"; "May"; "Jun"; "Jul"; "Aug"; "Sep"; "Oct"; "Nov"; "Dec"]%string.

Fixpoint index_of (s : string) (l : list string) (i : Z) : option Z :=
  match l with
  | [] => None
  | x :: l' => if String.eqb (Str.lower x) s then Some i else index_of s l' (i + 1)
  end.

Definition is_leap (y : Z) : bool :=
  (y mod 4 =? 0) && (negb (y mod 100 =? 0) || (y mod 400 =? 0)).

Definition days_in_month (y m : Z) : Z :=
  if m =? 2 then (if is_leap y then 29 else 28)
  else if (m =? 4) || (m =? 6) || (m =? 9) || (m =? 11) then 30
  else 31.

(** The check of the [date] constructor: years 1..9999, a month, a day of
    that month. *)
Definition valid (dt : date) : bool :=
  (1 <=? year dt) && (year dt <=? 9999) &&
  (1 <=? month dt) && (month dt <=? 12) &&
  (1 <=? day dt) && (day dt <=? days_in_month (year dt) (month dt)).

(** Reads the groups into a date, starting from 1900-01-01. *)
Fixpoint fields (ds : list directive) (g : nat) (m : Re.match_obj) (dt : date)
    : option date :=
  match ds with
  | [] => Some dt
  | DLit _ :: ds' => fields ds' g m dt
  | d :: ds' =>
      match Re.group m g with
      | None => None
      | Some txt =>
          let dt' :=
            match d with
            | Dd => option_map (fun n => Date (year dt) (month dt) n) (Num.int_of_string txt)
            | Dm => option_map (fun n => Date (year dt) n (day dt)) (Num.int_of_string txt)
            | Db => option_map (fun n => Date (year dt) n (day dt))
                      (index_of (Str.lower txt) month_abbr 1)
            | Dy => option_map
                      (fun n => Date (if n <=? 68 then 2000 + n else 1900 + n) (month dt) (day dt))
                      (Num.int_of_string txt)
            | _ => option_map (fun n => Date n (month dt) (day dt)) (Num.int_of_string txt)
            end in
          match dt' with
          | Some dt' => fields ds' (S g) m dt'
          | None => None
          end
      end
  end.

(** [datetime.strptime(data_string, format)]; [None] is ValueError. *)
Definition strptime (data_string format : string) : option date :=
  match parse_format format with
  | None => None
  | Some ds =>
      match Re.match_at Re.IGNORECASE (format_regex ds 1) 0 None data_string with
      | Some st =>
          match Re.rest st with
          | EmptyString =>
              match fields ds 1 (Re.Match data_string (Re.caps st)) (Date 1900 1 1) with
              | Some dt => if valid dt then Some dt else None
              | None => None
              end
          | String _ _ => None
          end
      | None => None
      end
  end.

Definition digit_char (n : Z) : ascii := ascii_of_N (Z.to_N (48 + n)).

Definition pad2 (n : Z) : string :=
  String (digit_char (n / 10 mod 10)) (String (digit_char (n mod 10)) EmptyString).

Definition pad4 (n : Z) : string :=
  String (digit_char (n / 1000 mod 10)) (String (digit_char (n / 100 mod 10)) (pad2 n)).

(** The digits of a number from 0 to 9999, without leading zeros. *)
Definition decimal (n : Z) : string :=
  if n <? 10 then String (digit_char n) EmptyString
  else if n <? 100 then pad2 n
  else if n <? 1000 then String (digit_char (n / 100)) (pad2 n)
  else pad4 n.

(** [dt.strftime(format)]: two-digit day and month, the month name, the
    last two digits of the year for [%y].  [%Y] is the year as the C
    library prints it; the one of Linux, with which CPython 3.11 prints
    [datetime(69, 1, 1)] as [69], does not fill it with zeros, so that only
    the years from 1000 on have four digits. *)
Fixpoint render (ds : list directive) (dt : date) : string :=
  match ds with
  | [] => EmptyString
  | d :: ds' =>
      (match d with
       | Dd => pad2 (day dt)
       | Dm => pad2 (month dt)
       | Db => nth (Z.to_nat (month dt - 1)) month_abbr EmptyString
       | Dy => pad2 (year dt mod 100)
       | DY => decimal (year dt)
       | DLit c => String c EmptyString
       end) +:+ render ds' dt
  end.

Definition strftime (dt : date) (format : string) : string :=
  match parse_format format with
  | Some ds => render ds dt
  | None => EmptyString
  end.

End DateTime.

(** ** The workbook

    A sheet is the list of its rows, the header row first; a row is the
    list of its cell values.  [ws.append(row)] adds a row at the end,
    [ws.max_row] is the number of rows (1 for a sheet without any), and
    [ws.iter_rows(min_row=2, values_only=True)] yields the rows after the
    first.  A cell that a row does not reach reads as [None].

    This is the sheet as long as it takes every row: its rows are whole
    and [append] returns.  A sheet of openpyxl refuses some strings and
    then raises in the middle of a row; module [Openpyxl] below has that
    sheet, module [Run] the methods with their exceptions, and the last
    part of the file shows that the two agree on the rows that the sheet
    takes and what happens on the others. *)

Definition row := list value.
Definition sheet := list row.

Inductive sheet_name := PO_Details | Invoice_Details.

Record workbook := Workbook { po_details : sheet; invoice_details : sheet }.

Definition get_sheet (wb : workbook) (name : sheet_name) : sheet :=
  match name with
  | PO_Details => po_details wb
  | Invoice_Details => invoice_details wb
  end.

Definition append (wb : workbook) (name : sheet_name) (r : row) : workbook :=
  match name with
  | PO_Details => Workbook (po_details wb ++ [r])%list (invoice_details wb)
  | Invoice_Details => Workbook (po_details wb) (invoice_details wb ++ [r])%list
  end.

Definition max_row (ws : sheet) : Z := Z.max 1 (Z.of_nat (length ws)).

Definition iter_rows_from_2 (ws : sheet) : list row := drop 1 ws.

Definition cell (r : row) (i : nat) : value := default VNone (r !! i).

Definition po_headers : row :=
  [VStr "Serial Number"; VStr "PO Number"; VStr "PO Date"; VStr "PO Amount";
   VStr "Department"].

Definition invoice_headers : row :=
  [VStr "Serial Number"; VStr "Invoice Number"; VStr "Invoice Date";
   VStr "PO Number"; VStr "PO Date"; VStr "Department"; VStr "GR ID";
   VStr "GR Date"; VStr "Subtotal"; VStr "Tax 12%"; VStr "Grand Total";
   VStr "Status"].

(** [_create_sheets] on a new workbook: both sheets with their headers. *)
Definition _create_sheets : workbook := Workbook [po_headers] [invoice_headers].

(** ** Dictionaries *)

Abbreviation Dict := (gmap string value).

(** [d.get(key, default)] *)
Definition get (d : Dict) (key : string) (dflt : value) : value :=
  default dflt (d !! key).

(** ** The methods of [InvoiceProcessor] *)

(** [_get_next_serial_number] *)
Definition _get_next_serial_number (wb : workbook) (name : sheet_name) : Z :=
  let ws := get_sheet wb name in
  let max_row := max_row ws in
  if (max_row =? 1)%Z then 1%Z else max_row.

Definition date_formats : list string :=
  ["%d-%b-%y"; "%d-%b-%Y"; "%d/%b/%y"; "%d/%b/%Y";
   "%d-%m-%y"; "%d-%m-%Y"; "%d/%m/%y"; "%d/%m/%Y"].

(** The loop of [_parse_date]: the date [dt] of the first format that
    parses the string. *)
Fixpoint try_formats (date_str : string) (formats : list string)
    : option DateTime.date :=
  match formats with
  | [] => None
  | fmt :: formats' =>
      match DateTime.strptime date_str fmt with
      | Some dt => Some dt
      | None => try_formats date_str formats'
      end
  end.

(** [_parse_date]: that date printed as [%d-%b-%Y], or the string as it
    is when no format parses it. *)
Definition _parse_date (date_str : string) : string :=
  match try_formats date_str date_formats with
  | Some dt => DateTime.strftime dt "%d-%b-%Y"
  | None => date_str
  end.

(** [_parse_amount]: a string that [float] rejects gives [0.0]. *)
Definition _parse_amount (amount_str : string) : float :=
  match Num.float_of_string (Str.remove_char "," amount_str) with
  | Some x => x
  | None => PrimFloat.zero
  end.

(** The first pattern of a list that is found in the text. *)
Fixpoint first_match (patterns : list string) (text : string) (fl : Re.flags)
    : option Re.match_obj :=
  match patterns with
  | [] => None
  | pattern :: patterns' =>
      match re_search pattern text fl with
      | Some m => Some m
      | None => first_match patterns' text fl
      end
  end.

(** [m.group(n)] as a value. *)
Definition group_value (m : Re.match_obj) (n : nat) : value :=
  match Re.group m n with Some s => VStr s | None => VNone end.

(** [self._parse_date(v)]: a value that is no string comes back as it is. *)
Definition parse_date_value (v : value) : value :=
  match v with VStr s => VStr (_parse_date s) | _ => v end.

(** [self._parse_amount(v)]: a value that is no string gives [0.0]. *)
Definition parse_amount_value (v : value) : value :=
  match v with VStr s => VFloat (_parse_amount s) | _ => VFloat PrimFloat.zero end.

Definition table_patterns : list string :=
  ["PO\s*NO[\s|]*PO\s*DATE[\s|]*GR\s*NO[\s|]*GR\s*DATE.*?\n\s*(\d+)\s+([\d-]+[-/]\w+[-/][\d]+)[\s|]*(\d+)\s+([\d-]+[-/]\w+[-/][\d]+)";
   "PO\s*NO[\s|]*PO\s*DATE[\s|]*GR\s*NO[\s|]*GR\s*DATE.*?\n\s*(\d+)[\s|]+([\d-]+[-/]\w+[-/][\d]+)[\s|]+([\d]+)[\s|]+([\d-]+[-/]\w+[-/][\d]+)";
   "PO\s*NO[\s|]+PO\s*DATE[\s|]+GR\s*NO[\s|]+GR\s*DATE[\s\S]*?(\d{10})[\s|]+([\d-]+[-/]\w+[-/][\d]+)[\s|]+([\d]{7})[\s|]+([\d-]+[-/]\w+[-/][\d]+)";
   "PO\s*NO[\s|]*PODATE[\s|]*GR\s*NO[\s\S]*?(\d{10})\s+([\d-]+[-/]\w+[-/][\d]+)[\s|]+([\d]{7})\s+([\d-]+[-/]\w+[-/][\d]+)"].

(** [_parse_table_format]; [None] is an exception ([strip] on a group that
    is [None]). *)
Definition _parse_table_format (text : string) : option Dict :=
  match first_match table_patterns text Re.IGNORECASE_DOTALL with
  | Some m =>
      match Re.group m 1, Re.group m 2, Re.group m 3, Re.group m 4 with
      | Some g1, Some g2, Some g3, Some g4 =>
          Some (<["gr_date" := VStr (_parse_date (Str.strip g4))]>
                (<["gr_id" := VStr (Str.strip g3)]>
                 (<["po_date" := VStr (_parse_date (Str.strip g2))]>
                  (<["po_number" := VStr (Str.strip g1)]> ∅))))
      | _, _, _, _ => None
      end
  | None => Some ∅
  end.

Definition invoice_patterns : list string :=
  ["Invoice\s*No[:\s.]*[:\s]*([A-Z]?\d+)";
   "Invoice\s*#[:\s]*([A-Z]?\d+)";
   "Inv[\s.]*No[:\s.]*[:\s]*([A-Z]?\d+)";
   "Invoice\s*Number[:\s]*([A-Z]?\d+)";
   "Invoice\s*No[:\s.]*\s*$.*?^.*?([A-Z]?\d{4,})"].

Definition date_patterns : list string :=
  ["Invoice\s*Date[:\s.]*[:\s]*(\d{1,2}[-/]\w+[-/]\d{2,4})";
   "Invoice\s*Date[:\s.]*[:\s]*(\d{1,2}[-/]\d{1,2}[-/]\d{2,4})";
   "[Ii]nvoice[\s\S]{0,30}Date[:\s]*(\d{1,2}[-/]\w+[-/]\d{2,4})";
   "[Ii]woie[\s\S]{0,20}Date[:\s]*(\d{1,2}[-/]\w+[-/]\d{2,4})";
   "iavoie[\s\S]{0,20}Date[:\s]*(\d{1,2}[-/]\w+[-/]\d{2,4})";
   "[Ii]nvoice\s*No[:\s]*\d+[\s\S]{0,100}?(\d{1,2}[-/]\w+[-/]\d{2,4})"].

Definition po_patterns : list string :=
  ["PO\s*NO[:\s.]*[:\s]*(\d+)";
   "PO\s*Number[:\s]*(\d+)";
   "P\.?O\.?[:\s]*(\d+)";
   "Purchase\s*Order[:\s]*(\d+)"].

Definition po_date_patterns : list string :=
  ["PO\s*DATE[:\s.]*[:\s]*(\d{1,2}[-/]\w+[-/]\d{2,4})";
   "PO\s*DATE[:\s.]*[:\s]*(\d{1,2}[-/]\d{1,2}[-/]\d{2,4})";
   "P\.?O\.?\s*Date[:\s]*(\d{1,2}[-/]\w+[-/]\d{2,4})"].

Definition gr_patterns : list string :=
  ["GR\s*NO[:\s.]*[:\s]*(\d+)";
   "GR\s*Number[:\s]*(\d+)";
   "G\.?R\.?[:\s]*(\d+)";
   "Goods\s*Receipt[:\s]*(\d+)"].

Definition gr_date_patterns : list string :=
  ["GR\s*DATE[:\s.]*[:\s]*(\d{1,2}[-/]\w+[-/]\d{2,4})";
   "GR\s*DATE[:\s.]*[:\s]*(\d{1,2}[-/]\d{1,2}[-/]\d{2,4})";
   "G\.?R\.?\s*Date[:\s]*(\d{1,2}[-/]\w+[-/]\d{2,4})"].

Definition total_patterns : list string :=
  ["(?:^|\n)\s*TOTAL[:\s]+([0-9,]+\.?\d*)";
   "Sub\s*Total[:\s]+([0-9,]+\.?\d*)";
   "Amount[:\s]+([0-9,]+\.?\d*)"].

Definition tax_patterns : list string :=
  ["(?:KPRA|Tax)\s*\d+%[:\s]+([0-9,]+\.?\d*)";
   "(?:KPRA|Tax)[:\s]+([0-9,]+\.?\d*)";
   "VAT\s*\d+%[:\s]+([0-9,]+\.?\d*)"].

Definition grand_total_patterns : list string :=
  ["GRAND\s*TOTAL[:\s]+([0-9,]+\.?\d*)";
   "Total\s*Amount[:\s]+([0-9,]+\.?\d*)";
   "Net\s*Total[:\s]+([0-9,]+\.?\d*)"].

(** One extraction step of [parse_invoice_data]: the first pattern found
    sets [key] to [conv] of its group 1; [guard] is the test
    [key not in data] of the fields the table may have set already. *)
Definition extract (guard : bool) (key : string) (patterns : list string)
    (fl : Re.flags) (conv : value -> value) (text : string) (data : Dict) : Dict :=
  if guard && bool_decide (is_Some (data !! key)) then data
  else
    match first_match patterns text fl with
    | Some m => <[key := conv (group_value m 1)]> data
    | None => data
    end.

(** The end of [parse_invoice_data]: the default tax, the default grand
    total and the status.  [None] is an exception of the arithmetic. *)
Definition derive (data : Dict) : option Dict :=
  (* Calculate tax if not found (12% of subtotal) *)
  let data1 :=
    match data !! "subtotal", data !! "tax" with
    | Some subtotal, None =>
        match Py.mul_float subtotal 0.12%float with
        | Some x => Some (<["tax" := VFloat (Num.round2 x)]> data)
        | None => None
        end
    | _, _ => Some data
    end in
  match data1 with
  | None => None
  | Some data1 =>
      (* Calculate grand total if not found *)
      let data2 :=
        match data1 !! "subtotal", data1 !! "grand_total" with
        | Some subtotal, None =>
            let tax := get data1 "tax" (VInt 0) in
            match Py.add subtotal tax with
            | Some v => Some (<["grand_total" := v]> data1)
            | None => None
            end
        | _, _ => Some data1
        end in
      match data2 with
      | None => None
      | Some data2 => Some (<["status" := VStr "UnPaid"]> data2)
      end
  end.

(** [parse_invoice_data]; [None] is the result [None] of the source, for
    an empty dictionary or after an exception. *)
Definition parse_invoice_data (text : string) : option Dict :=
  match _parse_table_format text with
  | None => None
  | Some table_data =>
      let data : Dict := table_data ∪ ∅ in
      let data := extract false "invoice_number" invoice_patterns
                    Re.IGNORECASE_MULTILINE id text data in
      let data := extract false "invoice_date" date_patterns
                    Re.IGNORECASE parse_date_value text data in
      let data := extract true "po_number" po_patterns Re.IGNORECASE id text data in
      let data := extract true "po_date" po_date_patterns
                    Re.IGNORECASE parse_date_value text data in
      let data := extract true "gr_id" gr_patterns Re.IGNORECASE id text data in
      let data := extract true "gr_date" gr_date_patterns
                    Re.IGNORECASE parse_date_value text data in
      let data := extract false "subtotal" total_patterns
                    Re.IGNORECASE_MULTILINE parse_amount_value text data in
      let data := extract false "tax" tax_patterns
                    Re.IGNORECASE parse_amount_value text data in
      let data := extract false "grand_total" grand_total_patterns
                    Re.IGNORECASE parse_amount_value text data in
      match derive data with
      | Some data => if Nat.eqb (size data) 0 then None else Some data
      | None => None
      end
  end.

(** [parse_po_data]: no PO number, no result. *)
Definition parse_po_data (text : string) : option Dict :=
  let data : Dict := ∅ in
  let data :=
    match re_search "PO\s*(?:Number|NO)[:\s]+(\d+)" text Re.IGNORECASE with
    | Some po_match => <["po_number" := group_value po_match 1]> data
    | None => data
    end in
  let data :=
    match re_search "PO\s*DATE[:\s]+(\d{1,2}[-/]\w+[-/]\d{2,4})" text Re.IGNORECASE with
    | Some date_match => <["po_date" := parse_date_value (group_value date_match 1)]> data
    | None => data
    end in
  let data :=
    match re_search "(?:Amount|Total)[:\s]+([0-9,]+\.?\d*)" text Re.IGNORECASE with
    | Some amount_match =>
        <["po_amount" := parse_amount_value (group_value amount_match 1)]> data
    | None => data
    end in
  match re_search "Department[:\s]+([A-Za-z\s]+)" text Re.IGNORECASE with
  | Some dept_match =>
      match Re.group dept_match 1 with
      | Some g =>
          let data := <["department" := VStr (Str.strip g)]> data in
          if bool_decide (is_Some (data !! "po_number")) then Some data else None
      | None => None
      end
  | None =>
      let data := <["department" := VStr "N/A"]> data in
      if bool_decide (is_Some (data !! "po_number")) then Some data else None
  end.

(** [_lookup_po_details]: date and department of the first row whose PO
    number equals [po_number]. *)
Fixpoint lookup_rows (rows : list row) (po_number : value) : value * value :=
  match rows with
  | [] => (VNone, VNone)
  | r :: rows' =>
      if Py.eq (cell r 1) po_number then (cell r 2, cell r 4)
      else lookup_rows rows' po_number
  end.

Definition _lookup_po_details (wb : workbook) (po_number : value) : value * value :=
  lookup_rows (iter_rows_from_2 (get_sheet wb PO_Details)) po_number.

(** [add_po_record] *)
Definition add_po_record (po_data : Dict) (wb : workbook) : workbook :=
  let serial := _get_next_serial_number wb PO_Details in
  let r := [VInt serial;
            get po_data "po_number" (VStr "");
            get po_data "po_date" (VStr "");
            get po_data "po_amount" (VInt 0);
            get po_data "department" (VStr "N/A")] in
  append wb PO_Details r.

(** [_invoice_exists] *)
Definition _invoice_exists (wb : workbook) (invoice_number : value) : bool :=
  existsb (fun r => Py.eq (cell r 1) invoice_number)
          (iter_rows_from_2 (get_sheet wb Invoice_Details)).

(** [add_invoice_record] *)
Definition add_invoice_record (invoice_data : Dict) (wb : workbook) : workbook :=
  let invoice_number := get invoice_data "invoice_number" (VStr "") in
  (* Check if invoice already exists *)
  if Py.truthy invoice_number && _invoice_exists wb invoice_number then wb
  else
    let serial := _get_next_serial_number wb Invoice_Details in
    (* Lookup PO details if PO number exists *)
    let po_number := get invoice_data "po_number" (VStr "") in
    let '(wb1, (po_date_from_sheet, department_from_sheet)) :=
      if Py.truthy po_number then
        let '(po_date_from_sheet, department_from_sheet) :=
          _lookup_po_details wb po_number in
        if negb (Py.truthy po_date_from_sheet) then
          (* PO not found - auto-create it from invoice data *)
          let po_data : Dict :=
            <["department" := VStr "N/A"]>
            (<["po_amount" := VInt 0]>
             (<["po_date" := get invoice_data "po_date" (VStr "")]>
              (<["po_number" := po_number]> ∅))) in
          let wb1 := add_po_record po_data wb in
          (* Now lookup again to get the values *)
          (wb1, _lookup_po_details wb1 po_number)
        else (wb, (po_date_from_sheet, department_from_sheet))
      else (wb, (VNone, VNone)) in
    (* Use PO date from sheet if available, otherwise from invoice *)
    let po_date := Py.or po_date_from_sheet (get invoice_data "po_date" (VStr "")) in
    let department := Py.or department_from_sheet (VStr "N/A") in
    let r := [VInt serial;
              get invoice_data "invoice_number" (VStr "");
              get invoice_data "invoice_date" (VStr "");
              po_number;
              po_date;
              department;
              get invoice_data "gr_id" (VStr "");
              get invoice_data "gr_date" (VStr "");
              get invoice_data "subtotal" (VInt 0);
              get invoice_data "tax" (VInt 0);
              get invoice_data "grand_total" (VInt 0);
              get invoice_data "status" (VStr "UnPaid")] in
    append wb1 Invoice_Details r.

(** ** Processing one document

    The state of a run: the workbook and the error ledger that
    [_log_error] writes (file name and message; the time stamp is left
    out). *)

Record state := State { wb : workbook; errors : list (string * string) }.

Definition _log_error (filename error : string) (st : state) : state :=
  State (wb st) (errors st ++ [(filename, error)])%list.

Inductive doc_type := Invoice | PurchaseOrder | Unknown.

(** The decision of [process_file] between its three branches. *)
Definition classify (text : string) : doc_type :=
  let is_invoice := Str.contains "invoice" (Str.lower text)
                    && Str.contains "invoice no" (Str.lower text) in
  let is_po := Str.contains "purchase order" (Str.lower text)
               || (Str.contains "po no" (Str.lower text)
                   && negb (Str.contains "invoice" (Str.lower text))) in
  if is_invoice then Invoice
  else if is_po then PurchaseOrder
  else Unknown.

(** The [try] block of [process_file] from the extracted text on, when no
    call raises: [name] is the file name, [text] the text that
    [extract_text_from_pdf] or [extract_text_from_image] returned.  The
    [except] branch is in [Run.process_file]. *)
Definition process_text (name text : string) (st : state) : state :=
  if String.eqb (Str.strip text) "" then
    _log_error name "No text could be extracted" st
  else
    match classify text with
    | Invoice =>
        match parse_invoice_data text with
        | Some invoice_data => State (add_invoice_record invoice_data (wb st)) (errors st)
        | None => _log_error name "Failed to parse invoice data" st
        end
    | PurchaseOrder =>
        match parse_po_data text with
        | Some po_data => State (add_po_record po_data (wb st)) (errors st)
        | None => _log_error name "Failed to parse PO data" st
        end
    | Unknown => _log_error name "Unknown document type" st
    end.

(** * The workbook as openpyxl keeps it

    The methods above are the methods of the source on a sheet that takes
    every row it is given.  A sheet of openpyxl does not: a string with a
    control character is refused, [ws.append] raises in the middle of the
    row, and [process_file] catches the exception and goes on with the
    next file.  This part has the sheet with what it refuses and the
    methods with their exceptions; the properties show where the two
    agree. *)

Module Openpyxl.

(** [ILLEGAL_CHARACTERS_RE], [[\000-\010]|[\013-\014]|[\016-\037]]: the
    control characters other than TAB, LF and CR. *)
Definition illegal (c : ascii) : bool :=
  Chr.in_range 0 8 c || Chr.in_range 11 12 c || Chr.in_range 14 31 c.

Fixpoint has_illegal (s : string) : bool :=
  match s with
  | EmptyString => false
  | String c s' => illegal c || has_illegal s'
  end.

(** The length to which the string of a cell is cut. *)
Definition max_length : nat := 32767.

(** The end of a call: it returns a value or raises an exception, of
    which [str(e)] is kept. *)
Inductive result (A : Type) : Type :=
| Returns (a : A)
| Raises (message : string).
Arguments Returns {A} a.
Arguments Raises {A} message.

(** [Cell.check_string]: the string is cut to [max_length] characters and
    refused, with IllegalCharacterError, when a character of it is
    illegal. *)
Definition check_string (value : string) : result string :=
  let value := Str.slice 0 max_length value in
  if has_illegal value
  then Raises (value +:+ " cannot be used in worksheets.")
  else Returns value.

(** The value of a new cell, [Cell(ws, row, column, value)]: numbers and
    [None] as they are, strings through [check_string]. *)
Definition bind_value (v : value) : result value :=
  match v with
  | VStr s =>
      match check_string s with
      | Returns s' => Returns (VStr s')
      | Raises message => Raises message
      end
  | _ => Returns v
  end.

(** A sheet: [cells] has the cells of row 1, row 2, ... of [ws._cells],
    each row from column 1 on, up to the last row that has a cell;
    [_current_row] is the row behind which [append] writes. *)
Record worksheet := Worksheet { cells : list row; _current_row : nat }.

(** [ws.max_row] and [ws.max_column]: the largest row and column of a
    cell, 1 for a sheet without cells. *)
Definition max_row (ws : worksheet) : Z := Z.max 1 (Z.of_nat (length (cells ws))).

Definition max_column (ws : worksheet) : nat :=
  Nat.max 1 (foldr Nat.max 0 (map length (cells ws))).

(** The cells of a row that [append] makes before one is refused, and
    the exception of that one. *)
Fixpoint bind_row (r : row) : row * option string :=
  match r with
  | [] => ([], None)
  | v :: r' =>
      match bind_value v with
      | Raises message => ([], Some message)
      | Returns v' => let '(written, e) := bind_row r' in (v' :: written, e)
      end
  end.

(** Puts the cells [new] in the row of index [i], which is the last row
    or the one behind it when [append] writes. *)
Definition write_row (i : nat) (new : row) (rows : list row) : list row :=
  match new with
  | [] => rows
  | _ :: _ =>
      if (i <? length rows)%nat then <[i := new]> rows
      else (rows ++ replicate (i - length rows) [] ++ [new])%list
  end.

(** [ws.append(row)]: the cells go to the row [_current_row + 1], one
    after the other, over the cells that are there; [_current_row] moves
    on when the last one is made.  After an exception the cells made
    before it stay and [_current_row] is as it was. *)
Definition append (ws : worksheet) (r : row) : worksheet * result unit :=
  let row_idx := S (_current_row ws) in
  let '(written, e) := bind_row r in
  let old := default [] (cells ws !! _current_row ws) in
  let rows :=
    write_row (_current_row ws) (written ++ drop (length written) old)%list (cells ws) in
  match e with
  | Some message => (Worksheet rows (_current_row ws), Raises message)
  | None => (Worksheet rows row_idx, Returns tt)
  end.

(** One row of [ws.iter_rows(values_only=True)], the row of index [k]:
    the values of the columns 1 to [w].  [ws.cell(row, column)] makes the
    cells that are missing, with the value [None], and [_add_cell] moves
    [_current_row] up to their row. *)
Definition read_row (w : nat) (k : nat) (ws : worksheet) : worksheet * row :=
  let r := default [] (cells ws !! k) in
  if (length r <? w)%nat then
    let t := (r ++ replicate (w - length r) VNone)%list in
    (Worksheet (<[k := t]> (cells ws)) (Nat.max (S k) (_current_row ws)), t)
  else (ws, r).

(** [row[i]] on such a tuple. *)
Definition item (t : row) (i : nat) : result value :=
  match t !! i with
  | Some v => Returns v
  | None => Raises "tuple index out of range"
  end.

(** The loop [for row in ws.iter_rows(min_row=2, values_only=True)] that
    stops at the first row with [row[1] == x]: that row, if there is one,
    and the sheet as the reading leaves it.  [k] is the index of the next
    row and [n] the number of rows to go. *)
Fixpoint find_row (x : value) (w : nat) (k n : nat) (ws : worksheet)
    : worksheet * result (option row) :=
  match n with
  | 0 => (ws, Returns None)
  | S n' =>
      let '(ws', t) := read_row w k ws in
      match item t 1 with
      | Raises message => (ws', Raises message)
      | Returns v =>
          if Py.eq v x then (ws', Returns (Some t)) else find_row x w (S k) n' ws'
      end
  end.

Definition find (x : value) (ws : worksheet) : worksheet * result (option row) :=
  find_row x (max_column ws) 1 (length (cells ws) - 1) ws.

End Openpyxl.

(** ** The methods with their exceptions *)

Module Run.

Import Openpyxl.

Record workbook := Workbook { po_details : worksheet; invoice_details : worksheet }.

(** The state of a run: the workbook and the errors that [_log_error]
    wrote. *)
Record state := State { wb : workbook; errors : list (string * string) }.

Definition get_sheet (wb : workbook) (name : sheet_name) : worksheet :=
  match name with
  | PO_Details => po_details wb
  | Invoice_Details => invoice_details wb
  end.

Definition set_sheet (wb : workbook) (name : sheet_name) (ws : worksheet) : workbook :=
  match name with
  | PO_Details => Workbook ws (invoice_details wb)
  | Invoice_Details => Workbook (po_details wb) ws
  end.

(** A method: it changes the state and returns or raises. *)
Definition M (A : Type) : Type := state -> state * result A.

Definition ret {A} (a : A) : M A := fun st => (st, Returns a).

Definition bind {A B} (m : M A) (f : A -> M B) : M B :=
  fun st =>
    match m st with
    | (st', Returns a) => f a st'
    | (st', Raises message) => (st', Raises message)
    end.

Notation "'let*' x ':=' m 'in' k" := (bind m (fun x => k))
  (at level 10, x name, m at level 100, k at level 200).

(** A call on one of the sheets. *)
Definition on_sheet {A} (name : sheet_name) (f : worksheet -> worksheet * result A)
    : M A :=
  fun st =>
    let '(ws, r) := f (get_sheet (wb st) name) in
    (State (set_sheet (wb st) name ws) (errors st), r).

Definition raise_of {A} (r : result A) : M A := fun st => (st, r).

(** [_log_error] *)
Definition _log_error (filename error : string) : M unit :=
  fun st => (State (wb st) (errors st ++ [(filename, error)])%list, Returns tt).

(** [_get_next_serial_number] *)
Definition _get_next_serial_number (name : sheet_name) : M Z :=
  let* max_row := on_sheet name (fun ws => (ws, Returns (max_row ws))) in
  ret (if (max_row =? 1)%Z then 1%Z else max_row).

(** [_lookup_po_details] *)
Definition _lookup_po_details (po_number : value) : M (value * value) :=
  let* found := on_sheet PO_Details (find po_number) in
  match found with
  | Some row =>
      let* po_date := raise_of (item row 2) in
      let* department := raise_of (item row 4) in
      ret (po_date, department)
  | None => ret (VNone, VNone)
  end.

(** [add_po_record] *)
Definition add_po_record (po_data : Dict) : M unit :=
  let* serial := _get_next_serial_number PO_Details in
  let row := [VInt serial;
              get po_data "po_number" (VStr "");
              get po_data "po_date" (VStr "");
              get po_data "po_amount" (VInt 0);
              get po_data "department" (VStr "N/A")] in
  on_sheet PO_Details (fun ws => append ws row).

(** [_invoice_exists] *)
Definition _invoice_exists (invoice_number : value) : M bool :=
  let* found := on_sheet Invoice_Details (find invoice_number) in
  ret (match found with Some _ => true | None => false end).

(** [add_invoice_record] *)
Definition add_invoice_record (invoice_data : Dict) : M unit :=
  let invoice_number := get invoice_data "invoice_number" (VStr "") in
  (* Check if invoice already exists *)
  let* duplicate :=
    if Py.truthy invoice_number then _invoice_exists invoice_number else ret false in
  if (duplicate : bool) then ret tt
  else
    let* serial := _get_next_serial_number Invoice_Details in
    (* Lookup PO details if PO number exists *)
    let po_number := get invoice_data "po_number" (VStr "") in
    let* from_sheet :=
      if Py.truthy po_number then
        let* from_sheet := _lookup_po_details po_number in
        if negb (Py.truthy (fst from_sheet)) then
          (* PO not found - auto-create it from invoice data *)
          let po_data : Dict :=
            <["department" := VStr "N/A"]>
            (<["po_amount" := VInt 0]>
             (<["po_date" := get invoice_data "po_date" (VStr "")]>
              (<["po_number" := po_number]> ∅))) in
          let* created := add_po_record po_data in
          (* Now lookup again to get the values *)
          _lookup_po_details po_number
        else ret from_sheet
      else ret (VNone, VNone) in
    let po_date_from_sheet := fst from_sheet in
    let department_from_sheet := snd from_sheet in
    (* Use PO date from sheet if available, otherwise from invoice *)
    let po_date := Py.or po_date_from_sheet (get invoice_data "po_date" (VStr "")) in
    let department := Py.or department_from_sheet (VStr "N/A") in
    let row := [VInt serial;
                get invoice_data "invoice_number" (VStr "");
                get invoice_data "invoice_date" (VStr "");
                po_number;
                po_date;
                department;
                get invoice_data "gr_id" (VStr "");
                get invoice_data "gr_date" (VStr "");
                get invoice_data "subtotal" (VInt 0);
                get invoice_data "tax" (VInt 0);
                get invoice_data "grand_total" (VInt 0);
                get invoice_data "status" (VStr "UnPaid")] in
    on_sheet Invoice_Details (fun ws => append ws row).

(** The [try] block of [process_file], from the extracted text on. *)
Definition process_body (name text : string) : M unit :=
  if String.eqb (Str.strip text) "" then
    _log_error name "No text could be extracted"
  else
    match classify text with
    | Invoice =>
        match parse_invoice_data text with
        | Some invoice_data => add_invoice_record invoice_data
        | None => _log_error name "Failed to parse invoice data"
        end
    | PurchaseOrder =>
        match parse_po_data text with
        | Some po_data => add_po_record po_data
        | None => _log_error name "Failed to parse PO data"
        end
    | Unknown => _log_error name "Unknown document type"
    end.

(** [process_file] from the extracted text on: the [try] block, and the
    [except] branch, which writes the exception to the errors and lets the
    run go on. *)
Definition process_file (name text : string) (st : state) : state :=
  match process_body name text st with
  | (st', Returns _) => st'
  | (st', Raises message) => fst (_log_error name message st')
  end.

(** The loop of [process_all_files] over the documents of a folder, each
    given by its file name and its extracted text. *)
Definition process_all_files (docs : list (string * string)) (st : state) : state :=
  fold_left (fun st doc => process_file (fst doc) (snd doc) st) docs st.

(** [_create_sheets] on a new workbook. *)
Definition _create_sheets : workbook :=
  Workbook (Worksheet [po_headers] 1) (Worksheet [invoice_headers] 1).

End Run.

(** * Properties *)

(** ** Characters and strings *)

Lemma Chr_eqb_eq a b : Chr.eqb a b = true <-> a = b.
Proof.
  unfold Chr.eqb, Chr.code. rewrite N.eqb_eq. split; [|congruence].
  intros H. rewrite <- (ascii_N_embedding a), <- (ascii_N_embedding b). congruence.
Qed.

Lemma Chr_eqb_refl a : Chr.eqb a a = true.
Proof. now apply Chr_eqb_eq. Qed.

Lemma string_eqb_empty s : String.eqb s "" = false <-> s <> "".
Proof. rewrite String.eqb_neq. reflexivity. Qed.

Lemma truthy_str s : Py.truthy (VStr s) = true <-> s <> "".
Proof.
  unfold Py.truthy. rewrite negb_true_iff. apply string_eqb_empty.
Qed.

Lemma eq_str s t : Py.eq (VStr s) (VStr t) = true <-> s = t.
Proof. apply String.eqb_eq. Qed.

Lemma eq_str_refl s : Py.eq (VStr s) (VStr s) = true.
Proof. now apply eq_str. Qed.

(** [x or x] is [x]. *)
Lemma or_same v : Py.or v v = v.
Proof. unfold Py.or. now destruct (Py.truthy v). Qed.

(** ** The sheets under the two insertions *)

Definition records (wb : workbook) (name : sheet_name) : list row :=
  iter_rows_from_2 (get_sheet wb name).

Definition has_header (wb : workbook) (name : sheet_name) : Prop :=
  get_sheet wb name <> [].

(** The PO row that [add_po_record] builds. *)
Definition po_row (po_data : Dict) (wb : workbook) : row :=
  [VInt (_get_next_serial_number wb PO_Details);
   get po_data "po_number" (VStr "");
   get po_data "po_date" (VStr "");
   get po_data "po_amount" (VInt 0);
   get po_data "department" (VStr "N/A")].

Lemma add_po_record_po po_data wb :
  po_details (add_po_record po_data wb) = (po_details wb ++ [po_row po_data wb])%list.
Proof. reflexivity. Qed.

Lemma add_po_record_invoice po_data wb :
  invoice_details (add_po_record po_data wb) = invoice_details wb.
Proof. reflexivity. Qed.

Lemma next_serial_length wb name :
  has_header wb name ->
  _get_next_serial_number wb name = Z.of_nat (length (get_sheet wb name)).
Proof.
  unfold has_header, _get_next_serial_number, max_row. intros H.
  destruct (get_sheet wb name) as [|h t]; [congruence|].
  cbn [length]. destruct (Z.eqb_spec (Z.max 1 (Z.of_nat (S (length t)))) 1); lia.
Qed.

Lemma records_app_header (ws : sheet) (r : row) :
  ws <> [] -> drop 1 (ws ++ [r])%list = (drop 1 ws ++ [r])%list.
Proof. destruct ws; [congruence | reflexivity]. Qed.

(** The stub dictionary of the auto-creation. *)
Definition stub_data (invoice_data : Dict) : Dict :=
  <["department" := VStr "N/A"]>
  (<["po_amount" := VInt 0]>
   (<["po_date" := get invoice_data "po_date" (VStr "")]>
    (<["po_number" := get invoice_data "po_number" (VStr "")]> ∅))).

(** The three ways through [add_invoice_record]. *)
Inductive insert_outcome (invoice_data : Dict) (wb wb' : workbook) : Prop :=
| skipped_duplicate :
    Py.truthy (get invoice_data "invoice_number" (VStr "")) = true ->
    _invoice_exists wb (get invoice_data "invoice_number" (VStr "")) = true ->
    wb' = wb ->
    insert_outcome invoice_data wb wb'
| inserted_plain r :
    Py.truthy (get invoice_data "invoice_number" (VStr "")) &&
      _invoice_exists wb (get invoice_data "invoice_number" (VStr "")) = false ->
    cell r 0 = VInt (_get_next_serial_number wb Invoice_Details) ->
    cell r 1 = get invoice_data "invoice_number" (VStr "") ->
    wb' = append wb Invoice_Details r ->
    insert_outcome invoice_data wb wb'
| inserted_with_stub r :
    Py.truthy (get invoice_data "invoice_number" (VStr "")) &&
      _invoice_exists wb (get invoice_data "invoice_number" (VStr "")) = false ->
    cell r 0 = VInt (_get_next_serial_number wb Invoice_Details) ->
    cell r 1 = get invoice_data "invoice_number" (VStr "") ->
    wb' = append (add_po_record (stub_data invoice_data) wb) Invoice_Details r ->
    insert_outcome invoice_data wb wb'.

Lemma add_invoice_record_outcome invoice_data wb :
  insert_outcome invoice_data wb (add_invoice_record invoice_data wb).
Proof.
  unfold add_invoice_record.
  destruct (Py.truthy (get invoice_data "invoice_number" (VStr "")) &&
            _invoice_exists wb (get invoice_data "invoice_number" (VStr ""))) eqn:Hdup.
  - apply andb_true_iff in Hdup as [? ?]. now apply skipped_duplicate.
  - destruct (Py.truthy (get invoice_data "po_number" (VStr ""))).
    + destruct (_lookup_po_details wb _) as [pd dp].
      destruct (negb (Py.truthy pd)).
      * destruct (_lookup_po_details (add_po_record _ wb) _) as [pd' dp'].
        eapply inserted_with_stub; [assumption| | |reflexivity]; reflexivity.
      * eapply inserted_plain; [assumption| | |reflexivity]; reflexivity.
    + eapply inserted_plain; [assumption| | |reflexivity]; reflexivity.
Qed.

Lemma add_invoice_record_header invoice_data wb name :
  has_header wb name -> has_header (add_invoice_record invoice_data wb) name.
Proof.
  unfold has_header. intros H.
  destruct (add_invoice_record_outcome invoice_data wb) as [? ? ->|r ? ? ? ->|r ? ? ? ->];
    [assumption| |]; destruct name; cbn in *; try assumption;
    intros E; apply app_eq_nil in E as [E ?]; try discriminate;
    try apply app_eq_nil in E as [E ?]; congruence.
Qed.

Lemma add_po_record_header po_data wb name :
  has_header wb name -> has_header (add_po_record po_data wb) name.
Proof.
  unfold has_header. intros H. destruct name; cbn; [|assumption].
  intros E. apply app_eq_nil in E as [E ?]. congruence.
Qed.

(** ** Serial numbers *)

(** The workbooks a run can build: a new workbook, then any insertions. *)
Inductive reachable : workbook -> Prop :=
| reach_new : reachable _create_sheets
| reach_po po_data wb : reachable wb -> reachable (add_po_record po_data wb)
| reach_invoice invoice_data wb :
    reachable wb -> reachable (add_invoice_record invoice_data wb).

(** The record at index [i] carries the serial [i + 1]. *)
Definition serials_count (wb : workbook) (name : sheet_name) : Prop :=
  forall (i : nat) (r : row),
    records wb name !! i = Some r -> cell r 0 = VInt (Z.of_nat i + 1).

Lemma serials_count_append wb name r :
  has_header wb name ->
  serials_count wb name ->
  cell r 0 = VInt (_get_next_serial_number wb name) ->
  serials_count (append wb name r) name.
Proof.
  intros Hh Hs Hr i r' Hi. unfold records, iter_rows_from_2 in *.
  assert (E : get_sheet (append wb name r) name = (get_sheet wb name ++ [r])%list)
    by (destruct name; reflexivity).
  rewrite E, records_app_header in Hi by exact Hh.
  apply lookup_app_Some in Hi as [Hi | [Hlen Hi]].
  - now apply Hs.
  - apply list_lookup_singleton_Some in Hi as [Hi ->].
    rewrite Hr, next_serial_length by exact Hh. f_equal.
    rewrite length_drop in *.
    unfold has_header in Hh. destruct (get_sheet wb name); [congruence|].
    cbn [length] in *. lia.
Qed.

Lemma serials_count_other wb name name' r :
  name <> name' -> serials_count wb name -> serials_count (append wb name' r) name.
Proof.
  intros Hne Hs. unfold serials_count, records.
  replace (get_sheet (append wb name' r) name) with (get_sheet wb name); [exact Hs|].
  destruct name, name'; try congruence; reflexivity.
Qed.

Lemma next_serial_other wb name name' r :
  name <> name' ->
  _get_next_serial_number (append wb name' r) name = _get_next_serial_number wb name.
Proof.
  intros Hne. unfold _get_next_serial_number.
  replace (get_sheet (append wb name' r) name) with (get_sheet wb name); [reflexivity|].
  destruct name, name'; try congruence; reflexivity.
Qed.

Lemma reachable_invariant wb :
  reachable wb -> forall name, has_header wb name /\ serials_count wb name.
Proof.
  induction 1 as [|po_data wb Hr IH|invoice_data wb Hr IH]; intros name.
  - split.
    + destruct name; discriminate.
    + intros i r Hi. destruct name; destruct i; discriminate.
  - split; [apply add_po_record_header, IH|].
    destruct name.
    + apply serials_count_append; [apply IH | apply IH | reflexivity].
    + apply serials_count_other; [discriminate | apply IH].
  - split; [apply add_invoice_record_header, IH|].
    destruct (add_invoice_record_outcome invoice_data wb) as [? ? ->|r ? H0 ? ->|r ? H0 ? ->].
    + apply IH.
    + destruct name.
      * apply serials_count_other; [discriminate | apply IH].
      * apply serials_count_append; [apply IH | apply IH | exact H0].
    + destruct name.
      * apply serials_count_other; [discriminate|].
        apply serials_count_append; [apply IH | apply IH | reflexivity].
      * apply serials_count_append.
        -- apply add_po_record_header, IH.
        -- apply serials_count_other; [discriminate | apply IH].
        -- rewrite H0. reflexivity.
Qed.

(** ** The dedup gate *)

(** Some record of the Invoice sheet carries the invoice number [v]. *)
Definition invoice_present (wb : workbook) (v : value) : Prop :=
  exists r, In r (records wb Invoice_Details) /\ Py.eq (cell r 1) v = true.

Lemma invoice_exists_iff wb v : _invoice_exists wb v = true <-> invoice_present wb v.
Proof. unfold _invoice_exists, invoice_present. apply existsb_exists. Qed.

(** How many records of the Invoice sheet carry the invoice number [v]. *)
Definition count_invoices (wb : workbook) (v : value) : nat :=
  length (List.filter (fun r => Py.eq (cell r 1) v) (records wb Invoice_Details)).

Lemma count_invoices_zero wb v : ¬ invoice_present wb v -> count_invoices wb v = 0.
Proof.
  unfold invoice_present, count_invoices. intros H.
  induction (records wb Invoice_Details) as [|r l IH]; [reflexivity|].
  cbn. destruct (Py.eq (cell r 1) v) eqn:E.
  - exfalso. apply H. exists r. split; [now left | exact E].
  - apply IH. intros (r' & Hin & Hr'). apply H. exists r'. split; [now right | exact Hr'].
Qed.

(** An insertion that passes the gate adds one record to the Invoice
    sheet, with the next serial and the invoice number of the data. *)
Lemma insert_appends invoice_data wb :
  Py.truthy (get invoice_data "invoice_number" (VStr "")) &&
    _invoice_exists wb (get invoice_data "invoice_number" (VStr "")) = false ->
  exists r,
    invoice_details (add_invoice_record invoice_data wb) = (invoice_details wb ++ [r])%list /\
    cell r 0 = VInt (_get_next_serial_number wb Invoice_Details) /\
    cell r 1 = get invoice_data "invoice_number" (VStr "").
Proof.
  intros Hgate.
  destruct (add_invoice_record_outcome invoice_data wb) as [Ht He _|r _ H0 H1 ->|r _ H0 H1 ->].
  - rewrite Ht, He in Hgate. discriminate.
  - exists r. repeat split; assumption.
  - exists r. repeat split; assumption.
Qed.

Lemma duplicate_skipped invoice_data wb :
  Py.truthy (get invoice_data "invoice_number" (VStr "")) = true ->
  invoice_present wb (get invoice_data "invoice_number" (VStr "")) ->
  add_invoice_record invoice_data wb = wb.
Proof.
  intros Ht Hp. apply invoice_exists_iff in Hp.
  unfold add_invoice_record. now rewrite Ht, Hp.
Qed.

Lemma present_after_append wb (r : row) v :
  has_header wb Invoice_Details ->
  Py.eq (cell r 1) v = true ->
  forall wb', invoice_details wb' = (invoice_details wb ++ [r])%list ->
  invoice_present wb' v.
Proof.
  intros Hh Hr wb' E. exists r. split; [|exact Hr].
  unfold records, iter_rows_from_2. cbn [get_sheet]. rewrite E.
  rewrite records_app_header by exact Hh. apply in_or_app. right. now left.
Qed.

Lemma count_after_append wb (r : row) v :
  has_header wb Invoice_Details ->
  Py.eq (cell r 1) v = true ->
  forall wb', invoice_details wb' = (invoice_details wb ++ [r])%list ->
  count_invoices wb' v = S (count_invoices wb v).
Proof.
  intros Hh Hr wb' E. unfold count_invoices, records, iter_rows_from_2.
  cbn [get_sheet]. rewrite E, records_app_header by exact Hh.
  rewrite List.filter_app, length_app. cbn. rewrite Hr. cbn. lia.
Qed.

(** C1. With a non-empty invoice number that the Invoice sheet already
    holds, [add_invoice_record] returns the workbook as it is: both sheets
    are unchanged.  Hence a second insertion of the same data changes
    nothing, and two insertions of a number that was not there leave
    exactly one record with it. *)
Theorem duplicate_invoice_is_noop :
  forall wb invoice_data n,
    invoice_data !! "invoice_number" = Some (VStr n) -> n <> "" ->
    (invoice_present wb (VStr n) -> add_invoice_record invoice_data wb = wb) /\
    (has_header wb Invoice_Details ->
       add_invoice_record invoice_data (add_invoice_record invoice_data wb)
       = add_invoice_record invoice_data wb) /\
    (has_header wb Invoice_Details -> ¬ invoice_present wb (VStr n) ->
       count_invoices (add_invoice_record invoice_data (add_invoice_record invoice_data wb))
         (VStr n) = 1).
Proof.
  intros wb invoice_data n Hn Hne.
  assert (Hget : get invoice_data "invoice_number" (VStr "") = VStr n)
    by (unfold get; now rewrite Hn).
  assert (Ht : Py.truthy (get invoice_data "invoice_number" (VStr "")) = true)
    by (rewrite Hget; now apply truthy_str).
  assert (Hdup : forall w, invoice_present w (VStr n) -> add_invoice_record invoice_data w = w).
  { intros w Hp. apply duplicate_skipped; [exact Ht | now rewrite Hget]. }
  assert (Hsnd : has_header wb Invoice_Details ->
                 invoice_present (add_invoice_record invoice_data wb) (VStr n)).
  { intros Hh.
    destruct (Py.truthy (get invoice_data "invoice_number" (VStr "")) &&
              _invoice_exists wb (get invoice_data "invoice_number" (VStr ""))) eqn:Hgate.
    - apply andb_true_iff in Hgate as [_ He]. apply invoice_exists_iff in He.
      rewrite Hget in He. now rewrite (Hdup wb He).
    - destruct (insert_appends _ _ Hgate) as (r & E & _ & H1).
      apply (present_after_append wb r); [exact Hh | | exact E].
      rewrite H1, Hget. apply eq_str_refl. }
  split; [exact (Hdup wb) | split].
  - intros Hh. apply Hdup, Hsnd, Hh.
  - intros Hh Hnp. rewrite (Hdup _ (Hsnd Hh)).
    assert (Hgate : Py.truthy (get invoice_data "invoice_number" (VStr "")) &&
                    _invoice_exists wb (get invoice_data "invoice_number" (VStr "")) = false).
    { apply andb_false_iff. right. apply not_true_is_false.
      intros He. apply Hnp. apply invoice_exists_iff. now rewrite <- Hget. }
    destruct (insert_appends _ _ Hgate) as (r & E & _ & H1).
    rewrite (count_after_append wb r (VStr n) Hh); [|rewrite H1, Hget; apply eq_str_refl|exact E].
    now rewrite count_invoices_zero.
Qed.

(** C10. With an empty or absent invoice number the gate does not apply:
    every insertion adds a record with the empty invoice number, so two
    insertions of the same data leave two such records side by side. *)
Theorem empty_invoice_number_always_appends :
  forall wb invoice_data,
    invoice_data !! "invoice_number" = None \/
    invoice_data !! "invoice_number" = Some (VStr "") ->
    exists r1 r2,
      invoice_details (add_invoice_record invoice_data wb)
        = (invoice_details wb ++ [r1])%list /\
      invoice_details (add_invoice_record invoice_data (add_invoice_record invoice_data wb))
        = (invoice_details wb ++ [r1; r2])%list /\
      cell r1 1 = VStr "" /\ cell r2 1 = VStr "".
Proof.
  intros wb invoice_data H.
  assert (Hget : get invoice_data "invoice_number" (VStr "") = VStr "")
    by (unfold get; destruct H as [-> | ->]; reflexivity).
  assert (Hgate : forall w,
             Py.truthy (get invoice_data "invoice_number" (VStr "")) &&
             _invoice_exists w (get invoice_data "invoice_number" (VStr "")) = false)
    by (intros w; now rewrite Hget).
  destruct (insert_appends _ _ (Hgate wb)) as (r1 & E1 & _ & H1).
  destruct (insert_appends _ _ (Hgate (add_invoice_record invoice_data wb)))
    as (r2 & E2 & _ & H2).
  exists r1, r2. rewrite E2, E1, <- app_assoc. cbn [app].
  rewrite H1, H2, Hget. repeat split; reflexivity.
Qed.

(** ** Linking an invoice to its PO *)

(** Some record of the PO sheet carries the PO number [v]. *)
Definition po_present (wb : workbook) (v : value) : Prop :=
  exists r, In r (records wb PO_Details) /\ Py.eq (cell r 1) v = true.

Definition po_presentb (wb : workbook) (v : value) : bool :=
  existsb (fun r => Py.eq (cell r 1) v) (records wb PO_Details).

Lemma po_present_iff wb v : po_presentb wb v = true <-> po_present wb v.
Proof. apply existsb_exists. Qed.

Lemma lookup_rows_none rows v :
  (forall r, In r rows -> Py.eq (cell r 1) v = false) ->
  lookup_rows rows v = (VNone, VNone).
Proof.
  induction rows as [|r rows IH]; intros H; [reflexivity|].
  cbn. rewrite (H r) by now left. apply IH. intros r' Hr'. apply H. now right.
Qed.

Lemma lookup_rows_app_miss rows rows' v :
  (forall r, In r rows -> Py.eq (cell r 1) v = false) ->
  lookup_rows (rows ++ rows') v = lookup_rows rows' v.
Proof.
  induction rows as [|r rows IH]; intros H; [reflexivity|].
  cbn. rewrite (H r) by now left. apply IH. intros r' Hr'. apply H. now right.
Qed.

Lemma not_present_all wb v :
  ¬ po_present wb v -> forall r, In r (records wb PO_Details) -> Py.eq (cell r 1) v = false.
Proof.
  intros H r Hr. apply not_true_is_false. intros E. apply H. now exists r.
Qed.

(** The first record with the PO number [v] is [r]. *)
Definition first_po (wb : workbook) (v : value) (r : row) : Prop :=
  exists before after,
    records wb PO_Details = (before ++ r :: after)%list /\
    (forall r', In r' before -> Py.eq (cell r' 1) v = false) /\
    Py.eq (cell r 1) v = true.

Lemma lookup_first_po wb v r :
  first_po wb v r -> _lookup_po_details wb v = (cell r 2, cell r 4).
Proof.
  intros (before & after & E & Hb & Hr).
  unfold _lookup_po_details. fold (records wb PO_Details).
  rewrite E, lookup_rows_app_miss by exact Hb. cbn. now rewrite Hr.
Qed.

(** C2, as the code has it.  When the insertion passes the dedup gate and
    the non-empty PO number of the invoice is on no record of the PO sheet,
    [add_invoice_record] adds exactly one PO record: next serial, that PO
    number, the PO date of the invoice data, amount 0, department N/A.  The
    new invoice record carries the PO number and the date and department of
    that stub, and the PO number is on the PO sheet afterwards. *)
Theorem unseen_po_creates_stub :
  forall wb invoice_data p,
    invoice_data !! "po_number" = Some (VStr p) -> p <> "" ->
    has_header wb PO_Details ->
    ¬ po_present wb (VStr p) ->
    Py.truthy (get invoice_data "invoice_number" (VStr "")) &&
      _invoice_exists wb (get invoice_data "invoice_number" (VStr "")) = false ->
    let stub := [VInt (_get_next_serial_number wb PO_Details); VStr p;
                 get invoice_data "po_date" (VStr ""); VInt 0; VStr "N/A"] in
    po_details (add_invoice_record invoice_data wb) = (po_details wb ++ [stub])%list /\
    (exists r,
       invoice_details (add_invoice_record invoice_data wb)
         = (invoice_details wb ++ [r])%list /\
       cell r 3 = VStr p /\ cell r 4 = cell stub 2 /\ cell r 5 = cell stub 4) /\
    po_present (add_invoice_record invoice_data wb) (VStr p).
Proof.
  intros wb invoice_data p Hp Hne Hh Hnp Hgate stub.
  assert (Hget : get invoice_data "po_number" (VStr "") = VStr p)
    by (unfold get; now rewrite Hp).
  assert (Hrow : po_row (stub_data invoice_data) wb = stub).
  { unfold po_row, stub_data, stub, get. rewrite Hp. reflexivity. }
  assert (Hl1 : _lookup_po_details wb (VStr p) = (VNone, VNone)).
  { apply lookup_rows_none. now apply not_present_all. }
  assert (Hl2 : _lookup_po_details (add_po_record (stub_data invoice_data) wb) (VStr p)
                = (cell stub 2, cell stub 4)).
  { unfold _lookup_po_details, iter_rows_from_2. cbn [get_sheet].
    rewrite add_po_record_po, records_app_header by exact Hh.
    rewrite lookup_rows_app_miss by now apply not_present_all.
    rewrite Hrow. cbn. now rewrite String.eqb_refl. }
  assert (E : add_invoice_record invoice_data wb =
              append (add_po_record (stub_data invoice_data) wb) Invoice_Details
                [VInt (_get_next_serial_number wb Invoice_Details);
                 get invoice_data "invoice_number" (VStr "");
                 get invoice_data "invoice_date" (VStr "");
                 VStr p;
                 Py.or (cell stub 2) (get invoice_data "po_date" (VStr ""));
                 Py.or (cell stub 4) (VStr "N/A");
                 get invoice_data "gr_id" (VStr "");
                 get invoice_data "gr_date" (VStr "");
                 get invoice_data "subtotal" (VInt 0);
                 get invoice_data "tax" (VInt 0);
                 get invoice_data "grand_total" (VInt 0);
                 get invoice_data "status" (VStr "UnPaid")]).
  { unfold add_invoice_record. rewrite Hgate, Hget.
    rewrite (proj2 (truthy_str p) Hne), Hl1. cbn [Py.truthy negb].
    fold (stub_data invoice_data) in *.
    replace (<["department":=VStr "N/A"]> (<["po_amount":=VInt 0]>
              (<["po_date":=get invoice_data "po_date" (VStr "")]>
                (<["po_number":=VStr p]> ∅))))
      with (stub_data invoice_data) by (unfold stub_data; now rewrite Hget).
    now rewrite Hl2. }
  rewrite E. split; [|split].
  - cbn [append po_details]. now rewrite add_po_record_po, Hrow.
  - eexists. split; [reflexivity|]. cbn [cell lookup list_lookup default stub].
    repeat split; cbn; apply or_same.
  - exists stub. split; [|apply eq_str_refl].
    unfold records, iter_rows_from_2. cbn [get_sheet append po_details].
    rewrite add_po_record_po, records_app_header by exact Hh.
    rewrite Hrow. apply in_or_app. right. now left.
Qed.

(** *** Example workbooks and documents *)

Definition nl : string := String Chr.newline EmptyString.

(** A new workbook after the invoice [A1] with the PO number [111]. *)
Definition wb_one_invoice : workbook :=
  add_invoice_record
    (<["invoice_number" := VStr "A1"]> (<["po_number" := VStr "111"]> ∅))
    _create_sheets.

(** The same invoice number with another PO number. *)
Definition same_number_other_po : Dict :=
  <["invoice_number" := VStr "A1"]> (<["po_number" := VStr "222"]> ∅).

Definition invoice_for_9999 : Dict :=
  <["invoice_number" := VStr "B7"]>
  (<["po_number" := VStr "9999"]> (<["po_date" := VStr "05-Mar-2024"]> ∅)).

(** C2, the claim as stated fails for a duplicate: the PO number 222 of the
    data is on no record of the PO sheet, and the insertion, skipped by the
    dedup gate, creates no stub, so that no PO 222 exists afterwards. *)
Lemma duplicate_with_unseen_po_creates_no_stub :
  same_number_other_po !! "po_number" = Some (VStr "222") /\
  ¬ po_present wb_one_invoice (VStr "222") /\
  po_details (add_invoice_record same_number_other_po wb_one_invoice)
    = po_details wb_one_invoice /\
  ¬ po_present (add_invoice_record same_number_other_po wb_one_invoice) (VStr "222").
Proof.
  split; [vm_compute; reflexivity|].
  split; [rewrite <- po_present_iff; vm_compute; discriminate|].
  split; [vm_compute; reflexivity|].
  rewrite <- po_present_iff. vm_compute. discriminate.
Qed.

Lemma unseen_po_creates_stub_witness :
  po_details (add_invoice_record invoice_for_9999 _create_sheets)
    = [po_headers; [VInt 1; VStr "9999"; VStr "05-Mar-2024"; VInt 0; VStr "N/A"]] /\
  po_present (add_invoice_record invoice_for_9999 _create_sheets) (VStr "9999").
Proof.
  assert (Hnp : ¬ po_present _create_sheets (VStr "9999"))
    by (rewrite <- po_present_iff; vm_compute; discriminate).
  destruct (unseen_po_creates_stub _create_sheets invoice_for_9999 "9999"
              ltac:(vm_compute; reflexivity) ltac:(discriminate)
              ltac:(discriminate) Hnp ltac:(vm_compute; reflexivity))
    as (H1 & _ & H3).
  split; [exact H1 | exact H3].
Defined.

Lemma duplicate_invoice_is_noop_witness :
  add_invoice_record same_number_other_po wb_one_invoice = wb_one_invoice.
Proof.
  apply (proj1 (duplicate_invoice_is_noop wb_one_invoice same_number_other_po "A1"
                  ltac:(vm_compute; reflexivity) ltac:(discriminate))).
  apply invoice_exists_iff. vm_compute. reflexivity.
Defined.

Lemma empty_invoice_number_always_appends_witness :
  exists r1 r2,
    invoice_details (add_invoice_record ∅ (add_invoice_record ∅ _create_sheets))
      = [invoice_headers; r1; r2] /\ cell r1 1 = VStr "" /\ cell r2 1 = VStr "".
Proof.
  destruct (empty_invoice_number_always_appends _create_sheets ∅
              ltac:(left; vm_compute; reflexivity))
    as (r1 & r2 & _ & E & H1 & H2).
  exists r1, r2. repeat split; assumption.
Defined.

(** A PO document without a PO date, and an invoice that names its PO. *)
Definition po_text : string :=
  "Purchase Order" +:+ nl +:+ "PO Number: 9999" +:+ nl +:+ "Amount: 500" +:+ nl
  +:+ "Department: Finance".

Definition invoice_text : string :=
  "Invoice No: A1001" +:+ nl +:+ "PO NO: 9999" +:+ nl +:+ "PO DATE: 01-Jan-24" +:+ nl
  +:+ "TOTAL: 100".

(** C3, where the code departs from it.  The PO 9999 is on the sheet, with
    an empty date because its document gave none; the invoice that names it
    still makes [add_invoice_record] add a second PO 9999, a stub, and the
    invoice record takes its PO date from the invoice. *)
Theorem existing_po_without_date_gets_a_stub :
  let st1 := process_text "po.pdf" po_text (State _create_sheets []) in
  let st2 := process_text "invoice.pdf" invoice_text st1 in
  po_details (wb st1)
    = [po_headers; [VInt 1; VStr "9999"; VStr ""; VFloat 500; VStr "Finance"]] /\
  po_details (wb st2)
    = [po_headers;
       [VInt 1; VStr "9999"; VStr ""; VFloat 500; VStr "Finance"];
       [VInt 2; VStr "9999"; VStr "01-Jan-2024"; VInt 0; VStr "N/A"]] /\
  invoice_details (wb st2)
    = [invoice_headers;
       [VInt 1; VStr "A1001"; VStr "01-Jan-2024"; VStr "9999"; VStr "01-Jan-2024";
        VStr "Finance"; VStr ""; VStr ""; VFloat 100; VFloat 12; VFloat 112;
        VStr "UnPaid"]].
Proof. vm_compute. repeat split; reflexivity. Qed.

(** C9, where the code departs from it.  The text is classified as an
    invoice and no field is found in it; [parse_invoice_data] still returns
    a dictionary, the one with the status, so that a record of empty fields
    is added and no error is written. *)
Theorem invoice_without_fields_is_inserted :
  classify "Invoice No" = Invoice /\
  option_map map_to_list (parse_invoice_data "Invoice No")
    = Some [("status", VStr "UnPaid")] /\
  process_text "scan.png" "Invoice No" (State _create_sheets [])
    = State (Workbook [po_headers]
               [invoice_headers;
                [VInt 1; VStr ""; VStr ""; VStr ""; VStr ""; VStr "N/A"; VStr ""; VStr "";
                 VInt 0; VInt 0; VInt 0; VStr "UnPaid"]])
            [].
Proof. vm_compute. repeat split; reflexivity. Qed.

(** ** The example of the specification *)

Definition example_text : string :=
  "PO NO PO DATE GR NO GR DATE" +:+ nl +:+ "1234567890 01-Jan-24 7654321 05-Jan-24"
  +:+ nl +:+ "Invoice No: A1001" +:+ nl +:+ "TOTAL: 1,000.00".

(** C6. Processing the example text in a new workbook adds one invoice
    record: number A1001, PO number 1234567890, GR id 7654321, subtotal
    1000.0, tax 120.0, grand total 1120.0, status UnPaid. *)
Theorem example_invoice_record :
  exists r,
    invoice_details (wb (process_text "example.pdf" example_text (State _create_sheets [])))
      = [invoice_headers; r] /\
    cell r 1 = VStr "A1001" /\
    cell r 3 = VStr "1234567890" /\
    cell r 6 = VStr "7654321" /\
    cell r 8 = VFloat 1000 /\
    cell r 9 = VFloat 120 /\
    cell r 10 = VFloat 1120 /\
    cell r 11 = VStr "UnPaid".
Proof. eexists. vm_compute. repeat split; reflexivity. Qed.

(** ** Default tax and grand total *)

Lemma SFmul_comm prec emax x y : SFmul prec emax x y = SFmul prec emax y x.
Proof.
  destruct x as [sx|sx| |sx mx ex], y as [sy|sy| |sy my ey]; cbn;
    rewrite ?(xorb_comm sx sy); try reflexivity.
  now rewrite Pos.mul_comm, Z.add_comm.
Qed.

(** The product of two floats does not depend on their order. *)
Lemma float_mul_comm (x y : float) : PrimFloat.mul x y = PrimFloat.mul y x.
Proof. apply Prim2SF_inj. rewrite !mul_spec. apply SFmul_comm. Qed.

(** C4. With a subtotal [S] and neither tax nor grand total extracted, the
    derivation gives the tax [round(0.12 * S, 2)], the grand total
    [S + tax] with that tax, and the status UnPaid. *)
Theorem derive_defaults :
  forall (data : Dict) (S : float),
    data !! "subtotal" = Some (VFloat S) ->
    data !! "tax" = None ->
    data !! "grand_total" = None ->
    exists data',
      derive data = Some data' /\
      let tax := Num.round2 (PrimFloat.mul 0.12 S) in
      data' !! "tax" = Some (VFloat tax) /\
      data' !! "grand_total" = Some (VFloat (PrimFloat.add S tax)) /\
      data' !! "status" = Some (VStr "UnPaid").
Proof.
  intros data S Hs Ht Hg. unfold derive. rewrite Hs, Ht. cbn [Py.mul_float Py.to_float].
  rewrite !lookup_insert_ne by discriminate. rewrite Hs, Hg.
  unfold get. rewrite lookup_insert_eq. cbn [default Py.add Py.to_float].
  eexists. split; [reflexivity|]. cbn zeta.
  rewrite (float_mul_comm 0.12 S).
  rewrite lookup_insert_ne by discriminate.
  rewrite lookup_insert_ne by discriminate.
  rewrite lookup_insert_eq.
  rewrite lookup_insert_ne by discriminate.
  rewrite lookup_insert_eq.
  rewrite lookup_insert_eq.
  repeat split; reflexivity.
Qed.

Definition subtotal_only : Dict := <["subtotal" := VFloat 1000]> ∅.

Lemma derive_defaults_witness :
  exists data',
    derive subtotal_only = Some data' /\
    data' !! "tax" = Some (VFloat 120) /\
    data' !! "grand_total" = Some (VFloat 1120) /\
    data' !! "status" = Some (VStr "UnPaid").
Proof.
  destruct (derive_defaults subtotal_only 1000
              ltac:(vm_compute; reflexivity) ltac:(vm_compute; reflexivity)
              ltac:(vm_compute; reflexivity)) as (data' & E & H1 & H2 & H3).
  exists data'. repeat split; assumption.
Defined.

(** ** Classification *)

Lemma is_prefix_spec p s : Str.is_prefix p s = true <-> exists t, s = p +:+ t.
Proof.
  revert s. induction p as [|a p IH]; intros s; cbn.
  - split; [intros _; now exists s | reflexivity].
  - destruct s as [|b s].
    + split; [discriminate | intros (t & Ht); discriminate].
    + rewrite andb_true_iff, Chr_eqb_eq, IH. split.
      * intros (-> & t & ->). now exists t.
      * intros (t & Ht). injection Ht as -> ->. split; [reflexivity | now exists t].
Qed.

(** [sub in s] holds exactly when [s] is [a + sub + b] for some [a], [b]. *)
Lemma contains_spec sub s :
  Str.contains sub s = true <-> exists a b, s = a +:+ sub +:+ b.
Proof.
  induction s as [|c s IH]; cbn [Str.contains]; rewrite orb_true_iff, is_prefix_spec.
  - split.
    + intros [(t & Ht) | H]; [now exists "", t | discriminate].
    + intros (a & b & H). left. destruct a; [now exists b | discriminate].
  - rewrite IH. split.
    + intros [(t & Ht) | (a & b & ->)]; [now exists "", t | now exists (String c a), b].
    + intros (a & b & H). destruct a as [|c' a].
      * left. now exists b.
      * right. injection H as -> ->. now exists a, b.
Qed.

Lemma append_cons c a b : String c a +:+ b = String c (a +:+ b).
Proof. reflexivity. Qed.

Lemma lower_app a b : Str.lower (a +:+ b) = Str.lower a +:+ Str.lower b.
Proof.
  induction a as [|c a IH]; [reflexivity|].
  rewrite append_cons. cbn [Str.lower]. now rewrite append_cons, IH.
Qed.

(** The text contains the phrase, whatever the case of its letters. *)
Definition occurs_ci (phrase text : string) : Prop :=
  exists a w b, text = a +:+ w +:+ b /\ Str.lower w = phrase.

Lemma occurs_ci_contains phrase text :
  occurs_ci phrase text -> Str.contains phrase (Str.lower text) = true.
Proof.
  intros (a & w & b & -> & <-). apply contains_spec.
  exists (Str.lower a), (Str.lower b). now rewrite !lower_app.
Qed.

Lemma rstrip_nonempty c s : Chr.is_space c = false -> Str.rstrip (String c s) <> "".
Proof. intros H. cbn. rewrite H. now destruct (Str.rstrip s). Qed.

Lemma strip_nonempty a c b :
  Chr.is_space c = false -> Str.strip (a +:+ String c b) <> "".
Proof.
  intros H. unfold Str.strip. induction a as [|x a IH].
  - change ("" +:+ String c b) with (String c b). cbn [Str.lstrip].
    rewrite H. now apply rstrip_nonempty.
  - rewrite append_cons. cbn [Str.lstrip].
    destruct (Chr.is_space x) eqn:Hx; [exact IH | now apply rstrip_nonempty].
Qed.

Lemma lower_space c : Chr.is_space c = true -> Chr.is_space (Chr.to_lower c) = true.
Proof.
  intros H. destruct c as [[] [] [] [] [] [] [] []]; vm_compute in H |- *;
    congruence.
Qed.

(** C5. A text that contains, in any case, an invoice phrase and an
    invoice-number phrase is classified as an invoice, whatever else it
    contains, and [process_file] takes the invoice branch for it. *)
Theorem invoice_check_wins :
  forall text,
    occurs_ci "invoice" text -> occurs_ci "invoice no" text ->
    classify text = Invoice /\
    forall name st,
      process_text name text st =
      match parse_invoice_data text with
      | Some invoice_data => State (add_invoice_record invoice_data (wb st)) (errors st)
      | None => _log_error name "Failed to parse invoice data" st
      end.
Proof.
  intros text H1 H2.
  assert (Hc : classify text = Invoice).
  { unfold classify.
    now rewrite (occurs_ci_contains _ _ H1), (occurs_ci_contains _ _ H2). }
  split; [exact Hc|]. intros name st. unfold process_text. rewrite Hc.
  destruct H1 as (a & w & b & -> & Hw).
  destruct w as [|c w]; [discriminate|]. cbn in Hw. injection Hw as Hc' _.
  assert (Hsp : Chr.is_space c = false).
  { destruct (Chr.is_space c) eqn:E; [|reflexivity].
    apply lower_space in E. rewrite Hc' in E. discriminate. }
  rewrite append_cons.
  now rewrite (proj2 (string_eqb_empty _) (strip_nonempty a c (w +:+ b) Hsp)).
Qed.

Lemma invoice_check_wins_witness :
  classify ("Purchase Order" +:+ nl +:+ "INVOICE NO 7") = Invoice.
Proof.
  apply (invoice_check_wins ("Purchase Order" +:+ nl +:+ "INVOICE NO 7")).
  - exists ("Purchase Order" +:+ nl), "INVOICE", " NO 7". split; reflexivity.
  - exists ("Purchase Order" +:+ nl), "INVOICE NO", " 7". split; reflexivity.
Defined.

(** ** Dates: what a second pass of [_parse_date] does *)

Lemma Z_in_range (lo : Z) (n : nat) (z : Z) :
  (lo <= z < lo + Z.of_nat n)%Z ->
  In z (map (fun i => (lo + Z.of_nat i)%Z) (seq 0 n)).
Proof.
  intros H. apply in_map_iff. exists (Z.to_nat (z - lo)).
  split; [lia | apply in_seq; lia].
Qed.

Lemma forall_range (P : Z -> bool) (lo : Z) (n : nat) :
  forallb P (map (fun i => (lo + Z.of_nat i)%Z) (seq 0 n)) = true ->
  forall z, (lo <= z < lo + Z.of_nat n)%Z -> P z = true.
Proof.
  intros H z Hz. rewrite forallb_forall in H. apply H, Z_in_range, Hz.
Qed.

Lemma forall_between (P : Z -> bool) (lo hi : Z) :
  forallb P (map (fun i => (lo + Z.of_nat i)%Z) (seq 0 (Z.to_nat (hi - lo + 1)))) = true ->
  forall z, (lo <= z <= hi)%Z -> P z = true.
Proof. intros H z Hz. apply (forall_range P lo _ H). lia. Qed.

(** Case analysis on an integer of a small range. *)
Ltac enum_range H n :=
  apply (Z_in_range _ n) in H; cbn in H;
  repeat (destruct H as [H | H]; [subst |]); [.. | contradiction].

Definition digit_atom : Re.atom := Re.AClass false [Re.CDigit].

Definition month_name (m : Z) : string :=
  nth (Z.to_nat (m - 1)) DateTime.month_abbr EmptyString.

Lemma digit_char_match a :
  (0 <= a <= 9)%Z -> Re.atom_match Re.IGNORECASE digit_atom (DateTime.digit_char a) = true.
Proof.
  intros H.
  apply (forall_range
           (fun a => Re.atom_match Re.IGNORECASE digit_atom (DateTime.digit_char a)) 0 10);
    [vm_compute; reflexivity | lia].
Qed.

Lemma rmatch_seq fl r1 r2 st k :
  Re.rmatch fl (Re.RSeq r1 r2) st k = Re.rmatch fl r1 st (fun st' => Re.rmatch fl r2 st' k).
Proof. reflexivity. Qed.

Section Deterministic.
Local Open Scope Z_scope.
Variables (g n : nat) (pv : option ascii) (s : string)
          (cs : list (nat * (nat * nat))) (k : Re.mstate -> option Re.mstate).

(** [%d] on a day in two digits: when the match cannot go on behind the
    first digit alone, it goes on behind the two. *)
Lemma match_day_eq d :
  1 <= d <= 31 ->
  k (Re.MState (S n) (Some (DateTime.digit_char (d / 10 mod 10)))
       (String (DateTime.digit_char (d mod 10)) s) ((g, (n, S n)) :: cs)) = None ->
  Re.rmatch Re.IGNORECASE (Re.RGroup g DateTime.re_d)
    (Re.MState n pv
       (String (DateTime.digit_char (d / 10 mod 10))
          (String (DateTime.digit_char (d mod 10)) s)) cs) k
  = k (Re.MState (S (S n)) (Some (DateTime.digit_char (d mod 10))) s
         ((g, (n, S (S n))) :: cs)).
Proof.
  intros Hd. assert (H : 1 <= d < 1 + Z.of_nat 31) by lia. clear Hd.
  enum_range H 31%nat; intros H1; vm_compute in H1 |- *; rewrite ?H1;
    try match goal with |- context [match k ?a with _ => _ end] => destruct (k a) end;
    reflexivity.
Qed.

Lemma match_month_eq m :
  1 <= m <= 12 ->
  Re.rmatch Re.IGNORECASE (Re.RGroup g DateTime.re_b)
    (Re.MState n pv (month_name m +:+ s) cs) k
  = k (Re.MState (S (S (S n))) (String.get 2 (month_name m)) s
         ((g, (n, S (S (S n)))) :: cs)).
Proof.
  intros Hm. assert (H : 1 <= m < 1 + Z.of_nat 12) by lia. clear Hm.
  enum_range H 12%nat; vm_compute;
    try match goal with |- context [match k ?a with _ => _ end] => destruct (k a) end;
    reflexivity.
Qed.


Lemma match_lit_eq c :
  Re.rmatch Re.IGNORECASE (Re.RAtom (Re.ALit c)) (Re.MState n pv (String c s) cs) k
  = k (Re.MState (S n) (Some c) s cs).
Proof.
  cbn [Re.rmatch Re.rest Re.atom_match Re.ignorecase Re.IGNORECASE].
  now rewrite Chr_eqb_refl.
Qed.

Lemma match_lit_none c c' :
  Re.atom_match Re.IGNORECASE (Re.ALit c) c' = false ->
  Re.rmatch Re.IGNORECASE (Re.RAtom (Re.ALit c)) (Re.MState n pv (String c' s) cs) k
  = None.
Proof. intros H. cbn [Re.rmatch Re.rest]. now rewrite H. Qed.

End Deterministic.

Section Chain.
Variables (g n : nat) (pv : option ascii) (s : string)
          (cs : list (nat * (nat * nat))) (k : Re.mstate -> option Re.mstate)
          (x : Re.mstate).
Variables c1 c2 c3 c4 : ascii.
Hypothesis H1 : Re.atom_match Re.IGNORECASE digit_atom c1 = true.
Hypothesis H2 : Re.atom_match Re.IGNORECASE digit_atom c2 = true.


Hypothesis H3 : Re.atom_match Re.IGNORECASE digit_atom c3 = true.
Hypothesis H4 : Re.atom_match Re.IGNORECASE digit_atom c4 = true.

(** Four digits are read by [%Y]. *)
Lemma match_Y :
  k (Re.MState (S (S (S (S n)))) (Some c4) s ((g, (n, S (S (S (S n))))) :: cs)) = Some x ->
  Re.rmatch Re.IGNORECASE (Re.RGroup g DateTime.re_Y)
    (Re.MState n pv (String c1 (String c2 (String c3 (String c4 s)))) cs) k = Some x.
Proof.
  intros Hk. unfold DateTime.re_Y. fold digit_atom.
  cbn [Re.rmatch Re.rest Re.advance Re.close_group Re.pos Re.prev Re.caps].
  rewrite H1.
  cbn [Re.rmatch Re.rest Re.advance Re.close_group Re.pos Re.prev Re.caps].
  rewrite H2.
  cbn [Re.rmatch Re.rest Re.advance Re.close_group Re.pos Re.prev Re.caps].
  rewrite H3.
  cbn [Re.rmatch Re.rest Re.advance Re.close_group Re.pos Re.prev Re.caps].
  rewrite H4. exact Hk.
Qed.
End Chain.

Section Printed.
Local Open Scope Z_scope.
Import DateTime.

(** A date printed as day, month name and year, as [%d-%b-%Y] does, the
    digits of the year being [ys]. *)
Definition printed (dt : date) (ys : string) : string :=
  String (digit_char (day dt / 10 mod 10)) (String (digit_char (day dt mod 10))
    (String "-" (month_name (month dt) +:+ String "-" ys))).

Lemma append_nil_r s : s +:+ "" = s.
Proof. induction s as [|c s IH]; [reflexivity|]. now rewrite append_cons, IH. Qed.


Lemma strftime_printed dt : strftime dt "%d-%b-%Y" = printed dt (decimal (year dt)).
Proof.
  unfold strftime. change (parse_format "%d-%b-%Y") with (Some [Dd; DLit "-"; Db; DLit "-"; DY]).
  cbn [render]. rewrite append_nil_r. reflexivity.
Qed.

(** The characters of a date whose year is printed in four digits. *)
Definition canonical (dt : date) : string :=
  String (digit_char (day dt / 10 mod 10)) (String (digit_char (day dt mod 10))
    (String "-" (month_name (month dt) +:+
       String "-"
         (String (digit_char (year dt / 1000 mod 10))
            (String (digit_char (year dt / 100 mod 10))
               (String (digit_char (year dt / 10 mod 10))
                  (String (digit_char (year dt mod 10)) EmptyString))))))).

Lemma canonical_printed dt : canonical dt = printed dt (pad4 (year dt)).
Proof. reflexivity. Qed.

Lemma decimal_four y : 1000 <= y -> decimal y = pad4 y.
Proof.
  intros H. unfold decimal.
  destruct (Z.ltb_spec y 10); [lia|]. destruct (Z.ltb_spec y 100); [lia|].
  destruct (Z.ltb_spec y 1000); [lia|]. reflexivity.
Qed.



Lemma strftime_canonical dt : 1000 <= year dt -> strftime dt "%d-%b-%Y" = canonical dt.
Proof. intros H. now rewrite strftime_printed, decimal_four. Qed.

Lemma valid_bounds dt :
  valid dt = true ->
  1 <= year dt <= 9999 /\ 1 <= month dt <= 12 /\ 1 <= day dt <= 31.
Proof.
  unfold valid. rewrite !andb_true_iff, !Z.leb_le.
  intros (((((? & ?) & ?) & ?) & ?) & Hd).
  assert (days_in_month (year dt) (month dt) <= 31).
  { unfold days_in_month.
    destruct (month dt =? 2); [destruct (is_leap (year dt)); lia|].
    destruct ((month dt =? 4) || (month dt =? 6) || (month dt =? 9) || (month dt =? 11));
      lia. }
  lia.
Qed.

Lemma year_digit y j : 0 <= y / j mod 10 <= 9.
Proof. pose proof (Z.mod_pos_bound (y / j) 10). lia. Qed.

Lemma year_digit0 y : 0 <= y mod 10 <= 9.
Proof. pose proof (Z.mod_pos_bound y 10). lia. Qed.

(** A digit is none of the separators. *)
Lemma digit_not_sep a sep :
  0 <= a <= 9 -> sep = "-"%char \/ sep = "/"%char ->
  Re.atom_match Re.IGNORECASE (Re.ALit sep) (digit_char a) = false.
Proof.
  intros H Hs.
  assert (E := forall_between
    (fun a => negb (Re.atom_match Re.IGNORECASE (Re.ALit "-") (digit_char a)) &&
              negb (Re.atom_match Re.IGNORECASE (Re.ALit "/") (digit_char a)))
    0 9 ltac:(vm_compute; reflexivity) a H).
  cbv beta in E. apply andb_true_iff in E as [E1 E2].
  destruct Hs as [-> | ->]; now apply negb_true_iff.
Qed.

(** The formats of [_parse_date]: a day, a month by name or by number, a
    year in two digits or in four, with one separator. *)
Definition day_month_year (sep : ascii) (mon yr : directive) : list directive :=
  [Dd; DLit sep; mon; DLit sep; yr].

Definition formatY : list directive := day_month_year "-" Db DY.

Variable dt : date.
Variable ys : string.
Hypothesis Hd : 1 <= day dt <= 31.
Hypothesis Hm : 1 <= month dt <= 12.



(** and the two formats with the month name reach the year. *)
Lemma match_name yr :
  yr = Dy \/ yr = DY ->
  Re.match_at Re.IGNORECASE (format_regex (day_month_year "-" Db yr) 1) 0 None
    (printed dt ys)
  = Re.rmatch Re.IGNORECASE (Re.RGroup 3 (directive_re yr))
      (Re.MState 7 (Some "-"%char) ys [(2, (3, 6)); (1, (0, 2))]%nat) Some.
Proof.
  intros Hy. unfold Re.match_at, printed, day_month_year.
  assert (E : format_regex [Dd; DLit "-"; Db; DLit "-"; yr] 1
              = Re.RSeq (Re.RGroup 1 re_d) (Re.RSeq (Re.RAtom (Re.ALit "-"))
                  (Re.RSeq (Re.RGroup 2 re_b) (Re.RSeq (Re.RAtom (Re.ALit "-"))
                     (Re.RSeq (Re.RGroup 3 (directive_re yr)) Re.REps)))))
    by (destruct Hy as [-> | ->]; reflexivity).
  rewrite E. clear E.
  rewrite rmatch_seq, match_day_eq;
    [ | exact Hd
      | rewrite rmatch_seq; apply match_lit_none, digit_not_sep;
        [apply year_digit0 | now left] ].
  rewrite rmatch_seq, match_lit_eq, rmatch_seq, match_month_eq by exact Hm.
  rewrite rmatch_seq, match_lit_eq, rmatch_seq. reflexivity.
Qed.




End Printed.

Section RoundTrip.
Local Open Scope Z_scope.
Import DateTime.

Lemma int_of_two_digits d :
  0 <= d <= 99 -> Num.int_of_string (pad2 d) = Some d.
Proof.
  intros H.
  assert (E := forall_between
    (fun d => match Num.int_of_string (pad2 d) with
              | Some v => v =? d
              | None => false
              end) 0 99 ltac:(vm_compute; reflexivity) d H).
  cbv beta in E. destruct (Num.int_of_string _) as [v|]; [|discriminate].
  apply Z.eqb_eq in E. now subst.
Qed.

Lemma int_of_year y :
  1 <= y <= 9999 -> Num.int_of_string (pad4 y) = Some y.
Proof.
  intros H.
  assert (E := forall_between
    (fun y => match Num.int_of_string (pad4 y) with
              | Some v => v =? y
              | None => false
              end) 1 9999 ltac:(vm_compute; reflexivity) y H).
  cbv beta in E. destruct (Num.int_of_string _) as [v|]; [|discriminate].
  apply Z.eqb_eq in E. now subst.
Qed.

Definition spans (j : nat) : list (nat * (nat * nat)) :=
  [(3, (7, j)); (2, (3, 6)); (1, (0, 2))]%nat.

(** The expression of [%d-%b-%Y] matches a date printed with four digits
    of the year up to its end; that of [%d-%b-%y] stops two characters
    before the end, and matches a date printed with two digits. *)
Lemma match_canonical_Y dt :
  valid dt = true ->
  Re.match_at Re.IGNORECASE (format_regex formatY 1) 0 None (printed dt (pad4 (year dt)))
  = Some (Re.MState 11 (Some (digit_char (year dt mod 10))) EmptyString (spans 11)).
Proof.
  intros Hv. destruct (valid_bounds dt Hv) as (Hy & Hm & Hd).
  unfold formatY. rewrite (match_name dt _ Hd Hm) by now right.
  apply match_Y; try (apply digit_char_match; first [apply year_digit | apply year_digit0]).
  reflexivity.
Qed.



(** The fields that [strptime] reads from the groups of a printed date. *)
Lemma fields_canonical dt :
  valid dt = true ->
  fields formatY 1 (Re.Match (printed dt (pad4 (year dt))) (spans 11)) (Date 1900 1 1)
  = Some dt.
Proof.
  intros Hv. destruct (valid_bounds dt Hv) as (Hy & Hm & Hd).
  destruct dt as [y m d]. cbn [year month day] in *.
  assert (H : 1 <= m < 1 + Z.of_nat 12) by lia. clear Hm Hv.
  enum_range H 12%nat.
  all: unfold formatY, day_month_year, spans, printed; cbn [year month day fields].
  all: unfold Re.group; cbn [Re.span_of Re.spans Nat.eqb Re.subject].
  all: match goal with
       | |- context [Str.slice 0 2 ?t] => change (Str.slice 0 2 t) with (pad2 d)
       end.
  all: rewrite (int_of_two_digits d) by lia; cbn [option_map year month day].
  all: match goal with
       | |- context [Str.slice 7 11 ?t] => change (Str.slice 7 11 t) with (pad4 y)
       end.
  all: rewrite (int_of_year y Hy).
  all: reflexivity.
Qed.




End RoundTrip.

Lemma strptime_canonical_Y dt :
  DateTime.valid dt = true -> DateTime.strptime (canonical dt) "%d-%b-%Y" = Some dt.
Proof.
  intros Hv. rewrite canonical_printed. unfold DateTime.strptime.
  change (DateTime.parse_format "%d-%b-%Y") with (Some formatY). cbv iota beta.
  rewrite (match_canonical_Y dt Hv). cbn [Re.rest Re.caps].
  now rewrite (fields_canonical dt Hv), Hv.
Qed.



(** [strptime] returns existing dates only. *)
Lemma strptime_valid s fmt dt :
  DateTime.strptime s fmt = Some dt -> DateTime.valid dt = true.
Proof.
  unfold DateTime.strptime. intros H.
  destruct (DateTime.parse_format fmt); [|discriminate].
  destruct (Re.match_at _ _ _ _ _) as [st|]; [|discriminate].
  destruct (Re.rest st); [|discriminate].
  destruct (DateTime.fields _ _ _ _) as [dt'|]; [|discriminate].
  destruct (DateTime.valid dt') eqn:E; [|discriminate]. congruence.
Qed.

(** The loop returns the date of one of the formats, and finds one when
    there is one. *)
Lemma try_formats_parsed date_str formats dt :
  try_formats date_str formats = Some dt ->
  exists fmt, In fmt formats /\ DateTime.strptime date_str fmt = Some dt.
Proof.
  induction formats as [|fmt formats IH]; cbn [try_formats]; [discriminate|].
  destruct (DateTime.strptime date_str fmt) as [dt'|] eqn:E.
  - intros [= <-]. exists fmt. split; [now left | exact E].
  - intros H. destruct (IH H) as (f & Hin & Hf). exists f. split; [now right | exact Hf].
Qed.


Lemma try_formats_some date_str formats fmt :
  In fmt formats -> DateTime.strptime date_str fmt <> None ->
  try_formats date_str formats <> None.
Proof.
  induction formats as [|f formats IH]; intros Hin Hp; [destruct Hin|].
  cbn [try_formats]. destruct (DateTime.strptime date_str f) eqn:E; [discriminate|].
  destruct Hin as [-> | Hin]; [congruence | now apply IH].
Qed.

Lemma try_formats_valid date_str formats dt :
  try_formats date_str formats = Some dt -> DateTime.valid dt = true.
Proof.
  intros H. destruct (try_formats_parsed _ _ _ H) as (fmt & _ & Hf).
  eapply strptime_valid, Hf.
Qed.









(** * Further properties of the code *)

(** ** Groups of a match

    A group that every way through a pattern closes has a span in every
    match of the pattern. *)

Fixpoint sets_group (g : nat) (r : Re.regex) : bool :=
  match r with
  | Re.RGroup n r1 => Nat.eqb n g || sets_group g r1
  | Re.RSeq r1 r2 => sets_group g r1 || sets_group g r2
  | Re.RAlt r1 r2 => sets_group g r1 && sets_group g r2
  | _ => false
  end.

Definition has_span (g : nat) (cs : list (nat * (nat * nat))) : Prop :=
  Re.span_of g cs <> None.

Lemma has_span_cons g n sp cs : has_span g cs -> has_span g ((n, sp) :: cs).
Proof. unfold has_span. cbn. now destruct (Nat.eqb n g). Qed.

Lemma has_span_here g sp cs : has_span g ((g, sp) :: cs).
Proof. unfold has_span. cbn. now rewrite Nat.eqb_refl. Qed.

Lemma or_else_some {A} (x y : option A) (v : A) :
  Re.or_else x y = Some v -> x = Some v \/ y = Some v.
Proof. destruct x; cbn; intros H; [now left | now right]. Qed.

(** A repetition hands the spans it got to its continuation. *)
Lemma rep_passes fl a greedy s :
  forall lo hi n pv cs k st',
    Re.rep fl a greedy lo hi n pv s cs k = Some st' ->
    exists s1, k s1 = Some st' /\ Re.caps s1 = cs.
Proof.
  induction s as [|c s IH]; intros lo hi n pv cs k st' H; cbn [Re.rep] in H.
  - destruct lo; [|discriminate]. eexists. split; [exact H | reflexivity].
  - assert (Hhere : match lo with
                    | 0 => k (Re.MState n pv (String c s) cs)
                    | S _ => None
                    end = Some st' -> exists s1, k s1 = Some st' /\ Re.caps s1 = cs).
    { destruct lo; [|discriminate]. intros E. eexists. split; [exact E | reflexivity]. }
    destruct (Re.may_repeat hi && Re.atom_match fl a c); [|now apply Hhere].
    destruct greedy.
    + apply or_else_some in H as [H | H]; [now apply IH in H | now apply Hhere].
    + destruct lo.
      * apply or_else_some in H as [H | H]; [now apply Hhere | now apply IH in H].
      * now apply IH in H.
Qed.

(** The state that reaches the continuation on the way to a match has the
    spans of the start and those of the groups the pattern always closes. *)
Lemma rmatch_passes fl r :
  forall st k st',
    Re.rmatch fl r st k = Some st' ->
    exists s1,
      k s1 = Some st' /\
      (forall g, has_span g (Re.caps st) -> has_span g (Re.caps s1)) /\
      (forall g, sets_group g r = true -> has_span g (Re.caps s1)).
Proof.
  induction r as [|a|r1 IH1 r2 IH2|r1 IH1 r2 IH2|a lo hi greedy|n r1 IH1| |];
    intros st k st' H; cbn [Re.rmatch] in H.
  - exists st. repeat split; [exact H | auto | discriminate].
  - destruct (Re.rest st) as [|c s']; [discriminate|].
    destruct (Re.atom_match fl a c); [|discriminate].
    eexists. repeat split; [exact H | auto | discriminate].
  - apply IH1 in H as (s1 & H & He1 & Hs1).
    apply IH2 in H as (s2 & H & He2 & Hs2).
    exists s2. repeat split; [exact H | auto |].
    intros g Hg. cbn in Hg. apply orb_true_iff in Hg as [Hg | Hg]; auto.
  - apply or_else_some in H as [H | H].
    + apply IH1 in H as (s1 & H & He1 & Hs1). exists s1. repeat split; [exact H | auto |].
      intros g Hg. cbn in Hg. apply andb_true_iff in Hg as [Hg _]. auto.
    + apply IH2 in H as (s1 & H & He1 & Hs1). exists s1. repeat split; [exact H | auto |].
      intros g Hg. cbn in Hg. apply andb_true_iff in Hg as [_ Hg]. auto.
  - apply rep_passes in H as (s1 & H & E). exists s1.
    repeat split; [exact H | now rewrite E | discriminate].
  - apply IH1 in H as (s1 & H & He1 & Hs1).
    eexists. split; [exact H|]. unfold Re.close_group. cbn [Re.caps]. split.
    + intros g Hg. apply has_span_cons. auto.
    + intros g Hg. cbn in Hg. apply orb_true_iff in Hg as [Hg | Hg].
      * apply Nat.eqb_eq in Hg as ->. apply has_span_here.
      * apply has_span_cons. auto.
  - destruct (Re.at_bol fl st); [|discriminate].
    exists st. repeat split; [exact H | auto | discriminate].
  - destruct (Re.at_eol fl st); [|discriminate].
    exists st. repeat split; [exact H | auto | discriminate].
Qed.

Lemma search_from_sets fl r g :
  sets_group g r = true ->
  forall s n pv start st,
    Re.search_from fl r n pv s = Some (start, st) -> has_span g (Re.caps st).
Proof.
  intros Hg. induction s as [|c s IH]; intros n pv start st H; cbn [Re.search_from] in H;
    destruct (Re.match_at fl r n pv _) as [st0|] eqn:E.
  1,3: injection H as _ <-; apply rmatch_passes in E as (s1 & [= <-] & _ & Hs); auto.
  - discriminate.
  - eapply IH, H.
Qed.

Lemma re_search_inv pattern text fl m :
  re_search pattern text fl = Some m ->
  exists r start st,
    ReParse.compile pattern = Some r /\
    Re.search_from fl r 0 None text = Some (start, st) /\
    m = Re.Match text ((0, (start, Re.pos st)) :: Re.caps st).
Proof.
  unfold re_search. destruct (ReParse.compile pattern) as [r|] eqn:Hc; [|discriminate].
  destruct (Re.search_from fl r 0 None text) as [[start st]|] eqn:E; [|discriminate].
  intros [= <-]. exists r, start, st. split; [reflexivity|]. split; [exact E | reflexivity].
Qed.

Lemma group_of_span m g :
  has_span g (Re.spans m) -> exists s, Re.group m g = Some s.
Proof.
  unfold has_span, Re.group. destruct (Re.span_of g (Re.spans m)) as [[i j]|].
  - intros _. eexists. reflexivity.
  - congruence.
Qed.

(** [m.group(g)] is a string when every way through the pattern closes
    group [g]. *)
Lemma group_of_match pattern text fl m g r :
  ReParse.compile pattern = Some r ->
  sets_group g r = true ->
  re_search pattern text fl = Some m ->
  exists s, Re.group m g = Some s.
Proof.
  intros Hc Hg H. apply re_search_inv in H as (r' & start & st & Hc' & E & ->).
  assert (r' = r) as -> by congruence.
  apply group_of_span. cbn [Re.spans]. apply has_span_cons.
  exact (search_from_sets fl r g Hg _ _ _ _ _ E).
Qed.

(** ** What [parse_invoice_data] returns *)

Definition always_groups (gs : list nat) (pattern : string) : bool :=
  match ReParse.compile pattern with
  | Some r => forallb (fun g => sets_group g r) gs
  | None => false
  end.

(** Every pattern of the program is in the fragment of the parser, and
    every match of it has its group 1 (the table patterns: groups 1 to 4). *)
Lemma patterns_groups :
  forallb (always_groups [1; 2; 3; 4]) table_patterns = true /\
  forallb (always_groups [1])
    (invoice_patterns ++ date_patterns ++ po_patterns ++ po_date_patterns
     ++ gr_patterns ++ gr_date_patterns ++ total_patterns ++ tax_patterns
     ++ grand_total_patterns
     ++ ["PO\s*(?:Number|NO)[:\s]+(\d+)"; "PO\s*DATE[:\s]+(\d{1,2}[-/]\w+[-/]\d{2,4})";
         "(?:Amount|Total)[:\s]+([0-9,]+\.?\d*)"; "Department[:\s]+([A-Za-z\s]+)"])%list
  = true.
Proof. split; vm_compute; reflexivity. Qed.

Lemma always_groups_match gs pattern text fl m g :
  always_groups gs pattern = true -> In g gs ->
  re_search pattern text fl = Some m ->
  exists s, Re.group m g = Some s.
Proof.
  unfold always_groups. destruct (ReParse.compile pattern) as [r|] eqn:Hc; [|discriminate].
  intros H Hg. rewrite forallb_forall in H. apply (group_of_match _ _ _ _ _ r Hc). auto.
Qed.

Lemma first_match_groups gs patterns text fl m g :
  forallb (always_groups gs) patterns = true -> In g gs ->
  first_match patterns text fl = Some m ->
  exists s, Re.group m g = Some s.
Proof.
  induction patterns as [|p ps IH]; cbn [first_match forallb]; [discriminate|].
  intros H Hg. apply andb_true_iff in H as [Hp Hps].
  destruct (re_search p text fl) as [m'|] eqn:E.
  - intros [= <-]. eapply always_groups_match; eauto.
  - now apply IH.
Qed.

Lemma forallb_app_l {A} (f : A -> bool) l1 l2 :
  forallb f (l1 ++ l2)%list = true -> forallb f l1 = true.
Proof. rewrite forallb_app, andb_true_iff. tauto. Qed.

Lemma forallb_app_r {A} (f : A -> bool) l1 l2 :
  forallb f (l1 ++ l2)%list = true -> forallb f l2 = true.
Proof. rewrite forallb_app, andb_true_iff. tauto. Qed.

Definition str_keys : list string :=
  ["invoice_number"; "invoice_date"; "po_number"; "po_date"; "gr_id"; "gr_date"; "status"].

Definition float_keys : list string := ["subtotal"; "tax"; "grand_total"].

(** The fields of an invoice dictionary and the types of their values. *)
Definition well_typed (data : Dict) : Prop :=
  forall key v, data !! key = Some v ->
    (In key str_keys /\ exists s, v = VStr s) \/
    (In key float_keys /\ exists x, v = VFloat x).

Lemma well_typed_empty : well_typed ∅.
Proof. intros key v H. rewrite lookup_empty in H. discriminate. Qed.

Lemma well_typed_insert_str data key s :
  In key str_keys -> well_typed data -> well_typed (<[key := VStr s]> data).
Proof.
  intros Hk Hd key' v. destruct (decide (key = key')) as [<- | Hne].
  - rewrite lookup_insert_eq. intros [= <-]. left. split; [exact Hk | now exists s].
  - rewrite lookup_insert_ne by exact Hne. apply Hd.
Qed.

Lemma well_typed_insert_float data key x :
  In key float_keys -> well_typed data -> well_typed (<[key := VFloat x]> data).
Proof.
  intros Hk Hd key' v. destruct (decide (key = key')) as [<- | Hne].
  - rewrite lookup_insert_eq. intros [= <-]. right. split; [exact Hk | now exists x].
  - rewrite lookup_insert_ne by exact Hne. apply Hd.
Qed.

Lemma extract_typed_str guard key patterns fl conv text data :
  In key str_keys ->
  forallb (always_groups [1]) patterns = true ->
  (forall s, exists s', conv (VStr s) = VStr s') ->
  well_typed data -> well_typed (extract guard key patterns fl conv text data).
Proof.
  intros Hk Hp Hconv Hd. unfold extract.
  destruct (guard && bool_decide (is_Some (data !! key))); [exact Hd|].
  destruct (first_match patterns text fl) as [m|] eqn:E; [|exact Hd].
  destruct (first_match_groups [1] patterns text fl m 1 Hp ltac:(now left) E) as (s & Hs).
  unfold group_value. rewrite Hs. destruct (Hconv s) as (s' & ->).
  now apply well_typed_insert_str.
Qed.

Lemma extract_typed_float guard key patterns fl text data :
  In key float_keys ->
  well_typed data ->
  well_typed (extract guard key patterns fl parse_amount_value text data).
Proof.
  intros Hk Hd. unfold extract.
  destruct (guard && bool_decide (is_Some (data !! key))); [exact Hd|].
  destruct (first_match patterns text fl) as [m|]; [|exact Hd].
  unfold parse_amount_value. destruct (group_value m 1); now apply well_typed_insert_float.
Qed.

Lemma typed_float data key v :
  well_typed data -> In key float_keys -> data !! key = Some v -> exists x, v = VFloat x.
Proof.
  intros Hd Hk H. destruct (Hd key v H) as [[Hs _] | [_ Hx]]; [|exact Hx].
  exfalso. unfold float_keys, str_keys in *. cbn in Hk, Hs.
  repeat (destruct Hk as [<- | Hk]; [intuition discriminate|]). contradiction.
Qed.

(** On a well-typed dictionary the derivation raises no exception, keeps
    the types and sets the status. *)
Lemma derive_typed data :
  well_typed data ->
  exists data', derive data = Some data' /\ well_typed data' /\
                data' !! "status" = Some (VStr "UnPaid").
Proof.
  intros Hd. unfold derive.
  assert (H1 : exists data1,
             match data !! "subtotal", data !! "tax" with
             | Some subtotal, None =>
                 match Py.mul_float subtotal 0.12 with
                 | Some x => Some (<["tax" := VFloat (Num.round2 x)]> data)
                 | None => None
                 end
             | _, _ => Some data
             end = Some data1 /\ well_typed data1 /\
             (is_Some (data1 !! "subtotal") -> exists t, data1 !! "tax" = Some (VFloat t))).
  { destruct (data !! "subtotal") as [sv|] eqn:Es.
    - destruct (typed_float data "subtotal" sv Hd ltac:(cbn; tauto) Es) as (S & ->).
      destruct (data !! "tax") as [tv|] eqn:Et.
      + exists data. repeat split; [exact Hd|]. intros _.
        destruct (typed_float data "tax" tv Hd ltac:(cbn; tauto) Et) as (t & ->).
        now exists t.
      + cbn [Py.mul_float Py.to_float]. eexists. repeat split.
        * apply well_typed_insert_float; [cbn; tauto | exact Hd].
        * intros _. rewrite lookup_insert_eq. now eexists.
    - exists data. repeat split; [exact Hd|]. intros [? ?]. congruence. }
  destruct H1 as (data1 & -> & Hd1 & Htax).
  assert (H2 : exists data2,
             match data1 !! "subtotal", data1 !! "grand_total" with
             | Some subtotal, None =>
                 match Py.add subtotal (get data1 "tax" (VInt 0)) with
                 | Some v => Some (<["grand_total" := v]> data1)
                 | None => None
                 end
             | _, _ => Some data1
             end = Some data2 /\ well_typed data2).
  { destruct (data1 !! "subtotal") as [sv|] eqn:Es.
    - destruct (typed_float data1 "subtotal" sv Hd1 ltac:(cbn; tauto) Es) as (S & ->).
      destruct (data1 !! "grand_total") as [gv|] eqn:Eg; [now exists data1|].
      destruct (Htax ltac:(now eexists)) as (t & Et).
      unfold get. rewrite Et. cbn [default Py.add Py.to_float].
      eexists. split; [reflexivity|].
      apply well_typed_insert_float; [cbn; tauto | exact Hd1].
    - now exists data1. }
  destruct H2 as (data2 & -> & Hd2).
  eexists. split; [reflexivity|]. split.
  - apply well_typed_insert_str; [cbn; tauto | exact Hd2].
  - apply lookup_insert_eq.
Qed.

Lemma parse_date_value_str s : exists s', parse_date_value (VStr s) = VStr s'.
Proof. now eexists. Qed.

Lemma id_str s : exists s', id (VStr s) = VStr s'.
Proof. now eexists. Qed.

(** [_parse_table_format] raises no exception; it gives either nothing or
    the four table fields, as strings. *)
Lemma parse_table_format_total text :
  exists table_data,
    _parse_table_format text = Some table_data /\
    (table_data = ∅ \/
     exists po_number po_date gr_id gr_date,
       table_data = <["gr_date" := VStr gr_date]> (<["gr_id" := VStr gr_id]>
                     (<["po_date" := VStr po_date]> (<["po_number" := VStr po_number]> ∅)))).
Proof.
  unfold _parse_table_format.
  destruct (first_match table_patterns text Re.IGNORECASE_DOTALL) as [m|] eqn:E.
  - pose proof (proj1 patterns_groups) as Hp.
    destruct (first_match_groups _ _ _ _ m 1 Hp ltac:(cbn; tauto) E) as (g1 & ->).
    destruct (first_match_groups _ _ _ _ m 2 Hp ltac:(cbn; tauto) E) as (g2 & ->).
    destruct (first_match_groups _ _ _ _ m 3 Hp ltac:(cbn; tauto) E) as (g3 & ->).
    destruct (first_match_groups _ _ _ _ m 4 Hp ltac:(cbn; tauto) E) as (g4 & ->).
    eexists. split; [reflexivity|]. right. now eexists _, _, _, _.
  - exists ∅. split; [reflexivity | now left].
Qed.

Lemma table_data_typed text table_data :
  _parse_table_format text = Some table_data -> well_typed table_data.
Proof.
  intros H. destruct (parse_table_format_total text) as (t & Ht & [-> | (a & b & c & d & ->)]);
    rewrite H in Ht; injection Ht as ->.
  - apply well_typed_empty.
  - repeat (apply well_typed_insert_str; [cbn; tauto|]). apply well_typed_empty.
Qed.

(** The dictionary of [parse_invoice_data] before the derivation. *)
Definition extracted (text : string) (table_data : Dict) : Dict :=
  let data : Dict := table_data ∪ ∅ in
  let data := extract false "invoice_number" invoice_patterns
                Re.IGNORECASE_MULTILINE id text data in
  let data := extract false "invoice_date" date_patterns
                Re.IGNORECASE parse_date_value text data in
  let data := extract true "po_number" po_patterns Re.IGNORECASE id text data in
  let data := extract true "po_date" po_date_patterns
                Re.IGNORECASE parse_date_value text data in
  let data := extract true "gr_id" gr_patterns Re.IGNORECASE id text data in
  let data := extract true "gr_date" gr_date_patterns
                Re.IGNORECASE parse_date_value text data in
  let data := extract false "subtotal" total_patterns
                Re.IGNORECASE_MULTILINE parse_amount_value text data in
  let data := extract false "tax" tax_patterns
                Re.IGNORECASE parse_amount_value text data in
  extract false "grand_total" grand_total_patterns
    Re.IGNORECASE parse_amount_value text data.

Lemma parse_invoice_data_unfold text :
  parse_invoice_data text =
  match _parse_table_format text with
  | None => None
  | Some table_data =>
      match derive (extracted text table_data) with
      | Some data => if Nat.eqb (size data) 0 then None else Some data
      | None => None
      end
  end.
Proof. reflexivity. Qed.

Lemma extracted_typed text table_data :
  well_typed table_data -> well_typed (extracted text table_data).
Proof.
  intros Ht. unfold extracted. cbv zeta.
  destruct patterns_groups as [_ Hp].
  repeat first
    [ apply extract_typed_float; [cbn; tauto|]
    | apply extract_typed_str;
      [ cbn; tauto
      | vm_compute; reflexivity
      | first [exact parse_date_value_str | exact id_str]
      | ] ].
  now rewrite (right_id_L ∅ (∪)).
Qed.

Lemma parse_invoice_data_total :
  forall text,
    exists data,
      parse_invoice_data text = Some data /\
      data !! "status" = Some (VStr "UnPaid") /\
      well_typed data.
Proof.
  intros text. rewrite parse_invoice_data_unfold.
  destruct (parse_table_format_total text) as (t & Ht & _).
  pose proof (table_data_typed text t Ht) as Htyped. rewrite Ht.
  destruct (derive_typed _ (extracted_typed text t Htyped)) as (data & -> & Hd & Hs).
  exists data. split; [|split; assumption].
  destruct (Nat.eqb (size data) 0) eqn:E; [|reflexivity].
  apply Nat.eqb_eq, map_size_empty_iff in E. subst data.
  rewrite lookup_empty in Hs. discriminate.
Qed.

(** X1. [parse_invoice_data] returns a dictionary for every text: no
    exception is raised and the result is never empty, since the status is
    always set.  Its identifiers and dates are strings and its amounts are
    floats. *)
Theorem parse_invoice_data_always_returns :
  forall text,
    exists data,
      parse_invoice_data text = Some data /\
      data !! "status" = Some (VStr "UnPaid") /\
      well_typed data.
Proof. exact parse_invoice_data_total. Qed.

(** X2. Hence a text that is classified as an invoice never ends in the
    parse error: [process_file] calls [add_invoice_record] for it and
    writes no error. *)
Theorem invoice_text_never_fails_to_parse :
  forall name text st,
    String.eqb (Str.strip text) "" = false ->
    classify text = Invoice ->
    errors (process_text name text st) = errors st /\
    exists invoice_data,
      parse_invoice_data text = Some invoice_data /\
      wb (process_text name text st) = add_invoice_record invoice_data (wb st).
Proof.
  intros name text st Hs Hc. unfold process_text. rewrite Hs, Hc.
  destruct (parse_invoice_data_total text) as (data & -> & _).
  split; [reflexivity|]. now exists data.
Qed.

Lemma invoice_text_never_fails_to_parse_witness :
  errors (process_text "scan.png" "Invoice No" (State _create_sheets [])) = [].
Proof.
  apply (invoice_text_never_fails_to_parse "scan.png" "Invoice No" (State _create_sheets [])).
  - vm_compute. reflexivity.
  - vm_compute. reflexivity.
Defined.

Lemma extract_keeps guard key patterns fl conv text data k v :
  key <> k \/ guard = true ->
  data !! k = Some v ->
  extract guard key patterns fl conv text data !! k = Some v.
Proof.
  intros Hk Hv. unfold extract.
  destruct (decide (key = k)) as [-> | Hne].
  - destruct Hk as [? | ->]; [congruence|].
    rewrite (bool_decide_eq_true_2 (is_Some (data !! k))) by (rewrite Hv; now eexists).
    exact Hv.
  - destruct (guard && bool_decide (is_Some (data !! key))); [exact Hv|].
    destruct (first_match patterns text fl); [|exact Hv].
    now rewrite lookup_insert_ne.
Qed.

Lemma derive_keeps data data' key v :
  derive data = Some data' -> key <> "status" ->
  data !! key = Some v -> data' !! key = Some v.
Proof.
  unfold derive. intros H Hk Hv.
  destruct (match data !! "subtotal", data !! "tax" with
            | Some subtotal, None =>
                match Py.mul_float subtotal 0.12 with
                | Some x => Some (<["tax" := VFloat (Num.round2 x)]> data)
                | None => None
                end
            | _, _ => Some data
            end) as [data1|] eqn:E1; [|discriminate].
  assert (H1 : data1 !! key = Some v).
  { destruct (data !! "subtotal"); [|congruence].
    destruct (data !! "tax") eqn:Et; [congruence|].
    destruct (Py.mul_float _ _); [|discriminate]. injection E1 as <-.
    rewrite lookup_insert_ne; [exact Hv | congruence]. }
  destruct (match data1 !! "subtotal", data1 !! "grand_total" with
            | Some subtotal, None =>
                match Py.add subtotal (get data1 "tax" (VInt 0)) with
                | Some v => Some (<["grand_total" := v]> data1)
                | None => None
                end
            | _, _ => Some data1
            end) as [data2|] eqn:E2; [|discriminate].
  assert (H2 : data2 !! key = Some v).
  { destruct (data1 !! "subtotal"); [|congruence].
    destruct (data1 !! "grand_total") eqn:Eg; [congruence|].
    destruct (Py.add _ _); [|discriminate]. injection E2 as <-.
    rewrite lookup_insert_ne; [exact H1 | congruence]. }
  injection H as <-. now rewrite lookup_insert_ne.
Qed.

(** X3. What the table gives is final: when the table is found, its PO
    number, PO date, GR id and GR date are the ones of the result, whatever
    the later patterns would find. *)
Theorem table_fields_take_precedence :
  forall text table_data key v,
    _parse_table_format text = Some table_data ->
    In key ["po_number"; "po_date"; "gr_id"; "gr_date"] ->
    table_data !! key = Some v ->
    exists data, parse_invoice_data text = Some data /\ data !! key = Some v.
Proof.
  intros text t key v Ht Hk Hv.
  destruct (parse_invoice_data_total text) as (data & Hd & _).
  exists data. split; [exact Hd|].
  rewrite parse_invoice_data_unfold, Ht in Hd.
  destruct (derive (extracted text t)) as [data'|] eqn:E; [|discriminate].
  destruct (Nat.eqb (size data') 0); [discriminate|]. injection Hd as ->.
  assert (Hx : extracted text t !! key = Some v).
  { unfold extracted. cbv zeta. cbn in Hk.
    assert (H0 : (t ∪ ∅) !! key = Some v) by now rewrite (right_id_L ∅ (∪)).
    repeat (destruct Hk as [<- | Hk];
            [repeat (apply extract_keeps; [first [left; discriminate | right; reflexivity]|]);
             exact H0|]).
    contradiction. }
  apply (derive_keeps _ _ key v E); [|exact Hx].
  cbn in Hk. intuition (subst; discriminate).
Qed.

Lemma table_fields_take_precedence_witness :
  exists data,
    parse_invoice_data example_text = Some data /\
    data !! "po_number" = Some (VStr "1234567890").
Proof.
  destruct (parse_table_format_total example_text) as (t & Ht & _).
  apply (table_fields_take_precedence example_text
           (<["gr_date" := VStr "05-Jan-2024"]> (<["gr_id" := VStr "7654321"]>
             (<["po_date" := VStr "01-Jan-2024"]> (<["po_number" := VStr "1234567890"]> ∅))))
           "po_number" (VStr "1234567890")).
  - vm_compute. reflexivity.
  - cbn. tauto.
  - vm_compute. reflexivity.
Defined.

(** X4. The defaults never replace an extracted value: every field that
    was extracted keeps its value through the derivation; an extracted tax
    is the one added to the subtotal for a missing grand total; and without
    a subtotal nothing but the status is added. *)
Theorem derive_keeps_extracted :
  forall data data',
    derive data = Some data' ->
    (forall key v, key <> "status" -> data !! key = Some v -> data' !! key = Some v) /\
    (forall S T, data !! "subtotal" = Some (VFloat S) -> data !! "tax" = Some (VFloat T) ->
                 data !! "grand_total" = None ->
                 data' !! "grand_total" = Some (VFloat (PrimFloat.add S T))) /\
    (data !! "subtotal" = None -> data' = <["status" := VStr "UnPaid"]> data).
Proof.
  intros data data' H. split; [|split].
  - intros key v Hk Hv. eapply derive_keeps; eauto.
  - intros S T Hs Ht Hg. unfold derive in H. rewrite Hs, Ht in H.
    rewrite Hs, Hg in H. unfold get in H. rewrite Ht in H.
    cbn [default Py.add Py.to_float] in H. injection H as <-.
    rewrite lookup_insert_ne by discriminate. apply lookup_insert_eq.
  - intros Hs. unfold derive in H. rewrite Hs in H. rewrite Hs in H. now injection H as <-.
Qed.

Definition subtotal_and_tax : Dict :=
  <["subtotal" := VFloat 200]> (<["tax" := VFloat 10]> ∅).

Lemma derive_keeps_extracted_witness :
  exists data',
    derive subtotal_and_tax = Some data' /\
    data' !! "tax" = Some (VFloat 10) /\
    data' !! "grand_total" = Some (VFloat 210).
Proof.
  exists (<["status" := VStr "UnPaid"]> (<["grand_total" := VFloat 210]> subtotal_and_tax)).
  assert (E : derive subtotal_and_tax
              = Some (<["status" := VStr "UnPaid"]>
                        (<["grand_total" := VFloat 210]> subtotal_and_tax)))
    by (vm_compute; reflexivity).
  destruct (derive_keeps_extracted _ _ E) as (H1 & H2 & _).
  split; [exact E | split].
  - apply H1; [discriminate | vm_compute; reflexivity].
  - apply (H2 200%float 10%float); vm_compute; reflexivity.
Defined.

(** ** The store: what an insertion does and what every run keeps *)

(** The invoice row that [add_invoice_record] builds from the data, the
    serial and the PO date and department it resolved. *)
Definition invoice_row (invoice_data : Dict) (serial : Z) (po_date_from_sheet
    department_from_sheet : value) : row :=
  [VInt serial;
   get invoice_data "invoice_number" (VStr "");
   get invoice_data "invoice_date" (VStr "");
   get invoice_data "po_number" (VStr "");
   Py.or po_date_from_sheet (get invoice_data "po_date" (VStr ""));
   Py.or department_from_sheet (VStr "N/A");
   get invoice_data "gr_id" (VStr "");
   get invoice_data "gr_date" (VStr "");
   get invoice_data "subtotal" (VInt 0);
   get invoice_data "tax" (VInt 0);
   get invoice_data "grand_total" (VInt 0);
   get invoice_data "status" (VStr "UnPaid")].

(** How the PO of an invoice is resolved: no PO number; a PO with a date
    found on the sheet; or a stub added and the sheet read again. *)
Inductive resolved (invoice_data : Dict) (wb : workbook)
    : workbook -> value -> value -> Prop :=
| no_po_number :
    Py.truthy (get invoice_data "po_number" (VStr "")) = false ->
    resolved invoice_data wb wb VNone VNone
| po_found pd dp :
    Py.truthy (get invoice_data "po_number" (VStr "")) = true ->
    _lookup_po_details wb (get invoice_data "po_number" (VStr "")) = (pd, dp) ->
    Py.truthy pd = true ->
    resolved invoice_data wb wb pd dp
| stub_added pd0 dp0 pd dp :
    Py.truthy (get invoice_data "po_number" (VStr "")) = true ->
    _lookup_po_details wb (get invoice_data "po_number" (VStr "")) = (pd0, dp0) ->
    Py.truthy pd0 = false ->
    _lookup_po_details (add_po_record (stub_data invoice_data) wb)
      (get invoice_data "po_number" (VStr "")) = (pd, dp) ->
    resolved invoice_data wb (add_po_record (stub_data invoice_data) wb) pd dp.

Lemma add_invoice_record_spec invoice_data wb :
  Py.truthy (get invoice_data "invoice_number" (VStr "")) &&
    _invoice_exists wb (get invoice_data "invoice_number" (VStr "")) = false ->
  exists wb1 pd dp,
    resolved invoice_data wb wb1 pd dp /\
    add_invoice_record invoice_data wb
    = append wb1 Invoice_Details
        (invoice_row invoice_data (_get_next_serial_number wb Invoice_Details) pd dp).
Proof.
  intros Hgate. unfold add_invoice_record. rewrite Hgate.
  destruct (Py.truthy (get invoice_data "po_number" (VStr ""))) eqn:Hp.
  - destruct (_lookup_po_details wb _) as [pd0 dp0] eqn:El.
    destruct (Py.truthy pd0) eqn:Hpd; cbn [negb].
    + exists wb, pd0, dp0. split; [now apply po_found | reflexivity].
    + destruct (_lookup_po_details (add_po_record _ wb) _) as [pd dp] eqn:El2.
      exists (add_po_record (stub_data invoice_data) wb), pd, dp.
      split; [eapply stub_added; eauto | reflexivity].
  - exists wb, VNone, VNone. split; [now apply no_po_number | reflexivity].
Qed.

Lemma lookup_rows_found rows v pd dp :
  lookup_rows rows v = (pd, dp) -> Py.truthy pd = true ->
  exists r, In r rows /\ Py.eq (cell r 1) v = true /\ pd = cell r 2 /\ dp = cell r 4.
Proof.
  induction rows as [|r rows IH]; cbn [lookup_rows]; intros H Ht.
  - injection H as <- <-. discriminate.
  - destruct (Py.eq (cell r 1) v) eqn:E.
    + injection H as <- <-. exists r. repeat split; [now left | exact E].
    + destruct (IH H Ht) as (r' & Hin & Hr'). exists r'. split; [now right | exact Hr'].
Qed.

(** An insertion only adds rows at the end of the sheets. *)
Lemma resolved_grows invoice_data wb wb1 pd dp :
  resolved invoice_data wb wb1 pd dp ->
  invoice_details wb1 = invoice_details wb /\
  (po_details wb1 = po_details wb \/
   po_details wb1 = (po_details wb ++ [po_row (stub_data invoice_data) wb])%list).
Proof. destruct 1; split; try reflexivity; (now left) || (now right). Qed.

Lemma po_present_grows wb wb' v extra :
  has_header wb PO_Details ->
  po_details wb' = (po_details wb ++ extra)%list ->
  po_present wb v -> po_present wb' v.
Proof.
  intros Hh E (r & Hin & Hr). exists r. split; [|exact Hr].
  unfold records, iter_rows_from_2 in *. cbn [get_sheet] in *. rewrite E.
  unfold has_header in Hh. cbn [get_sheet] in Hh.
  destruct (po_details wb); [congruence|]. cbn in *. apply in_or_app. now left.
Qed.

(** The PO number of an inserted invoice is on the PO sheet afterwards. *)
Lemma resolved_present invoice_data wb wb1 pd dp p :
  has_header wb PO_Details ->
  get invoice_data "po_number" (VStr "") = VStr p -> p <> "" ->
  resolved invoice_data wb wb1 pd dp ->
  po_present wb1 (VStr p).
Proof.
  intros Hh Hp Hne Hr. destruct Hr as [Hf | pd dp Ht El Hpd | pd0 dp0 pd dp Ht El Hpd El2].
  - rewrite Hp in Hf. apply truthy_str in Hne. congruence.
  - rewrite Hp in El. destruct (lookup_rows_found _ _ _ _ El Hpd) as (r & Hin & Hr & _).
    now exists r.
  - exists (po_row (stub_data invoice_data) wb). split.
    + unfold records, iter_rows_from_2. cbn [get_sheet].
      rewrite add_po_record_po, records_app_header by exact Hh.
      apply in_or_app. right. now left.
    + unfold po_row, stub_data, get. rewrite !lookup_insert_ne by discriminate.
      rewrite lookup_insert_eq. cbn [cell lookup list_lookup default].
      fold (get invoice_data "po_number" (VStr "")). rewrite Hp. apply eq_str_refl.
Qed.

(** No two records of the Invoice sheet carry the same non-empty invoice
    number. *)
Definition numbers_unique (rows : list row) : Prop :=
  forall i j ri rj n,
    i <> j -> rows !! i = Some ri -> rows !! j = Some rj ->
    cell ri 1 = VStr n -> n <> "" -> cell rj 1 <> VStr n.

Lemma numbers_unique_snoc rows r :
  numbers_unique rows ->
  (forall n r', n <> "" -> cell r 1 = VStr n -> In r' rows -> cell r' 1 <> VStr n) ->
  numbers_unique (rows ++ [r])%list.
Proof.
  intros Hu Hr i j ri rj n Hij Hi Hj Hn Hne.
  apply lookup_app_Some in Hi as [Hi | [Hli Hi]];
    apply lookup_app_Some in Hj as [Hj | [Hlj Hj]].
  - eapply Hu; eauto.
  - apply list_lookup_singleton_Some in Hj as [_ <-].
    intros E. apply (Hr n ri Hne E); [|exact Hn].
    apply list_elem_of_In. eapply list_elem_of_lookup_2, Hi.
  - apply list_lookup_singleton_Some in Hi as [_ <-].
    apply (Hr n rj Hne Hn). apply list_elem_of_In. eapply list_elem_of_lookup_2, Hj.
  - apply list_lookup_singleton_Some in Hi as [Hi _].
    apply list_lookup_singleton_Some in Hj as [Hj _]. lia.
Qed.

(** Every record of the Invoice sheet with a non-empty PO number has a
    record of the PO sheet with that number. *)
Definition invoices_linked (wb : workbook) : Prop :=
  forall r p,
    In r (records wb Invoice_Details) -> cell r 3 = VStr p -> p <> "" ->
    po_present wb (VStr p).

Lemma gate_true_noop invoice_data wb :
  Py.truthy (get invoice_data "invoice_number" (VStr "")) &&
    _invoice_exists wb (get invoice_data "invoice_number" (VStr "")) = true ->
  add_invoice_record invoice_data wb = wb.
Proof. intros H. unfold add_invoice_record. now rewrite H. Qed.

Lemma records_after_insert wb wb1 (r : row) :
  has_header wb Invoice_Details ->
  invoice_details wb1 = invoice_details wb ->
  records (append wb1 Invoice_Details r) Invoice_Details
  = (records wb Invoice_Details ++ [r])%list.
Proof.
  intros Hh E. unfold records, iter_rows_from_2. cbn [get_sheet append invoice_details].
  rewrite E. now apply records_app_header.
Qed.

Lemma store_invariants wb :
  reachable wb ->
  numbers_unique (records wb Invoice_Details) /\ invoices_linked wb.
Proof.
  induction 1 as [|po_data wb Hr [IHu IHl]|invoice_data wb Hr [IHu IHl]].
  - split.
    + intros i j ri rj n _ Hi. destruct i; discriminate.
    + intros r p [].
  - split; [exact IHu|].
    intros r p Hin Hp Hne.
    apply (po_present_grows wb _ _ [po_row po_data wb]);
      [apply (reachable_invariant wb Hr) | reflexivity | now apply (IHl r p)].
  - destruct (reachable_invariant wb Hr PO_Details) as [Hhp _].
    destruct (reachable_invariant wb Hr Invoice_Details) as [Hhi _].
    destruct (Py.truthy (get invoice_data "invoice_number" (VStr "")) &&
              _invoice_exists wb (get invoice_data "invoice_number" (VStr ""))) eqn:Hgate.
    + rewrite (gate_true_noop _ _ Hgate). now split.
    + destruct (add_invoice_record_spec _ _ Hgate) as (wb1 & pd & dp & Hres & ->).
      destruct (resolved_grows _ _ _ _ _ Hres) as [Ei Ep].
      rewrite (records_after_insert wb wb1 _ Hhi Ei). split.
      * apply numbers_unique_snoc; [exact IHu|].
        intros n r' Hne Hn Hin E. cbn in Hn.
        assert (Hex : _invoice_exists wb (VStr n) = true).
        { apply invoice_exists_iff. exists r'. split; [exact Hin|].
          rewrite E. apply eq_str_refl. }
        rewrite Hn, (proj2 (truthy_str n) Hne), Hex in Hgate. discriminate.
      * assert (Hgrow : forall v, po_present wb v ->
                                  po_present (append wb1 Invoice_Details
                                    (invoice_row invoice_data
                                       (_get_next_serial_number wb Invoice_Details) pd dp)) v).
        { intros v Hv. destruct Ep as [Ep | Ep].
          - apply (po_present_grows wb _ v []); [exact Hhp| |exact Hv].
            cbn [append po_details]. now rewrite Ep, app_nil_r.
          - eapply (po_present_grows wb _ v); [exact Hhp| |exact Hv].
            cbn [append po_details]. exact Ep. }
        intros r p Hin Hp Hne. rewrite (records_after_insert wb wb1 _ Hhi Ei) in Hin.
        apply in_app_or in Hin as [Hin | [<- | []]].
        -- apply Hgrow. now apply (IHl r p).
        -- cbn in Hp.
           destruct (resolved_present _ _ _ _ _ p Hhp Hp Hne Hres) as (r' & Hin' & Hr').
           exists r'. split; [exact Hin' | exact Hr'].
Qed.


(** X6. In every workbook built from a new one by insertions, every
    invoice record with a non-empty PO number has a PO record with that
    number: the PO was there or a stub was created. *)
Theorem reachable_invoices_linked :
  forall wb, reachable wb ->
    forall r p,
      In r (records wb Invoice_Details) -> cell r 3 = VStr p -> p <> "" ->
      po_present wb (VStr p).
Proof. intros wb Hr. apply (store_invariants wb Hr). Qed.

Definition invoice_a1 : Dict :=
  <["invoice_number" := VStr "A1"]> (<["po_number" := VStr "111"]> ∅).
Definition invoice_a2 : Dict :=
  <["invoice_number" := VStr "A2"]> (<["po_number" := VStr "111"]> ∅).
Definition wb_two_invoices : workbook :=
  add_invoice_record invoice_a2 (add_invoice_record invoice_a1 _create_sheets).

Lemma wb_two_invoices_reachable : reachable wb_two_invoices.
Proof. apply reach_invoice, reach_invoice, reach_new. Qed.


Lemma reachable_invoices_linked_witness : po_present wb_two_invoices (VStr "111").
Proof.
  apply (reachable_invoices_linked wb_two_invoices wb_two_invoices_reachable
           (invoice_row invoice_a2 2 (VStr "") (VStr "N/A")) "111").
  - vm_compute. tauto.
  - vm_compute. reflexivity.
  - discriminate.
Defined.

(** X7. With a PO on the sheet whose date is not empty, an insertion that
    passes the gate leaves the PO sheet as it is, and the new invoice record
    carries the date of the first PO with that number and its department,
    or N/A when that department is empty. *)
Theorem existing_po_is_linked :
  forall wb invoice_data p r,
    invoice_data !! "po_number" = Some (VStr p) -> p <> "" ->
    first_po wb (VStr p) r ->
    Py.truthy (cell r 2) = true ->
    Py.truthy (get invoice_data "invoice_number" (VStr "")) &&
      _invoice_exists wb (get invoice_data "invoice_number" (VStr "")) = false ->
    po_details (add_invoice_record invoice_data wb) = po_details wb /\
    exists new,
      invoice_details (add_invoice_record invoice_data wb)
        = (invoice_details wb ++ [new])%list /\
      cell new 3 = VStr p /\
      cell new 4 = cell r 2 /\
      cell new 5 = Py.or (cell r 4) (VStr "N/A").
Proof.
  intros wb invoice_data p r Hp Hne Hfirst Hdate Hgate.
  assert (Hget : get invoice_data "po_number" (VStr "") = VStr p)
    by (unfold get; now rewrite Hp).
  pose proof (lookup_first_po wb (VStr p) r Hfirst) as Hl.
  destruct (add_invoice_record_spec _ _ Hgate) as (wb1 & pd & dp & Hres & ->).
  destruct Hres as [Hf | pd dp Ht El Hpd | pd0 dp0 pd dp Ht El Hpd El2].
  - rewrite Hget, (proj2 (truthy_str p) Hne) in Hf. discriminate.
  - rewrite Hget, Hl in El. injection El as <- <-.
    split; [reflexivity|]. eexists. split; [reflexivity|].
    cbn [invoice_row cell lookup list_lookup default]. rewrite Hget.
    repeat split. unfold Py.or. now rewrite Hdate.
  - rewrite Hget, Hl in El. injection El as <- <-. congruence.
Qed.

Definition wb_finance : workbook :=
  add_po_record (<["po_number" := VStr "9999"]> (<["po_date" := VStr "01-Feb-2024"]>
                 (<["po_amount" := VFloat 500]> (<["department" := VStr "Finance"]> ∅))))
    _create_sheets.

Lemma existing_po_is_linked_witness :
  po_details (add_invoice_record invoice_for_9999 wb_finance) = po_details wb_finance /\
  exists new,
    invoice_details (add_invoice_record invoice_for_9999 wb_finance)
      = [invoice_headers; new] /\
    cell new 4 = VStr "01-Feb-2024" /\ cell new 5 = VStr "Finance".
Proof.
  destruct (existing_po_is_linked wb_finance invoice_for_9999 "9999"
              [VInt 1; VStr "9999"; VStr "01-Feb-2024"; VFloat 500; VStr "Finance"]
              ltac:(vm_compute; reflexivity) ltac:(discriminate)
              ltac:(exists [], []; split;
                    [vm_compute; reflexivity
                    | split; [intros ? [] | vm_compute; reflexivity]])
              ltac:(vm_compute; reflexivity) ltac:(vm_compute; reflexivity))
    as (H1 & new & H2 & _ & H4 & H5).
  split; [exact H1|]. exists new. repeat split; assumption.
Defined.





(** ** One document, and a batch *)

Lemma add_invoice_record_grows invoice_data wb :
  exists new_po new_inv,
    po_details (add_invoice_record invoice_data wb) = (po_details wb ++ new_po)%list /\
    invoice_details (add_invoice_record invoice_data wb)
      = (invoice_details wb ++ new_inv)%list /\
    length new_po <= length new_inv /\ length new_inv <= 1.
Proof.
  destruct (Py.truthy (get invoice_data "invoice_number" (VStr "")) &&
            _invoice_exists wb (get invoice_data "invoice_number" (VStr ""))) eqn:Hgate.
  - rewrite (gate_true_noop _ _ Hgate). exists [], []. rewrite !app_nil_r. cbn. auto.
  - destruct (add_invoice_record_spec _ _ Hgate) as (wb1 & pd & dp & Hres & ->).
    destruct (resolved_grows _ _ _ _ _ Hres) as [Ei [Ep | Ep]]; cbn [append po_details
      invoice_details]; rewrite Ei, Ep.
    + exists [], [invoice_row invoice_data (_get_next_serial_number wb Invoice_Details) pd dp].
      rewrite app_nil_r. cbn. auto.
    + exists [po_row (stub_data invoice_data) wb],
             [invoice_row invoice_data (_get_next_serial_number wb Invoice_Details) pd dp].
      cbn. auto.
Qed.

Lemma process_text_grows :
  forall name text st,
    exists new_po new_inv new_err,
      po_details (wb (process_text name text st))
        = (po_details (wb st) ++ new_po)%list /\
      invoice_details (wb (process_text name text st))
        = (invoice_details (wb st) ++ new_inv)%list /\
      errors (process_text name text st) = (errors st ++ new_err)%list /\
      length new_po <= 1 /\ length new_inv <= 1 /\ length new_err <= 1 /\
      (new_err <> [] -> new_po = [] /\ new_inv = []).
Proof.
  intros name text st.
  assert (Herr : forall msg,
    exists new_po new_inv new_err,
      po_details (wb (_log_error name msg st)) = (po_details (wb st) ++ new_po)%list /\
      invoice_details (wb (_log_error name msg st))
        = (invoice_details (wb st) ++ new_inv)%list /\
      errors (_log_error name msg st) = (errors st ++ new_err)%list /\
      length new_po <= 1 /\ length new_inv <= 1 /\ length new_err <= 1 /\
      (new_err <> [] -> new_po = [] /\ new_inv = [])).
  { intros msg. exists [], [], [(name, msg)]. cbn. rewrite !app_nil_r.
    repeat split; first [lia | reflexivity]. }
  unfold process_text.
  destruct (String.eqb (Str.strip text) ""); [apply Herr|].
  destruct (classify text); [| |apply Herr].
  - destruct (parse_invoice_data text) as [invoice_data|]; [|apply Herr].
    destruct (add_invoice_record_grows invoice_data (wb st)) as (np & ni & Hp & Hi & H1 & H2).
    exists np, ni, []. cbn [wb errors]. rewrite Hp, Hi, app_nil_r.
    repeat split; cbn; first [lia | reflexivity | congruence].
  - destruct (parse_po_data text) as [po_data|]; [|apply Herr].
    exists [po_row po_data (wb st)], [], []. cbn [wb errors].
    rewrite !app_nil_r. repeat split; cbn; first [lia | reflexivity | congruence].
Qed.

(** The loop of [process_all_files] over the documents of a folder, each
    given by its file name and its extracted text. *)
Definition process_texts (docs : list (string * string)) (st : state) : state :=
  fold_left (fun st doc => process_text (fst doc) (snd doc) st) docs st.

Lemma process_text_reachable name text st :
  reachable (wb st) -> reachable (wb (process_text name text st)).
Proof.
  intros H. unfold process_text.
  destruct (String.eqb (Str.strip text) ""); [exact H|].
  destruct (classify text); [| |exact H].
  - destruct (parse_invoice_data text); [now apply reach_invoice | exact H].
  - destruct (parse_po_data text); [now apply reach_po | exact H].
Qed.

Lemma process_texts_reachable docs st :
  reachable (wb st) -> reachable (wb (process_texts docs st)).
Proof.
  revert st. induction docs as [|doc docs IH]; intros st H; [exact H|].
  cbn [process_texts fold_left]. apply IH, process_text_reachable, H.
Qed.

(** ** PO documents, amounts and dates *)

Lemma po_pattern_group1 pattern text m :
  In pattern ["PO\s*(?:Number|NO)[:\s]+(\d+)"; "PO\s*DATE[:\s]+(\d{1,2}[-/]\w+[-/]\d{2,4})";
              "(?:Amount|Total)[:\s]+([0-9,]+\.?\d*)"; "Department[:\s]+([A-Za-z\s]+)"] ->
  re_search pattern text Re.IGNORECASE = Some m ->
  exists s, Re.group m 1 = Some s.
Proof.
  intros Hin. apply (always_groups_match [1]); [|now left].
  cbn in Hin. repeat (destruct Hin as [<- | Hin]; [vm_compute; reflexivity|]). contradiction.
Qed.

(** X12. [parse_po_data] gives a result exactly when the PO number pattern
    is found.  The result then has that number, as a string, and a
    department, which is N/A when no department is named. *)
Theorem parse_po_data_needs_number :
  forall text,
    (re_search "PO\s*(?:Number|NO)[:\s]+(\d+)" text Re.IGNORECASE = None ->
     parse_po_data text = None) /\
    (forall m,
       re_search "PO\s*(?:Number|NO)[:\s]+(\d+)" text Re.IGNORECASE = Some m ->
       exists po_data number department,
         parse_po_data text = Some po_data /\
         Re.group m 1 = Some number /\
         po_data !! "po_number" = Some (VStr number) /\
         po_data !! "department" = Some (VStr department) /\
         (re_search "Department[:\s]+([A-Za-z\s]+)" text Re.IGNORECASE = None ->
          department = "N/A")).
Proof.
  intros text. split.
  - intros H. unfold parse_po_data. rewrite H.
    destruct (re_search "PO\s*DATE[:\s]+(\d{1,2}[-/]\w+[-/]\d{2,4})" text Re.IGNORECASE);
      destruct (re_search "(?:Amount|Total)[:\s]+([0-9,]+\.?\d*)" text Re.IGNORECASE);
      destruct (re_search "Department[:\s]+([A-Za-z\s]+)" text Re.IGNORECASE) as [dm|];
      try destruct (Re.group dm 1); reflexivity.
  - intros m H.
    destruct (po_pattern_group1 "PO\s*(?:Number|NO)[:\s]+(\d+)" text m
                ltac:(cbn; tauto) H) as (number & Hg).
    unfold parse_po_data. rewrite H. unfold group_value. rewrite Hg.
    destruct (re_search "PO\s*DATE[:\s]+(\d{1,2}[-/]\w+[-/]\d{2,4})" text Re.IGNORECASE);
      destruct (re_search "(?:Amount|Total)[:\s]+([0-9,]+\.?\d*)" text Re.IGNORECASE);
      destruct (re_search "Department[:\s]+([A-Za-z\s]+)" text Re.IGNORECASE)
        as [dm|] eqn:Ed.
    all: try (destruct (po_pattern_group1 "Department[:\s]+([A-Za-z\s]+)" text dm
                          ltac:(cbn; tauto) Ed) as (dep & ->)).
    all: eexists _, number, _; split; [reflexivity|]; split; [reflexivity|].
    all: split; [rewrite ?lookup_insert_ne by discriminate; apply lookup_insert_eq|].
    all: split; [apply lookup_insert_eq|].
    all: first [discriminate | reflexivity].
Qed.

Lemma parse_po_data_needs_number_witness :
  parse_po_data "purchase order without a number" = None /\
  exists po_data,
    parse_po_data po_text = Some po_data /\
    po_data !! "po_number" = Some (VStr "9999") /\
    po_data !! "department" = Some (VStr "Finance").
Proof.
  split.
  - apply (proj1 (parse_po_data_needs_number "purchase order without a number")).
    vm_compute. reflexivity.
  - destruct (re_search "PO\s*(?:Number|NO)[:\s]+(\d+)" po_text Re.IGNORECASE)
      as [m|] eqn:E; [|vm_compute in E; discriminate].
    destruct (proj2 (parse_po_data_needs_number po_text) m E)
      as (po_data & number & department & H1 & H2 & H3 & H4 & _).
    exists po_data. split; [exact H1|].
    assert (Hv : parse_po_data po_text
                 = Some (<["department" := VStr "Finance"]>
                          (<["po_amount" := VFloat 500]>
                            (<["po_number" := VStr "9999"]> ∅))))
      by (vm_compute; reflexivity).
    rewrite Hv in H1. injection H1 as <-. split; vm_compute; reflexivity.
Defined.

Lemma remove_char_app c a b :
  Str.remove_char c (a +:+ b) = Str.remove_char c a +:+ Str.remove_char c b.
Proof.
  induction a as [|x a IH]; [reflexivity|].
  rewrite append_cons. cbn [Str.remove_char].
  destruct (Chr.eqb x c); [exact IH | now rewrite append_cons, IH].
Qed.

(** X13. Grouping commas do not change an amount: a comma anywhere in the
    string is ignored. *)
Theorem parse_amount_ignores_commas :
  forall a b, _parse_amount (a +:+ "," +:+ b) = _parse_amount (a +:+ b).
Proof.
  intros a b. unfold _parse_amount. now rewrite !remove_char_app.
Qed.

Lemma canonical_length dt : DateTime.valid dt = true -> String.length (canonical dt) = 11.
Proof.
  intros Hv. destruct (valid_bounds dt Hv) as (_ & Hm & _).
  destruct dt as [y m d]. cbn [DateTime.month] in Hm.
  assert (H : (1 <= m < 1 + Z.of_nat 12)%Z) by lia. clear Hm Hv.
  enum_range H 12%nat; reflexivity.
Qed.

(** X14. When one of the formats parses the string, [_parse_date] returns
    an existing date printed as day, month name and year.  When the year
    has four digits the output has eleven characters and reads back as the
    same date under [%d-%b-%Y]. *)
Theorem parse_date_output :
  forall date_str fmt,
    In fmt date_formats -> DateTime.strptime date_str fmt <> None ->
    exists dt,
      DateTime.valid dt = true /\
      _parse_date date_str = DateTime.strftime dt "%d-%b-%Y" /\
      ((1000 <= DateTime.year dt)%Z ->
       String.length (_parse_date date_str) = 11 /\
       DateTime.strptime (_parse_date date_str) "%d-%b-%Y" = Some dt).
Proof.
  intros date_str fmt Hin Hp. unfold _parse_date.
  destruct (try_formats date_str date_formats) as [dt|] eqn:E;
    [|now destruct (try_formats_some _ _ _ Hin Hp)].
  pose proof (try_formats_valid _ _ _ E) as Hv.
  exists dt. split; [exact Hv|]. split; [reflexivity|].
  intros Hy. rewrite strftime_canonical by exact Hy.
  split; [now apply canonical_length | now apply strptime_canonical_Y].
Qed.

Lemma parse_date_output_witness :
  exists dt,
    DateTime.valid dt = true /\
    _parse_date "5/3/24" = DateTime.strftime dt "%d-%b-%Y".
Proof.
  destruct (parse_date_output "5/3/24" "%d/%m/%y"
              ltac:(vm_compute; tauto) ltac:(vm_compute; discriminate))
    as (dt & Hv & H1 & _).
  exists dt. split; assumption.
Defined.

Fixpoint all_space (s : string) : bool :=
  match s with
  | EmptyString => true
  | String c s' => Chr.is_space c && all_space s'
  end.

Lemma strip_all_space s : all_space s = true -> Str.strip s = "".
Proof.
  unfold Str.strip. induction s as [|c s IH]; [reflexivity|].
  cbn [all_space Str.lstrip]. intros H. apply andb_true_iff in H as [-> H]. now apply IH.
Qed.

(** X15. A text of white space only, the empty text included, is reported
    as a document without text: one error, no row. *)
Theorem blank_text_is_reported :
  forall name text st,
    all_space text = true ->
    process_text name text st
    = State (wb st) (errors st ++ [(name, "No text could be extracted")])%list.
Proof.
  intros name text st H. unfold process_text. now rewrite (strip_all_space text H).
Qed.

Lemma blank_text_is_reported_witness :
  process_text "empty.pdf" (String Chr.newline " ") (State _create_sheets [])
  = State _create_sheets [("empty.pdf", "No text could be extracted")].
Proof.
  apply (blank_text_is_reported "empty.pdf" (String Chr.newline " ")
           (State _create_sheets [])).
  vm_compute. reflexivity.
Defined.

(** The sheets are rectangular: a header row, then rows of its width. *)
Definition rectangular (wb : workbook) : Prop :=
  (exists recs, po_details wb = po_headers :: recs /\
                Forall (fun r => length r = length po_headers) recs) /\
  (exists recs, invoice_details wb = invoice_headers :: recs /\
                Forall (fun r => length r = length invoice_headers) recs).

Lemma rectangular_append_po wb (r : row) :
  rectangular wb -> length r = 5 -> rectangular (append wb PO_Details r).
Proof.
  intros [(recs & E & Hf) Hi] Hr. split; [|exact Hi].
  exists (recs ++ [r])%list. cbn [append po_details]. rewrite E. split; [reflexivity|].
  apply Forall_app. split; [exact Hf | now constructor].
Qed.

Lemma rectangular_append_invoice wb (r : row) :
  rectangular wb -> length r = 12 -> rectangular (append wb Invoice_Details r).
Proof.
  intros [Hp (recs & E & Hf)] Hr. split; [exact Hp|].
  exists (recs ++ [r])%list. cbn [append invoice_details]. rewrite E. split; [reflexivity|].
  apply Forall_app. split; [exact Hf | now constructor].
Qed.



(** ** Groups that cannot be empty

    When a group holds at least one character on every way through it, its
    text in a match is not the empty string. *)

Fixpoint min_len (r : Re.regex) : nat :=
  match r with
  | Re.RAtom _ => 1
  | Re.RSeq r1 r2 => min_len r1 + min_len r2
  | Re.RAlt r1 r2 => Nat.min (min_len r1) (min_len r2)
  | Re.RRep _ lo _ _ => lo
  | Re.RGroup _ r1 => min_len r1
  | _ => 0
  end.

Fixpoint groups_nonempty (g : nat) (r : Re.regex) : bool :=
  match r with
  | Re.RGroup n r1 => (negb (Nat.eqb n g) || Nat.ltb 0 (min_len r1)) && groups_nonempty g r1
  | Re.RSeq r1 r2 | Re.RAlt r1 r2 => groups_nonempty g r1 && groups_nonempty g r2
  | _ => true
  end.

(** The position counts the characters before the rest of a subject of
    length [len], and the spans of group [g] are non-empty and inside the
    subject. *)
Definition sound (len g : nat) (st : Re.mstate) : Prop :=
  Re.pos st + String.length (Re.rest st) = len /\
  forall i j, In (g, (i, j)) (Re.caps st) -> i < j <= len.

Lemma rep_advances fl a greedy s :
  forall lo hi n pv cs k st',
    Re.rep fl a greedy lo hi n pv s cs k = Some st' ->
    exists s1, k s1 = Some st' /\ Re.caps s1 = cs /\ n + lo <= Re.pos s1 /\
               Re.pos s1 + String.length (Re.rest s1) = n + String.length s.
Proof.
  induction s as [|c s IH]; intros lo hi n pv cs k st' H; cbn [Re.rep] in H.
  - destruct lo; [|discriminate]. eexists. split; [exact H|].
    cbn [Re.caps Re.pos Re.rest]. split; [reflexivity | split; lia].
  - assert (Hhere : match lo with
                    | 0 => k (Re.MState n pv (String c s) cs)
                    | S _ => None
                    end = Some st' ->
                    exists s1, k s1 = Some st' /\ Re.caps s1 = cs /\ n + lo <= Re.pos s1 /\
                      Re.pos s1 + String.length (Re.rest s1) = n + String.length (String c s)).
    { destruct lo; [|discriminate]. intros E. eexists. split; [exact E|].
      cbn [Re.caps Re.pos Re.rest]. split; [reflexivity | split; lia]. }
    assert (Hmore : Re.rep fl a greedy (Nat.pred lo) (Re.dec_hi hi) (S n) (Some c) s cs k
                    = Some st' ->
                    exists s1, k s1 = Some st' /\ Re.caps s1 = cs /\ n + lo <= Re.pos s1 /\
                      Re.pos s1 + String.length (Re.rest s1) = n + String.length (String c s)).
    { intros E. apply IH in E as (s1 & E & Hc & Hp & Hl). exists s1.
      change (String.length (String c s)) with (S (String.length s)).
      split; [exact E | split; [exact Hc | split; lia]]. }
    destruct (Re.may_repeat hi && Re.atom_match fl a c); [|now apply Hhere].
    destruct greedy.
    + apply or_else_some in H as [H | H]; [now apply Hmore | now apply Hhere].
    + destruct lo.
      * apply or_else_some in H as [H | H]; [now apply Hhere | now apply Hmore].
      * now apply Hmore.
Qed.

Lemma rmatch_sound fl len g r :
  groups_nonempty g r = true ->
  forall st k st',
    sound len g st ->
    Re.rmatch fl r st k = Some st' ->
    exists s1, k s1 = Some st' /\ sound len g s1 /\ Re.pos st + min_len r <= Re.pos s1.
Proof.
  induction r as [|a|r1 IH1 r2 IH2|r1 IH1 r2 IH2|a lo hi greedy|n r1 IH1| |];
    intros Hg st k st' Hs H; cbn [Re.rmatch] in H; cbn [groups_nonempty min_len] in *;
    unfold sound in *.
  - exists st. split; [exact H | split; [exact Hs | lia]].
  - destruct st as [p pv rs cs]. cbn [Re.rest] in H. destruct rs as [|c s']; [discriminate|].
    destruct (Re.atom_match fl a c); [|discriminate].
    eexists. split; [exact H|]. destruct Hs as [Hl Hc].
    cbn [Re.pos Re.rest Re.caps Re.advance] in *.
    change (String.length (String c s')) with (S (String.length s')) in Hl.
    split; [split; [lia | exact Hc] | lia].
  - apply andb_true_iff in Hg as [Hg1 Hg2].
    destruct (IH1 Hg1 _ _ _ Hs H) as (s1 & H1 & Hs1 & Hp1).
    destruct (IH2 Hg2 _ _ _ Hs1 H1) as (s2 & H2 & Hs2 & Hp2).
    exists s2. split; [exact H2 | split; [exact Hs2 | lia]].
  - apply andb_true_iff in Hg as [Hg1 Hg2].
    apply or_else_some in H as [H | H].
    + destruct (IH1 Hg1 _ _ _ Hs H) as (s1 & H1 & Hs1 & Hp1).
      exists s1. split; [exact H1 | split; [exact Hs1 | lia]].
    + destruct (IH2 Hg2 _ _ _ Hs H) as (s1 & H1 & Hs1 & Hp1).
      exists s1. split; [exact H1 | split; [exact Hs1 | lia]].
  - apply rep_advances in H as (s1 & H & Hc & Hp & Hl).
    exists s1. destruct Hs as [Hlen Hcaps].
    split; [exact H | split; [split; [lia | now rewrite Hc] | lia]].
  - apply andb_true_iff in Hg as [Hn Hg1].
    destruct (IH1 Hg1 _ _ _ Hs H) as (s1 & H1 & [Hl1 Hc1] & Hp1).
    eexists. split; [exact H1|]. unfold Re.close_group. cbn [Re.pos Re.rest Re.caps].
    split; [split; [exact Hl1|] | lia].
    intros i j [E | Hin]; [|now apply Hc1].
    injection E as En <- <-.
    rewrite En, Nat.eqb_refl in Hn. cbn [negb orb] in Hn. apply Nat.ltb_lt in Hn. lia.
  - destruct (Re.at_bol fl st); [|discriminate].
    exists st. split; [exact H | split; [exact Hs | lia]].
  - destruct (Re.at_eol fl st); [|discriminate].
    exists st. split; [exact H | split; [exact Hs | lia]].
Qed.

Lemma search_from_sound fl r g len :
  groups_nonempty g r = true ->
  forall s n pv start st,
    n + String.length s = len ->
    Re.search_from fl r n pv s = Some (start, st) -> sound len g st.
Proof.
  intros Hg. induction s as [|c s IH]; intros n pv start st Hlen H;
    cbn [Re.search_from] in H; destruct (Re.match_at fl r n pv _) as [st0|] eqn:E.
  1,3: injection H as _ <-;
       apply (rmatch_sound fl len g r Hg) in E as (s1 & [= <-] & Hs & _);
       [exact Hs | split; [exact Hlen | intros i j []]].
  - discriminate.
  - apply (IH (S n) (Some c) start st); [|exact H].
    change (String.length (String c s)) with (S (String.length s)) in Hlen. lia.
Qed.

Lemma span_of_In g cs i j : Re.span_of g cs = Some (i, j) -> In (g, (i, j)) cs.
Proof.
  induction cs as [|[n sp] cs IH]; cbn [Re.span_of]; [discriminate|].
  destruct (Nat.eqb n g) eqn:E.
  - intros [= ->]. apply Nat.eqb_eq in E as ->. now left.
  - intros H. right. now apply IH.
Qed.

Lemma substring_nonempty s : forall i n,
  i < String.length s -> 0 < n -> substring i n s <> "".
Proof.
  induction s as [|c s IH]; intros i n Hi Hn; [cbn in Hi; lia|].
  change (String.length (String c s)) with (S (String.length s)) in Hi.
  destruct i as [|i]; cbn [substring].
  - destruct n; [lia | discriminate].
  - apply IH; lia.
Qed.

Definition nonempty_groups (gs : list nat) (pattern : string) : bool :=
  match ReParse.compile pattern with
  | Some r => forallb (fun g => sets_group g r && groups_nonempty g r) gs
  | None => false
  end.

(** In a match of such a pattern, [m.group(g)] is a non-empty string. *)
Lemma group_nonempty pattern text fl m g :
  nonempty_groups [g] pattern = true -> g <> 0 ->
  re_search pattern text fl = Some m ->
  exists s, Re.group m g = Some s /\ s <> "".
Proof.
  unfold nonempty_groups. destruct (ReParse.compile pattern) as [r|] eqn:Hc; [|discriminate].
  cbn [forallb]. rewrite andb_true_r, andb_true_iff. intros [Hs Hn] Hg0 H.
  apply re_search_inv in H as (r' & start & st & Hc' & E & ->).
  assert (r' = r) as -> by congruence.
  pose proof (search_from_sets fl r g Hs _ _ _ _ _ E) as Hspan.
  pose proof (search_from_sound fl r g (String.length text) Hn text 0 None start st
                eq_refl E) as [_ Hcaps].
  unfold Re.group. cbn [Re.spans Re.span_of Re.subject].
  rewrite (proj2 (Nat.eqb_neq 0 g)) by congruence.
  unfold has_span in Hspan.
  destruct (Re.span_of g (Re.caps st)) as [[i j]|] eqn:Eg; [|congruence].
  apply span_of_In, Hcaps in Eg.
  eexists. split; [reflexivity|]. unfold Str.slice. apply substring_nonempty; lia.
Qed.

Lemma first_match_nonempty patterns text fl m :
  forallb (nonempty_groups [1]) patterns = true ->
  first_match patterns text fl = Some m ->
  exists s, Re.group m 1 = Some s /\ s <> "".
Proof.
  induction patterns as [|p ps IH]; cbn [first_match forallb]; [discriminate|].
  intros H. apply andb_true_iff in H as [Hp Hps].
  destruct (re_search p text fl) as [m'|] eqn:E.
  - intros [= <-]. eapply group_nonempty; eauto.
  - now apply IH.
Qed.

Lemma extract_other guard key patterns fl conv text data k :
  key <> k -> extract guard key patterns fl conv text data !! k = data !! k.
Proof.
  intros Hne. unfold extract.
  destruct (guard && bool_decide (is_Some (data !! key))); [reflexivity|].
  destruct (first_match patterns text fl); [|reflexivity].
  now rewrite lookup_insert_ne.
Qed.

Lemma derive_other data data' k :
  derive data = Some data' ->
  k <> "tax" -> k <> "grand_total" -> k <> "status" ->
  data' !! k = data !! k.
Proof.
  unfold derive. intros H H1 H2 H3.
  destruct (match data !! "subtotal", data !! "tax" with
            | Some subtotal, None =>
                match Py.mul_float subtotal 0.12 with
                | Some x => Some (<["tax" := VFloat (Num.round2 x)]> data)
                | None => None
                end
            | _, _ => Some data
            end) as [data1|] eqn:E1; [|discriminate].
  assert (Hk1 : data1 !! k = data !! k).
  { destruct (data !! "subtotal"); [|congruence].
    destruct (data !! "tax"); [congruence|].
    destruct (Py.mul_float _ _); [|discriminate]. injection E1 as <-.
    now rewrite lookup_insert_ne. }
  destruct (match data1 !! "subtotal", data1 !! "grand_total" with
            | Some subtotal, None =>
                match Py.add subtotal (get data1 "tax" (VInt 0)) with
                | Some v => Some (<["grand_total" := v]> data1)
                | None => None
                end
            | _, _ => Some data1
            end) as [data2|] eqn:E2; [|discriminate].
  assert (Hk2 : data2 !! k = data1 !! k).
  { destruct (data1 !! "subtotal"); [|congruence].
    destruct (data1 !! "grand_total"); [congruence|].
    destruct (Py.add _ _); [|discriminate]. injection E2 as <-.
    now rewrite lookup_insert_ne. }
  injection H as <-. rewrite lookup_insert_ne by congruence. congruence.
Qed.

(** The invoice number of the result is the group of the first invoice
    pattern that is found. *)
Lemma invoice_number_of_result text data :
  parse_invoice_data text = Some data ->
  data !! "invoice_number"
  = match first_match invoice_patterns text Re.IGNORECASE_MULTILINE with
    | Some m => Some (group_value m 1)
    | None => None
    end.
Proof.
  rewrite parse_invoice_data_unfold.
  destruct (parse_table_format_total text) as (t & -> & Ht).
  destruct (derive (extracted text t)) as [data'|] eqn:E; [|discriminate].
  destruct (Nat.eqb (size data') 0); [discriminate|]. intros [= <-].
  rewrite (derive_other _ _ "invoice_number" E) by discriminate.
  unfold extracted. cbv zeta.
  rewrite !extract_other by discriminate.
  unfold extract. cbn [andb].
  destruct (first_match invoice_patterns text Re.IGNORECASE_MULTILINE).
  - apply lookup_insert_eq.
  - rewrite (right_id_L ∅ (∪)).
    destruct Ht as [-> | (a & b & c & d & ->)]; [apply lookup_empty|].
    now rewrite !lookup_insert_ne by discriminate.
Qed.

Lemma invoice_patterns_nonempty : forallb (nonempty_groups [1]) invoice_patterns = true.
Proof. vm_compute. reflexivity. Qed.

(** X17. An invoice number that [parse_invoice_data] extracts is never the
    empty string, so the dedup gate of [add_invoice_record] applies to
    every invoice whose number was found. *)
Theorem extracted_invoice_number_nonempty :
  forall text data v,
    parse_invoice_data text = Some data ->
    data !! "invoice_number" = Some v ->
    exists n, v = VStr n /\ n <> "" /\ Py.truthy v = true.
Proof.
  intros text data v Hd Hv. rewrite (invoice_number_of_result text data Hd) in Hv.
  destruct (first_match invoice_patterns text Re.IGNORECASE_MULTILINE) as [m|] eqn:E;
    [|discriminate].
  destruct (first_match_nonempty _ _ _ m invoice_patterns_nonempty E) as (n & Hn & Hne).
  injection Hv as <-. unfold group_value. rewrite Hn.
  exists n. repeat split; [exact Hne | now apply truthy_str].
Qed.

(** The dictionary of the example text. *)
Definition example_data : Dict :=
  <["invoice_number" := VStr "A1001"]> (<["po_number" := VStr "1234567890"]>
  (<["po_date" := VStr "01-Jan-2024"]> (<["gr_id" := VStr "7654321"]>
  (<["gr_date" := VStr "05-Jan-2024"]> (<["subtotal" := VFloat 1000]>
  (<["tax" := VFloat 120]> (<["grand_total" := VFloat 1120]>
  (<["status" := VStr "UnPaid"]> ∅)))))))).

Lemma example_data_parsed : parse_invoice_data example_text = Some example_data.
Proof. vm_compute. reflexivity. Qed.

Lemma extracted_invoice_number_nonempty_witness :
  exists n, VStr "A1001" = VStr n /\ n <> "" /\ Py.truthy (VStr "A1001") = true.
Proof.
  apply (extracted_invoice_number_nonempty example_text example_data (VStr "A1001")
           example_data_parsed).
  vm_compute. reflexivity.
Defined.

(** ** Processing an invoice document again *)


Lemma append_assoc a b c : (a +:+ b) +:+ c = a +:+ (b +:+ c).
Proof.
  induction a as [|x a IH]; [reflexivity|]. now rewrite !append_cons, IH.
Qed.

Lemma lower_app_inv t : forall a b,
  Str.lower t = a +:+ b ->
  exists t1 t2, t = t1 +:+ t2 /\ Str.lower t1 = a /\ Str.lower t2 = b.
Proof.
  induction t as [|c t IH]; intros a b H.
  - destruct a; [|discriminate]. exists "", "". repeat split. exact H.
  - destruct a as [|x a].
    + exists "", (String c t). repeat split. exact H.
    + cbn [Str.lower] in H. rewrite append_cons in H. injection H as Hx Ht.
      destruct (IH a b Ht) as (t1 & t2 & -> & H1 & H2).
      exists (String c t1), t2. rewrite append_cons. cbn [Str.lower].
      repeat split; [now rewrite Hx, H1 | exact H2].
Qed.

(** [phrase in text.lower()] says that the text contains the phrase in
    some case. *)
Lemma contains_occurs_ci phrase text :
  Str.contains phrase (Str.lower text) = true <-> occurs_ci phrase text.
Proof.
  split; [|apply occurs_ci_contains].
  intros H. apply contains_spec in H as (a & b & H).
  apply lower_app_inv in H as (t1 & t2 & -> & H1 & H2).
  apply lower_app_inv in H2 as (w & t3 & -> & Hw & H3).
  now exists t1, w, t3.
Qed.

Lemma occurs_ci_prefix p q text : occurs_ci (p +:+ q) text -> occurs_ci p text.
Proof.
  intros (a & w & b & -> & Hw).
  apply lower_app_inv in Hw as (w1 & w2 & -> & H1 & H2).
  exists a, w1, (w2 +:+ b). split; [now rewrite append_assoc | exact H1].
Qed.




(** X19. The decision of [process_file] in terms of the phrases a text
    contains, in any case: it is an invoice exactly when it contains
    "invoice no" (the test for "invoice" adds nothing), and a purchase order
    exactly when it does not and contains "purchase order", or "po no"
    without any "invoice". *)
Theorem classification_table :
  forall text,
    (classify text = Invoice <-> occurs_ci "invoice no" text) /\
    (classify text = PurchaseOrder <->
       ¬ occurs_ci "invoice no" text /\
       (occurs_ci "purchase order" text \/
        (occurs_ci "po no" text /\ ¬ occurs_ci "invoice" text))).
Proof.
  intros text.
  assert (Hsub : Str.contains "invoice no" (Str.lower text) = true ->
                 Str.contains "invoice" (Str.lower text) = true).
  { rewrite !contains_occurs_ci. apply (occurs_ci_prefix "invoice" " no"). }
  rewrite <- !contains_occurs_ci. unfold classify.
  destruct (Str.contains "invoice no" (Str.lower text)).
  - rewrite (Hsub eq_refl). cbn [andb]. intuition congruence.
  - rewrite andb_false_r.
    destruct (Str.contains "purchase order" (Str.lower text)),
             (Str.contains "po no" (Str.lower text)),
             (Str.contains "invoice" (Str.lower text));
      cbn [andb orb negb]; intuition congruence.
Qed.

(** * The run with its exceptions *)

(** ** Rows that the sheet takes as they are *)

Lemma substring_all s : forall n, String.length s <= n -> substring 0 n s = s.
Proof.
  induction s as [|c s IH]; intros n H; destruct n; cbn in *; try reflexivity; try lia.
  f_equal. apply IH. lia.
Qed.

(** A value that a cell takes as it is: a number, [None], or a string
    without illegal character that needs no cut. *)
Definition accepted (v : value) : Prop :=
  match v with
  | VStr s => String.length s <= Openpyxl.max_length /\ Openpyxl.has_illegal s = false
  | _ => True
  end.

Lemma accepted_bind v : accepted v -> Openpyxl.bind_value v = Openpyxl.Returns v.
Proof.
  destruct v as [| | |s]; try reflexivity. intros [Hl Hi].
  unfold Openpyxl.bind_value, Openpyxl.check_string, Str.slice.
  rewrite Nat.sub_0_r, substring_all by exact Hl. now rewrite Hi.
Qed.

Lemma bind_row_accepted r : Forall accepted r -> Openpyxl.bind_row r = (r, None).
Proof.
  induction 1 as [|v r Hv _ IH]; [reflexivity|].
  cbn [Openpyxl.bind_row]. now rewrite (accepted_bind v Hv), IH.
Qed.

(** A sheet of the first part as a sheet of openpyxl: every row is
    complete, and [append] writes behind the last one. *)
Definition complete (ws : sheet) : Openpyxl.worksheet :=
  Openpyxl.Worksheet ws (length ws).

Lemma append_complete (ws : sheet) (r : row) :
  r <> [] -> Forall accepted r ->
  Openpyxl.append (complete ws) r = (complete (ws ++ [r])%list, Openpyxl.Returns tt).
Proof.
  intros Hr Ha. unfold Openpyxl.append, complete, sheet, row in *.
  cbn [Openpyxl.cells Openpyxl._current_row].
  rewrite (bind_row_accepted r Ha).
  destruct (ws !! length ws) as [old|] eqn:E;
    [apply lookup_lt_Some in E; lia|]. cbn [default].
  rewrite drop_nil, app_nil_r. unfold Openpyxl.write_row.
  destruct r as [|v r]; [congruence|].
  rewrite Nat.ltb_irrefl, Nat.sub_diag. cbn [replicate app].
  rewrite length_app. cbn [length]. do 2 f_equal. lia.
Qed.

(** Rows of one width. *)
Definition uniform (w : nat) (ws : sheet) : Prop := Forall (fun r : row => length r = w) ws.

Lemma max_column_uniform w (ws : sheet) :
  ws <> [] -> 1 <= w -> uniform w ws -> Openpyxl.max_column (complete ws) = w.
Proof.
  intros Hne Hw Hu. unfold Openpyxl.max_column, complete. cbn [Openpyxl.cells].
  assert (E : foldr Nat.max 0 (map length ws) = w).
  { destruct Hu as [|r ws Hr Hu]; [congruence|]. clear Hne. cbn [map foldr]. rewrite Hr.
    induction Hu as [|r' ws Hr' _ IH]; cbn [map foldr]; [lia|]. rewrite Hr'. lia. }
  rewrite E. lia.
Qed.

Lemma read_row_uniform w k (ws : sheet) r :
  uniform w ws -> ws !! k = Some r ->
  Openpyxl.read_row w k (complete ws) = (complete ws, r).
Proof.
  intros Hu Hk. unfold Openpyxl.read_row, complete, sheet, row in *.
  cbn [Openpyxl.cells]. rewrite Hk. cbn [default from_option]. unfold id.
  pose proof (proj1 (Forall_lookup _ _) Hu k r Hk) as Hr. cbv beta in Hr.
  now rewrite Hr, Nat.ltb_irrefl.
Qed.

Lemma item_cell (t : row) i : i < length t -> Openpyxl.item t i = Openpyxl.Returns (cell t i).
Proof.
  intros H. unfold Openpyxl.item, cell, row in *.
  destruct (t !! i) as [v|] eqn:E; [reflexivity|].
  apply lookup_ge_None in E. lia.
Qed.

(** On complete rows the search reads without changing the sheet and
    finds the first row with the value. *)
Lemma find_row_uniform x w (ws : sheet) :
  2 <= w -> uniform w ws ->
  forall n k, k + n = length ws ->
    Openpyxl.find_row x w k n (complete ws)
    = (complete ws,
       Openpyxl.Returns (List.find (fun r => Py.eq (cell r 1) x) (drop k ws))).
Proof.
  intros Hw Hu. induction n as [|n IH]; intros k Hk; cbn [Openpyxl.find_row].
  - rewrite drop_ge by lia. reflexivity.
  - destruct (ws !! k) as [r|] eqn:E; [|apply lookup_ge_None in E; lia].
    rewrite (read_row_uniform w k ws r Hu E).
    pose proof (proj1 (Forall_lookup _ _) Hu k r E) as Hr. cbv beta in Hr.
    rewrite item_cell by lia.
    rewrite (drop_S ws r k E). cbn [List.find].
    destruct (Py.eq (cell r 1) x); [reflexivity|]. apply IH. lia.
Qed.

Lemma find_uniform x w (ws : sheet) :
  ws <> [] -> 2 <= w -> uniform w ws ->
  Openpyxl.find x (complete ws)
  = (complete ws,
     Openpyxl.Returns (List.find (fun r => Py.eq (cell r 1) x) (drop 1 ws))).
Proof.
  intros Hne Hw Hu. unfold Openpyxl.find.
  rewrite (max_column_uniform w ws Hne) by (lia || assumption).
  apply find_row_uniform; [exact Hw | exact Hu |].
  cbn [complete Openpyxl.cells]. destruct ws; [congruence | cbn [length]; lia].
Qed.

Lemma lookup_rows_find rows x :
  lookup_rows rows x
  = match List.find (fun r => Py.eq (cell r 1) x) rows with
    | Some r => (cell r 2, cell r 4)
    | None => (VNone, VNone)
    end.
Proof.
  induction rows as [|r rows IH]; [reflexivity|]. cbn [lookup_rows List.find].
  now destruct (Py.eq (cell r 1) x).
Qed.

Lemma existsb_find rows x :
  existsb (fun r => Py.eq (cell r 1) x) rows
  = match List.find (fun r => Py.eq (cell r 1) x) rows with
    | Some _ => true
    | None => false
    end.
Proof.
  induction rows as [|r rows IH]; [reflexivity|]. cbn [existsb List.find].
  now destruct (Py.eq (cell r 1) x).
Qed.

(** ** The methods on complete sheets *)

Definition of_workbook (wb : workbook) : Run.workbook :=
  Run.Workbook (complete (po_details wb)) (complete (invoice_details wb)).

Definition of_state (st : state) : Run.state :=
  Run.State (of_workbook (wb st)) (errors st).

(** The cells of the PO sheet are values that a cell takes as they are. *)
Definition stored (wb : workbook) : Prop := Forall (Forall accepted) (po_details wb).

(** So are the values of a dictionary. *)
Definition accepted_data (data : Dict) : Prop :=
  forall key v, data !! key = Some v -> accepted v.

Lemma accepted_get data key dflt :
  accepted_data data -> accepted dflt -> accepted (get data key dflt).
Proof.
  intros Hd Hf. unfold get. destruct (data !! key) as [v|] eqn:E; [|exact Hf].
  exact (Hd key v E).
Qed.

Lemma accepted_literal s :
  String.length s <= 20 -> Openpyxl.has_illegal s = false -> accepted (VStr s).
Proof.
  intros Hl Hi. split; [|exact Hi]. transitivity 20; [exact Hl|].
  unfold Openpyxl.max_length. apply Nat.leb_le. vm_compute. reflexivity.
Qed.

Lemma bind_returns {A B} (m : Run.M A) (f : A -> Run.M B) st st' a :
  m st = (st', Openpyxl.Returns a) -> Run.bind m f st = f a st'.
Proof. intros H. unfold Run.bind. now rewrite H. Qed.

Lemma get_of_workbook wb name :
  Run.get_sheet (of_workbook wb) name = complete (get_sheet wb name).
Proof. now destruct name. Qed.

Lemma set_of_workbook wb name ws :
  Run.set_sheet (of_workbook wb) name (complete ws)
  = of_workbook match name with
                | PO_Details => Workbook ws (invoice_details wb)
                | Invoice_Details => Workbook (po_details wb) ws
                end.
Proof. now destruct name. Qed.

Lemma of_workbook_eta wb name :
  Run.set_sheet (of_workbook wb) name (complete (get_sheet wb name)) = of_workbook wb.
Proof. destruct wb, name; reflexivity. Qed.

Lemma serial_agrees name st :
  Run._get_next_serial_number name (of_state st)
  = (of_state st, Openpyxl.Returns (_get_next_serial_number (wb st) name)).
Proof.
  unfold Run._get_next_serial_number, Run.bind, Run.on_sheet, Run.ret, of_state.
  cbn [Run.wb Run.errors]. rewrite get_of_workbook, of_workbook_eta. reflexivity.
Qed.

Lemma rectangular_uniform wb :
  rectangular wb ->
  (po_details wb <> [] /\ uniform 5 (po_details wb)) /\
  (invoice_details wb <> [] /\ uniform 12 (invoice_details wb)).
Proof.
  intros [(recs & -> & Hp) (recs' & -> & Hi)].
  repeat split; try discriminate; constructor; auto.
Qed.

Lemma find_agrees name x st :
  rectangular (wb st) ->
  Run.on_sheet name (Openpyxl.find x) (of_state st)
  = (of_state st,
     Openpyxl.Returns (List.find (fun r => Py.eq (cell r 1) x) (records (wb st) name))).
Proof.
  intros Hr. destruct (rectangular_uniform _ Hr) as [[Hp Hup] [Hi Hui]].
  unfold Run.on_sheet, of_state. cbn [Run.wb Run.errors]. rewrite get_of_workbook.
  destruct name.
  - rewrite (find_uniform x 5 (get_sheet (wb st) PO_Details) Hp) by (lia || assumption).
    now rewrite of_workbook_eta.
  - rewrite (find_uniform x 12 (get_sheet (wb st) Invoice_Details) Hi)
      by (lia || assumption).
    now rewrite of_workbook_eta.
Qed.

Lemma lookup_agrees x st :
  rectangular (wb st) ->
  Run._lookup_po_details x (of_state st)
  = (of_state st, Openpyxl.Returns (_lookup_po_details (wb st) x)).
Proof.
  intros Hr. unfold Run._lookup_po_details.
  rewrite (bind_returns _ _ _ _ _ (find_agrees PO_Details x st Hr)).
  unfold _lookup_po_details. fold (records (wb st) PO_Details). rewrite lookup_rows_find.
  destruct (List.find _ _) as [r|] eqn:E; [|reflexivity].
  apply List.find_some in E as [Hin _].
  destruct (rectangular_uniform _ Hr) as [[_ Hup] _].
  assert (Hl : length r = 5).
  { unfold records, iter_rows_from_2 in Hin. cbn [get_sheet] in Hin.
    apply list_elem_of_In, (subseteq_drop 1) in Hin.
    exact (proj1 (Forall_forall _ _) Hup r Hin). }
  unfold Run.bind, Run.raise_of, Run.ret. now rewrite !item_cell by lia.
Qed.

Lemma exists_agrees x st :
  rectangular (wb st) ->
  Run._invoice_exists x (of_state st)
  = (of_state st, Openpyxl.Returns (_invoice_exists (wb st) x)).
Proof.
  intros Hr. unfold Run._invoice_exists.
  rewrite (bind_returns _ _ _ _ _ (find_agrees Invoice_Details x st Hr)).
  unfold Run.ret, _invoice_exists. fold (records (wb st) Invoice_Details).
  now rewrite existsb_find.
Qed.

Lemma append_agrees name (r : row) st :
  r <> [] -> Forall accepted r ->
  Run.on_sheet name (fun ws => Openpyxl.append ws r) (of_state st)
  = (of_state (State (append (wb st) name r) (errors st)), Openpyxl.Returns tt).
Proof.
  intros Hr Ha. unfold Run.on_sheet, of_state. cbn [Run.wb Run.errors wb errors].
  rewrite get_of_workbook, (append_complete _ r Hr Ha), set_of_workbook.
  now destruct name.
Qed.

Lemma po_row_accepted po_data wb :
  accepted_data po_data -> Forall accepted (po_row po_data wb).
Proof.
  intros Hd. unfold po_row.
  repeat (constructor; [first [exact I | apply accepted_get; [exact Hd|];
                               first [exact I | apply accepted_literal;
                                                [cbn; lia | reflexivity]]]|]).
  constructor.
Qed.

(** [add_po_record] with data that the sheet takes returns, and leaves the
    workbook of the first part. *)
Lemma add_po_record_agrees po_data st :
  accepted_data po_data ->
  Run.add_po_record po_data (of_state st)
  = (of_state (State (add_po_record po_data (wb st)) (errors st)), Openpyxl.Returns tt).
Proof.
  intros Hd. unfold Run.add_po_record.
  rewrite (bind_returns _ _ _ _ _ (serial_agrees PO_Details st)).
  apply (append_agrees PO_Details (po_row po_data (wb st)));
    [discriminate | now apply po_row_accepted].
Qed.

Lemma accepted_or a b : accepted a -> accepted b -> accepted (Py.or a b).
Proof. intros Ha Hb. unfold Py.or. now destruct (Py.truthy a). Qed.

Lemma lookup_rows_accepted rows x :
  Forall (Forall accepted) rows ->
  accepted (fst (lookup_rows rows x)) /\ accepted (snd (lookup_rows rows x)).
Proof.
  intros H. rewrite lookup_rows_find.
  destruct (List.find (fun r => Py.eq (cell r 1) x) rows) as [r|] eqn:E;
    [|split; exact I].
  apply List.find_some in E as [Hin _].
  apply list_elem_of_In in Hin. pose proof (proj1 (Forall_forall _ _) H r Hin) as Hr.
  assert (Hc : forall i, accepted (cell r i)).
  { intros i. unfold cell. destruct (r !! i) as [v|] eqn:Ei; [|exact I].
    exact (proj1 (Forall_lookup _ _) Hr i v Ei). }
  split; apply Hc.
Qed.

Lemma lookup_accepted wb x :
  stored wb ->
  accepted (fst (_lookup_po_details wb x)) /\ accepted (snd (_lookup_po_details wb x)).
Proof.
  intros H. apply lookup_rows_accepted. unfold iter_rows_from_2. cbn [get_sheet].
  now apply Forall_drop.
Qed.

Lemma stub_data_accepted invoice_data :
  accepted_data invoice_data -> accepted_data (stub_data invoice_data).
Proof.
  intros Hd key v. unfold stub_data.
  rewrite !lookup_insert_Some, lookup_empty.
  intros [[_ <-] | [_ [[_ <-] | [_ [[_ <-] | [_ [[_ <-] | [_ [=]]]]]]]]].
  - apply accepted_literal; [cbn; lia | reflexivity].
  - exact I.
  - apply accepted_get; [exact Hd|]. apply accepted_literal; [cbn; lia | reflexivity].
  - apply accepted_get; [exact Hd|]. apply accepted_literal; [cbn; lia | reflexivity].
Qed.

Lemma rectangular_add_po po_data wb : rectangular wb -> rectangular (add_po_record po_data wb).
Proof. intros H. now apply rectangular_append_po. Qed.

Lemma stored_add_po po_data wb :
  stored wb -> accepted_data po_data -> stored (add_po_record po_data wb).
Proof.
  intros Hs Hd. unfold stored. rewrite add_po_record_po.
  apply Forall_app. split; [exact Hs|]. constructor; [|constructor].
  now apply po_row_accepted.
Qed.

Lemma invoice_row_accepted invoice_data serial pd dp :
  accepted_data invoice_data -> accepted pd -> accepted dp ->
  Forall accepted (invoice_row invoice_data serial pd dp).
Proof.
  intros Hd Hp Hdp. unfold invoice_row.
  assert (Hlit : forall s, String.length s <= 20 -> Openpyxl.has_illegal s = false ->
                           forall key, accepted (get invoice_data key (VStr s))).
  { intros s Hl Hi key. apply accepted_get; [exact Hd | now apply accepted_literal]. }
  assert (Hint : forall key z, accepted (get invoice_data key (VInt z))).
  { intros key z. apply accepted_get; [exact Hd | exact I]. }
  repeat (constructor;
          [first [exact I | apply Hint | apply Hlit; [cbn; lia | reflexivity]
                 | apply accepted_or; first [assumption | apply Hlit; [cbn; lia | reflexivity]
                                            | apply accepted_literal;
                                              [cbn; lia | reflexivity]]]|]).
  constructor.
Qed.

(** [add_invoice_record] on complete sheets whose PO cells and whose data
    the sheet takes returns, and leaves the workbook of the first part. *)
Lemma add_invoice_record_agrees invoice_data st :
  rectangular (wb st) -> stored (wb st) -> accepted_data invoice_data ->
  Run.add_invoice_record invoice_data (of_state st)
  = (of_state (State (add_invoice_record invoice_data (wb st)) (errors st)),
     Openpyxl.Returns tt).
Proof.
  intros Hr Hs Hd. unfold Run.add_invoice_record, add_invoice_record.
  set (invoice_number := get invoice_data "invoice_number" (VStr "")).
  set (po_number := get invoice_data "po_number" (VStr "")).
  destruct st as [w errs]. cbn [wb errors] in *.
  assert (Hdup : (if Py.truthy invoice_number
                  then Run._invoice_exists invoice_number
                  else Run.ret false) (of_state (State w errs))
                 = (of_state (State w errs),
                    Openpyxl.Returns (Py.truthy invoice_number
                                      && _invoice_exists w invoice_number))).
  { destruct (Py.truthy invoice_number); [|reflexivity].
    now rewrite (exists_agrees invoice_number (State w errs) Hr). }
  rewrite (bind_returns _ _ _ _ _ Hdup).
  destruct (Py.truthy invoice_number && _invoice_exists w invoice_number); [reflexivity|].
  rewrite (bind_returns _ _ _ _ _ (serial_agrees Invoice_Details (State w errs))).
  cbn [wb].
  destruct (Py.truthy po_number); cbv iota.
  - pose proof (lookup_agrees po_number (State w errs) Hr) as Hl. cbn [wb] in Hl.
    pose proof (lookup_accepted w po_number Hs) as [Ha1 Ha2].
    destruct (_lookup_po_details w po_number) as [pd dp] eqn:El. cbn [fst snd] in *.
    unfold Run.bind at 1 2. rewrite Hl. cbn [fst snd].
    destruct (Py.truthy pd); cbn [negb]; cbv iota.
    + unfold Run.ret. cbn [fst snd].
      apply (append_agrees Invoice_Details
               (invoice_row invoice_data (_get_next_serial_number w Invoice_Details) pd dp)
               (State w errs)); [discriminate | now apply invoice_row_accepted].
    + subst po_number. fold (stub_data invoice_data).
      set (po_number := get invoice_data "po_number" (VStr "")) in *.
      pose proof (add_po_record_agrees (stub_data invoice_data) (State w errs)
                    (stub_data_accepted _ Hd)) as Hpo. cbn [wb errors] in Hpo.
      pose proof (lookup_agrees po_number
                    (State (add_po_record (stub_data invoice_data) w) errs)
                    (rectangular_add_po _ _ Hr)) as Hl2. cbn [wb] in Hl2.
      pose proof (lookup_accepted (add_po_record (stub_data invoice_data) w) po_number
                    (stored_add_po _ _ Hs (stub_data_accepted _ Hd))) as [Hb1 Hb2].
      destruct (_lookup_po_details (add_po_record (stub_data invoice_data) w) po_number)
        as [pd' dp'] eqn:El2. cbn [fst snd] in *.
      unfold Run.bind. rewrite Hpo, Hl2. cbn [fst snd].
      apply (append_agrees Invoice_Details
               (invoice_row invoice_data (_get_next_serial_number w Invoice_Details) pd' dp')
               (State (add_po_record (stub_data invoice_data) w) errs));
        [discriminate | now apply invoice_row_accepted].
  - unfold Run.bind, Run.ret. cbn [fst snd].
    apply (append_agrees Invoice_Details
             (invoice_row invoice_data (_get_next_serial_number w Invoice_Details)
                VNone VNone)
             (State w errs)); [discriminate|].
    apply invoice_row_accepted; [exact Hd | exact I | exact I].
Qed.

Lemma rectangular_add_invoice invoice_data wb :
  rectangular wb -> rectangular (add_invoice_record invoice_data wb).
Proof.
  intros H.
  destruct (Py.truthy (get invoice_data "invoice_number" (VStr "")) &&
            _invoice_exists wb (get invoice_data "invoice_number" (VStr ""))) eqn:Hgate.
  - now rewrite (gate_true_noop _ _ Hgate).
  - destruct (add_invoice_record_spec _ _ Hgate) as (wb1 & pd & dp & Hres & ->).
    apply rectangular_append_invoice; [|reflexivity].
    destruct Hres; [exact H | exact H | now apply rectangular_append_po].
Qed.

Lemma stored_add_invoice invoice_data wb :
  stored wb -> accepted_data invoice_data -> stored (add_invoice_record invoice_data wb).
Proof.
  intros Hs Hd.
  destruct (Py.truthy (get invoice_data "invoice_number" (VStr "")) &&
            _invoice_exists wb (get invoice_data "invoice_number" (VStr ""))) eqn:Hgate.
  - now rewrite (gate_true_noop _ _ Hgate).
  - destruct (add_invoice_record_spec _ _ Hgate) as (wb1 & pd & dp & Hres & ->).
    unfold stored. cbn [append po_details].
    destruct (resolved_grows _ _ _ _ _ Hres) as [_ [-> | ->]]; [exact Hs|].
    apply Forall_app. split; [exact Hs|]. constructor; [|constructor].
    apply po_row_accepted, stub_data_accepted, Hd.
Qed.

(** ** One document and a batch *)

(** The sheet takes what is extracted from the text. *)
Definition accepted_text (text : string) : Prop :=
  match classify text with
  | Invoice => forall data, parse_invoice_data text = Some data -> accepted_data data
  | PurchaseOrder => forall data, parse_po_data text = Some data -> accepted_data data
  | Unknown => True
  end.

Lemma process_file_agrees name text st :
  rectangular (wb st) -> stored (wb st) -> accepted_text text ->
  Run.process_file name text (of_state st) = of_state (process_text name text st).
Proof.
  intros Hr Hs Ha. unfold Run.process_file, Run.process_body, process_text, accepted_text in *.
  destruct (String.eqb (Str.strip text) ""); [reflexivity|].
  destruct (classify text); [| |reflexivity].
  - destruct (parse_invoice_data text) as [data|]; [|reflexivity].
    now rewrite (add_invoice_record_agrees data st Hr Hs (Ha data eq_refl)).
  - destruct (parse_po_data text) as [data|]; [|reflexivity].
    now rewrite (add_po_record_agrees data st (Ha data eq_refl)).
Qed.

Lemma process_text_keeps name text st :
  rectangular (wb st) -> stored (wb st) -> accepted_text text ->
  rectangular (wb (process_text name text st)) /\ stored (wb (process_text name text st)).
Proof.
  intros Hr Hs Ha. unfold process_text, accepted_text in *.
  destruct (String.eqb (Str.strip text) ""); [now split|].
  destruct (classify text); [| |now split].
  - destruct (parse_invoice_data text) as [data|]; [|now split]. cbn [wb]. split.
    + now apply rectangular_add_invoice.
    + apply stored_add_invoice; [exact Hs | now apply Ha].
  - destruct (parse_po_data text) as [data|]; [|now split]. cbn [wb]. split.
    + now apply rectangular_add_po.
    + apply stored_add_po; [exact Hs | now apply Ha].
Qed.

Lemma process_all_files_agrees docs :
  Forall (fun doc => accepted_text (snd doc)) docs ->
  forall st, rectangular (wb st) -> stored (wb st) ->
    Run.process_all_files docs (of_state st) = of_state (process_texts docs st).
Proof.
  induction 1 as [|doc docs Hd _ IH]; intros st Hr Hs; [reflexivity|].
  cbn [Run.process_all_files process_texts fold_left].
  rewrite (process_file_agrees _ _ st Hr Hs Hd).
  destruct (process_text_keeps (fst doc) (snd doc) st Hr Hs Hd) as [Hr' Hs'].
  exact (IH _ Hr' Hs').
Qed.

Lemma new_workbook_normal : rectangular _create_sheets /\ stored _create_sheets.
Proof.
  split.
  - split; eexists; (split; [reflexivity | constructor]).
  - constructor; [|constructor]. unfold po_headers.
    repeat (constructor; [apply accepted_literal; [cbn; lia | reflexivity]|]).
    constructor.
Qed.

(** [accepted] as a test. *)
Definition acceptedb (v : value) : bool :=
  match v with
  | VStr s => (String.length s <=? Openpyxl.max_length)%nat && negb (Openpyxl.has_illegal s)
  | _ => true
  end.

Lemma acceptedb_accepted v : acceptedb v = true -> accepted v.
Proof.
  destruct v as [| | |s]; try (intros _; exact I). cbn [acceptedb accepted].
  rewrite andb_true_iff, Nat.leb_le, negb_true_iff. tauto.
Qed.

Lemma accepted_data_test (data : Dict) :
  forallb (fun kv => acceptedb (snd kv)) (map_to_list data) = true -> accepted_data data.
Proof.
  intros H key v Hkv. apply acceptedb_accepted.
  rewrite forallb_forall in H. apply (H (key, v)).
  apply list_elem_of_In, elem_of_map_to_list, Hkv.
Qed.

(** The test of [accepted_text]. *)
Definition accepted_textb (text : string) : bool :=
  let test (data : option Dict) :=
    match data with
    | Some data => forallb (fun kv => acceptedb (snd kv)) (map_to_list data)
    | None => true
    end in
  match classify text with
  | Invoice => test (parse_invoice_data text)
  | PurchaseOrder => test (parse_po_data text)
  | Unknown => true
  end.

Lemma accepted_text_test text : accepted_textb text = true -> accepted_text text.
Proof.
  unfold accepted_textb, accepted_text. destruct (classify text); [| |trivial].
  - destruct (parse_invoice_data text) as [d|]; [|discriminate].
    intros H data [= <-]. now apply accepted_data_test.
  - destruct (parse_po_data text) as [d|]; [|discriminate].
    intros H data [= <-]. now apply accepted_data_test.
Qed.

(** ** A refused department

    The form feed, which OCR puts between the pages of a document. *)
Definition ff : string := String (ascii_of_N 12) EmptyString.

(** A PO document of two pages: the department goes on to the first word
    of the second page, with the form feed in it. *)
Definition two_pages : string :=
  "Purchase Order" +:+ nl +:+ "PO Number: 5" +:+ nl +:+ "Department: Finance" +:+ nl
  +:+ ff +:+ "Page 2".

Definition po_7001 : string :=
  "Purchase Order" +:+ nl +:+ "PO Number: 7001" +:+ nl +:+ "Department: Sales".

Definition po_7002 : string :=
  "Purchase Order" +:+ nl +:+ "PO Number: 7002" +:+ nl +:+ "Department: Sales".

(** C7, where the code departs from it.  The department of the first
    document is refused: [ws.append] raises at the fifth cell, the four
    cells before it stay on the sheet, [_current_row] does not move, and
    the [except] branch of [process_file] writes the error and goes on.
    The partial row counts for [max_row], so that the next PO gets the
    serial 2, and it is written over the partial row, so that the PO after
    it gets the serial 2 again: the first record has the serial 2, and two
    records share it. *)
Theorem refused_department_repeats_a_serial :
  let st1 := Run.process_file "scan.pdf" two_pages (Run.State Run._create_sheets []) in
  let st2 := Run.process_file "po-7001.pdf" po_7001 st1 in
  let st3 := Run.process_file "po-7002.pdf" po_7002 st2 in
  Openpyxl.cells (Run.po_details (Run.wb st1))
    = [po_headers; [VInt 1; VStr "5"; VStr ""; VInt 0]] /\
  Run.errors st1
    = [("scan.pdf",
        "Finance" +:+ nl +:+ ff +:+ "Page cannot be used in worksheets.")] /\
  Openpyxl.cells (Run.po_details (Run.wb st2))
    = [po_headers; [VInt 2; VStr "7001"; VStr ""; VInt 0; VStr "Sales"]] /\
  Openpyxl.cells (Run.po_details (Run.wb st3))
    = [po_headers;
       [VInt 2; VStr "7001"; VStr ""; VInt 0; VStr "Sales"];
       [VInt 2; VStr "7002"; VStr ""; VInt 0; VStr "Sales"]] /\
  Run.errors st3 = Run.errors st1.
Proof. vm_compute. repeat split; reflexivity. Qed.

(** X10. On complete sheets, [process_file] with a text whose values the
    sheet takes ends as [process_text] does, without exception.  It changes
    the state at the end of its lists only: it adds at most one invoice
    record, at most one PO record and at most one error, and when it adds an
    error it adds no row. *)
Theorem process_file_appends :
  forall name text st,
    rectangular (wb st) -> stored (wb st) -> accepted_text text ->
    exists new_po new_inv new_err,
      Run.process_file name text (of_state st)
      = of_state (State (Workbook (po_details (wb st) ++ new_po)
                                  (invoice_details (wb st) ++ new_inv))
                        (errors st ++ new_err))%list /\
      length new_po <= 1 /\ length new_inv <= 1 /\ length new_err <= 1 /\
      (new_err <> [] -> new_po = [] /\ new_inv = []).
Proof.
  intros name text st Hr Hs Ha. rewrite (process_file_agrees name text st Hr Hs Ha).
  destruct (process_text_grows name text st) as (np & ni & ne & Hp & Hi & He & H).
  exists np, ni, ne. split; [|exact H].
  rewrite <- Hp, <- Hi, <- He. now destruct (process_text name text st) as [[] ?].
Qed.

Lemma process_file_appends_witness :
  exists new_po new_inv new_err,
    Run.process_file "po.pdf" po_text (of_state (State _create_sheets []))
    = of_state (State (Workbook ([po_headers] ++ new_po) ([invoice_headers] ++ new_inv))
                      ([] ++ new_err))%list /\
    length new_po <= 1 /\ length new_inv <= 1 /\ length new_err <= 1 /\
    (new_err <> [] -> new_po = [] /\ new_inv = []).
Proof.
  exact (process_file_appends "po.pdf" po_text (State _create_sheets [])
           (proj1 new_workbook_normal) (proj2 new_workbook_normal)
           (accepted_text_test po_text ltac:(vm_compute; reflexivity))).
Defined.

(** The records of a sheet of the run. *)
Definition run_records (st : Run.state) (name : sheet_name) : list row :=
  drop 1 (Openpyxl.cells (Run.get_sheet (Run.wb st) name)).

Lemma run_records_of_state st name : run_records (of_state st) name = records (wb st) name.
Proof. now destruct name. Qed.

(** X11. A batch of documents whose values the sheet takes, run from a new
    workbook with the sheets of openpyxl and the [except] branch, ends as
    the run of [process_text] does, and keeps the invariants of the store:
    the record at position [i] of a sheet has serial [i + 1], no two invoice
    records share a non-empty invoice number, and every non-empty PO number
    of an invoice record is on the PO sheet. *)
Theorem batch_keeps_invariants :
  forall docs,
    Forall (fun doc => accepted_text (snd doc)) docs ->
    let st := Run.process_all_files docs (Run.State Run._create_sheets []) in
    st = of_state (process_texts docs (State _create_sheets [])) /\
    (forall name i r,
       run_records st name !! i = Some r -> cell r 0 = VInt (Z.of_nat i + 1)) /\
    numbers_unique (run_records st Invoice_Details) /\
    (forall r p,
       In r (run_records st Invoice_Details) -> cell r 3 = VStr p -> p <> "" ->
       exists r', In r' (run_records st PO_Details) /\ Py.eq (cell r' 1) (VStr p) = true).
Proof.
  intros docs Hd st.
  assert (E : st = of_state (process_texts docs (State _create_sheets []))).
  { apply (process_all_files_agrees docs Hd (State _create_sheets []));
      apply new_workbook_normal. }
  split; [exact E|]. rewrite E. clear E st.
  assert (Hr : reachable (wb (process_texts docs (State _create_sheets []))))
    by (apply process_texts_reachable, reach_new).
  split; [|split].
  - intros name. rewrite run_records_of_state. apply (reachable_invariant _ Hr name).
  - rewrite run_records_of_state. apply (store_invariants _ Hr).
  - rewrite !run_records_of_state. apply (store_invariants _ Hr).
Qed.

Lemma batch_keeps_invariants_witness :
  Run.process_all_files [("po.pdf", po_text); ("invoice.pdf", invoice_text)]
    (Run.State Run._create_sheets [])
  = of_state (process_texts [("po.pdf", po_text); ("invoice.pdf", invoice_text)]
                (State _create_sheets [])) /\
  numbers_unique
    (run_records
       (Run.process_all_files [("po.pdf", po_text); ("invoice.pdf", invoice_text)]
          (Run.State Run._create_sheets [])) Invoice_Details).
Proof.
  destruct (batch_keeps_invariants [("po.pdf", po_text); ("invoice.pdf", invoice_text)])
    as (E & _ & Hu & _).
  - repeat constructor; apply accepted_text_test; vm_compute; reflexivity.
  - split; [exact E | exact Hu].
Defined.

(** X20. [_get_next_serial_number] on the sheet of openpyxl returns the
    number of rows behind the header plus one, a row that a refused
    [append] left among them, and changes nothing. *)
Theorem next_serial_counts_rows :
  forall st name header rows,
    Openpyxl.cells (Run.get_sheet (Run.wb st) name) = header :: rows ->
    Run._get_next_serial_number name st
    = (st, Openpyxl.Returns (Z.of_nat (length rows) + 1)%Z).
Proof.
  intros st name header rows H.
  unfold Run._get_next_serial_number, Run.bind, Run.on_sheet, Run.ret, Openpyxl.max_row.
  rewrite H. cbn [length].
  replace (Run.State (Run.set_sheet (Run.wb st) name (Run.get_sheet (Run.wb st) name))
             (Run.errors st)) with st by (destruct st as [[] ?], name; reflexivity).
  f_equal. f_equal.
  destruct (Z.eqb_spec (Z.max 1 (Z.of_nat (S (length rows)))) 1); lia.
Qed.

Lemma next_serial_counts_rows_witness :
  fst (Run._get_next_serial_number PO_Details (Run.State Run._create_sheets []))
  = Run.State Run._create_sheets [] /\
  snd (Run._get_next_serial_number PO_Details
         (Run.process_file "scan.pdf" two_pages (Run.State Run._create_sheets [])))
  = Openpyxl.Returns 2%Z.
Proof.
  split.
  - now rewrite (next_serial_counts_rows (Run.State Run._create_sheets []) PO_Details
                   po_headers [] eq_refl).
  - now rewrite (next_serial_counts_rows
                   (Run.process_file "scan.pdf" two_pages (Run.State Run._create_sheets []))
                   PO_Details po_headers [[VInt 1; VStr "5"; VStr ""; VInt 0]]
                   ltac:(vm_compute; reflexivity)).
Defined.

(** X21. The documents of the claims C3, C6 and C9 hold nothing that the
    sheet refuses: run with the sheets of openpyxl and the [except] branch
    they end in the rows and errors that [process_text] gives. *)
Theorem examples_run_alike :
  Run.process_all_files [("po.pdf", po_text); ("invoice.pdf", invoice_text)]
    (Run.State Run._create_sheets [])
  = of_state (process_text "invoice.pdf" invoice_text
                (process_text "po.pdf" po_text (State _create_sheets []))) /\
  Run.process_file "example.pdf" example_text (Run.State Run._create_sheets [])
  = of_state (process_text "example.pdf" example_text (State _create_sheets [])) /\
  Run.process_file "scan.png" "Invoice No" (Run.State Run._create_sheets [])
  = of_state (process_text "scan.png" "Invoice No" (State _create_sheets [])).
Proof. vm_compute. repeat split; reflexivity. Qed.
